(** * Simple-Multiplayer: scenario merge and vote coordinator

    A shallow embedding of the scenario endpoints of [Source/server.py]
    (TechTree, SciencePoints, ScienceArchives, SCANcontroller uploads and
    the SciencePoints download), of the scan-coverage helpers of
    [Server/serverold.py] ([_map_union] and the base64 wrappers) and of
    the tech-tree vote endpoints.

    Conventions.
    - Text is [string]; the characters are the code points below 256.
      The Python string methods the handlers use are written out in
      module [Py] with their behaviour on that range.
    - The files of the record store are a finite map from path to
      content; an absent key is a file that does not exist.
    - Python's [float] is not part of the repository: the handlers are
      defined over an interface [PyFloat] (parsing, the two formats the
      handlers print, [+], [-], [<], [<=]).  Nothing is assumed about it
      unless a lemma says so.  [Dec] is a decimal instance on which the
      handlers can be run.
    - An exception that a handler catches is an [option]; the handlers'
      answers are pairs of a body and a status code. *)

From Stdlib Require Import Ascii NArith ZArith.
From stdpp Require Import gmap strings list fin_maps sorting.

(** ** Python string methods *)

Module Py.

(** [c.isspace()] for a code point below 256: tab, line feed, vertical
    tab, form feed, carriage return, the four separators 0x1c-0x1f,
    space, next line (0x85) and no-break space (0xa0). *)
Definition is_space (c : ascii) : bool :=
  let n := N_of_ascii c in
  ((9 <=? n) && (n <=? 13) || (28 <=? n) && (n <=? 31) || (n =? 32)
   || (n =? 133) || (n =? 160))%N.

(** Line boundaries of [str.splitlines] below 256: line feed, vertical
    tab, form feed, carriage return, the separators 0x1c-0x1e and next
    line (0x85). *)
Definition is_linebreak (c : ascii) : bool :=
  let n := N_of_ascii c in
  ((10 <=? n) && (n <=? 13) || (28 <=? n) && (n <=? 30) || (n =? 133))%N.

(** [c.isalnum()] for a code point below 256: the ASCII letters and
    digits, and the Latin-1 letters and numerals. *)
Definition is_alnum (c : ascii) : bool :=
  let n := N_of_ascii c in
  ((48 <=? n) && (n <=? 57) || (65 <=? n) && (n <=? 90) || (97 <=? n) && (n <=? 122)
   || (n =? 170) || (n =? 178) || (n =? 179) || (n =? 181) || (n =? 185) || (n =? 186)
   || (188 <=? n) && (n <=? 190) || (192 <=? n) && (n <=? 214)
   || (216 <=? n) && (n <=? 246) || (248 <=? n) && (n <=? 255))%N.

Definition LF : ascii := "010"%char.
Definition CR : ascii := "013"%char.

Fixpoint lstrip (s : string) : string :=
  match s with
  | String c s' => if is_space c then lstrip s' else s
  | EmptyString => EmptyString
  end.

Fixpoint rstrip (s : string) : string :=
  match s with
  | String c s' =>
      match rstrip s' with
      | EmptyString => if is_space c then EmptyString else String c EmptyString
      | r => String c r
      end
  | EmptyString => EmptyString
  end.

Definition strip (s : string) : string := rstrip (lstrip s).

(** [s.startswith(p)] *)
Fixpoint startswith (s p : string) : bool :=
  match p, s with
  | EmptyString, _ => true
  | String a p', String b s' => if bool_decide (a = b) then startswith s' p' else false
  | String _ _, EmptyString => false
  end.

(** [s.endswith(p)] *)
Definition endswith (s p : string) : bool :=
  startswith (String.rev s) (String.rev p).

(** [sub in s] *)
Fixpoint contains (s sub : string) : bool :=
  startswith s sub ||
  match s with
  | String _ s' => contains s' sub
  | EmptyString => false
  end.

(** [s.splitlines()]: no empty last line, a carriage return followed
    by a line feed is one boundary. *)
Fixpoint splitlines (s : string) : list string :=
  match s with
  | EmptyString => []
  | String c s' =>
      if is_linebreak c then
        EmptyString ::
        match s' with
        | String c' s'' =>
            if bool_decide (c = CR) && bool_decide (c' = LF)
            then splitlines s'' else splitlines s'
        | EmptyString => []
        end
      else
        match splitlines s' with
        | [] => [String c EmptyString]
        | l :: ls => String c l :: ls
        end
  end.

(** [sep.join(l)] *)
Fixpoint join (sep : string) (l : list string) : string :=
  match l with
  | [] => EmptyString
  | [x] => x
  | x :: l' => x +:+ sep +:+ join sep l'
  end.

(** [s.split(c)] for a one-character separator: always at least one
    piece. *)
Fixpoint split (c : ascii) (s : string) : list string :=
  match s with
  | EmptyString => [EmptyString]
  | String a s' =>
      if bool_decide (a = c) then EmptyString :: split c s'
      else match split c s' with
           | [] => [String a EmptyString]
           | p :: ps => String a p :: ps
           end
  end.

(** [s.split(c, 1)]: at most one cut, at the first separator. *)
Fixpoint split1 (c : ascii) (s : string) : list string :=
  match s with
  | EmptyString => [EmptyString]
  | String a s' =>
      if bool_decide (a = c) then [EmptyString; s']
      else match split1 c s' with
           | p :: ps => String a p :: ps
           | [] => [String a EmptyString]
           end
  end.

(** [l[-1]] of a split, which is never empty. *)
Definition item_last (l : list string) : string := default EmptyString (last l).

(** [s.split("=", 1)[1]].  Every call is guarded by a [startswith] test
    on a prefix that contains the separator, so the index exists there
    (lemma [after_eq_guarded]); the empty string stands for the
    [IndexError] elsewhere. *)
Definition after_eq (s : string) : string :=
  default EmptyString (split1 "="%char s !! 1).

(** [bool(s)] for a string or [None]. *)
Definition truthy (o : option string) : bool :=
  match o with
  | Some (String _ _) => true
  | _ => false
  end.

(** [s.find(sub, start)]: the first index at or after [start] at which
    [sub] occurs. *)
Fixpoint find_from (s sub : string) (start : nat) : option nat :=
  match start, s with
  | O, _ =>
      if startswith s sub then Some O
      else match s with
           | String _ s' => S <$> find_from s' sub O
           | EmptyString => None
           end
  | S n, String _ s' => S <$> find_from s' sub n
  | S _, EmptyString => None
  end.

(** [s[i:]] and [s[:n]] for indices in range or beyond. *)
Fixpoint drop (i : nat) (s : string) : string :=
  match i, s with
  | O, _ => s
  | S i', String _ s' => drop i' s'
  | S _, EmptyString => EmptyString
  end.

Fixpoint take (n : nat) (s : string) : string :=
  match n, s with
  | O, _ => EmptyString
  | S n', String c s' => String c (take n' s')
  | S _, EmptyString => EmptyString
  end.

(** [s[i:j]] for [0 <= i], [0 <= j]. *)
Definition slice (s : string) (i j : nat) : string := take (j - i) (drop i s).

(** [s.replace("\r\n", "\n")] *)
Fixpoint replace_crlf (s : string) : string :=
  match s with
  | String c s' =>
      match s' with
      | String c' _ =>
          if bool_decide (c = CR) && bool_decide (c' = LF)
          then replace_crlf s' else String c (replace_crlf s')
      | EmptyString => String c EmptyString
      end
  | EmptyString => EmptyString
  end.

(** What reading a text file returns for what was written: a file
    opened without a [newline] argument maps a carriage return, alone
    or before a line feed, to a line feed. *)
Fixpoint universal_newlines (s : string) : string :=
  match s with
  | String c s' =>
      if bool_decide (c = CR) then
        match s' with
        | String c' s'' =>
            if bool_decide (c' = LF) then String LF (universal_newlines s'')
            else String LF (universal_newlines s')
        | EmptyString => String LF EmptyString
        end
      else String c (universal_newlines s')
  | EmptyString => EmptyString
  end.

(** The lines a [for line in f] loop sees once each is stripped: the
    text is cut at line feeds only. *)
Definition file_lines (s : string) : list string :=
  match s with
  | EmptyString => []
  | _ => let ps := split LF s in
         if bool_decide (last ps = Some EmptyString) then removelast ps else ps
  end.

(** ["".join(c for c in s if keep(c))] *)
Fixpoint filter_chars (keep : ascii → bool) (s : string) : string :=
  match s with
  | String c s' => if keep c then String c (filter_chars keep s') else filter_chars keep s'
  | EmptyString => EmptyString
  end.

(** Every character of [s] passes [p]. *)
Fixpoint all_chars (p : ascii → bool) (s : string) : bool :=
  match s with
  | String c s' => p c && all_chars p s'
  | EmptyString => true
  end.

(** The one-character string of a line feed. *)
Definition NL : string := String LF EmptyString.

End Py.

(** ** The float interface *)

(** What the handlers use of Python's [float]: [float(s)] ([None] is the
    [ValueError]), [f"{x}"], [f"{x:.6f}"], the literal [0.0], [+], [-],
    [<] and [<=].  [x > y] is [y < x] and [x >= y] is [y <= x]. *)
Class PyFloat := {
  float : Type;
  float_of_string : string → option float;
  repr : float → string;
  fmt6 : float → string;
  fzero : float;
  fadd : float → float → float;
  fsub : float → float → float;
  flt : float → float → bool;
  fle : float → float → bool;
}.

Section PyFloatOps.
Context `{PyFloat}.

Definition fgt (x y : float) : bool := flt y x.
Definition fge (x y : float) : bool := fle y x.

(** [max(a, b)]: the first argument unless the second is greater. *)
Definition pymax (a b : float) : float := if fgt b a then b else a.

(** [min(a, b)]: the first argument unless the second is smaller. *)
Definition pymin (a b : float) : float := if flt b a then b else a.
End PyFloatOps.

(** The order laws of the finite floats, for the lemmas that ask for
    them. *)
Class PyFloatOrder `{PyFloat} : Prop := {
  flt_fle : ∀ x y, flt x y = negb (fle y x);
  fle_refl : ∀ x, fle x x = true;
  fle_trans : ∀ x y z, fle x y = true → fle y z = true → fle x z = true;
  fle_antisym : ∀ x y, fle x y = true → fle y x = true → x = y;
  fle_total : ∀ x y, fle x y = true ∨ fle y x = true;
}.

(** A decimal instance: a number is its count of millionths.  It reads
    the literals with at most six decimals and an optional sign, and
    prints them as Python prints those values. *)
Module Dec.

Definition digit (c : ascii) : option Z :=
  let n := N_of_ascii c in
  if ((48 <=? n) && (n <=? 57))%N then Some (Z.of_N n - 48)%Z else None.

Fixpoint read_digits (s : string) : list Z * string :=
  match s with
  | String c s' =>
      match digit c with
      | Some d => let '(ds, r) := read_digits s' in (d :: ds, r)
      | None => ([], s)
      end
  | EmptyString => ([], EmptyString)
  end.

Definition number (ds : list Z) : Z := fold_left (λ a d, 10 * a + d)%Z ds 0%Z.

Definition unit : Z := 1000000.

Definition parse_unsigned (s : string) : option Z :=
  let '(ip, r) := read_digits s in
  match r with
  | EmptyString => if bool_decide (ip = []) then None else Some (number ip * unit)%Z
  | String c r' =>
      let '(fp, r'') := read_digits r' in
      if bool_decide (c = "."%char) && bool_decide (r'' = EmptyString)
         && negb (bool_decide (ip = []) && bool_decide (fp = []))
         && bool_decide (length fp ≤ 6)
      then Some (number ip * unit + number fp * 10 ^ (6 - Z.of_nat (length fp)))%Z
      else None
  end.

Definition parse (s : string) : option Z :=
  match Py.strip s with
  | String "-" t => Z.opp <$> parse_unsigned t
  | String "+" t => parse_unsigned t
  | t => parse_unsigned t
  end.

Definition digit_char (d : Z) : ascii := ascii_of_N (Z.to_N d + 48).

(** The decimal digits of [n], most significant first, at least
    [width] of them. *)
Fixpoint digits_of (width : nat) (n : Z) : string :=
  match width with
  | O => EmptyString
  | S w => digits_of w (n / 10) +:+ String (digit_char (n mod 10)) EmptyString
  end.

Fixpoint nat_digits (fuel : nat) (n : Z) : string :=
  match fuel with
  | O => EmptyString
  | S f => (if (n <? 10)%Z then EmptyString else nat_digits f (n / 10))
           +:+ String (digit_char (n mod 10)) EmptyString
  end.

Definition int_part (v : Z) : string :=
  let a := (Z.abs v / unit)%Z in nat_digits (S (Z.to_nat (Z.log2 a))) a.

Definition sign (v : Z) : string := if (v <? 0)%Z then "-" else "".

Fixpoint drop_zeros (s : string) : string :=
  match s with
  | String c s' =>
      match drop_zeros s' with
      | EmptyString => if bool_decide (c = "0"%char) then EmptyString else String c EmptyString
      | r => String c r
      end
  | EmptyString => EmptyString
  end.

Definition frac6 (v : Z) : string := digits_of 6 (Z.abs v mod unit).

Definition print6 (v : Z) : string := sign v +:+ int_part v +:+ "." +:+ frac6 v.

Definition print (v : Z) : string :=
  sign v +:+ int_part v +:+ "." +:+
  match drop_zeros (frac6 v) with EmptyString => "0" | f => f end.

#[export] Instance dec_float : PyFloat := {|
  float := Z;
  float_of_string := parse;
  repr := print;
  fmt6 := print6;
  fzero := 0%Z;
  fadd := Z.add;
  fsub := Z.sub;
  flt := Z.ltb;
  fle := Z.leb;
|}.

End Dec.

(** ** The record store and the requests *)

(** The scenario files, by path; the directories are not modelled. *)
Abbreviation store := (gmap string string).

(** A handler's answer: body and status code. *)
Abbreviation response := (string * nat)%type.

(** [safe_path_seg(name)] with the default ["default"]. *)
Definition safe_path_seg (name : string) : string :=
  let s := match name with EmptyString => "default" | _ => name end in
  Py.filter_chars
    (λ c, Py.is_alnum c || bool_decide (c = "_"%char) || bool_decide (c = "-"%char)
          || bool_decide (c = "."%char)) s.

(** [os.path.join(UPLOAD_FOLDER_SCENARIOS, save_safe, name)], relative to
    the scenarios folder. *)
Definition scenario_file (save_safe name : string) : string :=
  save_safe +:+ "/" +:+ name.

(** [f.read()] of a file opened for reading as text. *)
Definition read_text (fs : store) (path : string) : option string :=
  Py.universal_newlines <$> fs !! path.

(** [_resolve_user_from_request()], from the first non-empty of the
    [X-User] header, the [user] query argument and the [user] form
    field ([None] when there is none). *)
Definition _resolve_user_from_request (u : option string) : option string :=
  if Py.truthy u then safe_path_seg <$> u else None.

Section Scenario.
Context `{PyFloat}.

(** *** SciencePoints upload *)

(** [float(text.strip().split('=')[-1])] *)
Definition parse_points (text : string) : option float :=
  float_of_string (Py.item_last (Py.split "="%char (Py.strip text))).

Definition upload_SciencePoints (fs : store) (path new_data : string) : response * store :=
  match parse_points new_data with
  | None => (("Invalid format", 400), fs)
  | Some new_value =>
      let written := <[path := "sci = " +:+ repr new_value +:+ Py.NL]> fs in
      (("OK", 200),
       match read_text fs path with
       | Some old_text =>
           match parse_points old_text with
           | Some old_value => if fgt new_value old_value then written else fs
           | None => written
           end
       | None => written
       end)
  end.

(** *** TechTree upload *)

Record tech_scan := TechScan {
  ids : gset string;
  cost_map : gmap string float;
  current_id : option string;
}.

Definition tech_scan_line (st : tech_scan) (line0 : string) : tech_scan :=
  let line := Py.strip line0 in
  if Py.startswith line "Tech" then
    TechScan (ids st) (cost_map st) None
  else if Py.startswith line "id = " then
    let cid := Py.strip (Py.after_eq line) in
    TechScan ({[cid]} ∪ ids st) (cost_map st) (Some cid)
  else if Py.startswith line "cost = " && Py.truthy (current_id st) then
    match current_id st, float_of_string (Py.strip (Py.after_eq line)) with
    | Some cid, Some c => TechScan (ids st) (<[cid := c]> (cost_map st)) (current_id st)
    | _, _ => st
    end
  else st.

Definition extract_tech_ids_and_costs (text : string) : gset string * gmap string float :=
  let st := foldl tech_scan_line (TechScan ∅ ∅ None) (Py.splitlines text) in
  (ids st, cost_map st).

Record block_scan := BlockScan {
  blocks : list string;
  block : list string;
  inside_block : bool;
}.

Definition block_scan_line (st : block_scan) (line : string) : block_scan :=
  if Py.startswith (Py.strip line) "Tech" then
    BlockScan (blocks st) [line] true
  else if inside_block st then
    if bool_decide (Py.strip line = "}") then
      BlockScan (blocks st ++ [Py.join Py.NL (block st ++ [line])]) (block st ++ [line]) false
    else BlockScan (blocks st) (block st ++ [line]) true
  else st.

Definition extract_tech_blocks (text : string) : list string :=
  blocks (foldl block_scan_line (BlockScan [] [] false) (Py.splitlines text)).

(** The id a block is merged under: its first [id = ] line. *)
Definition block_id (block : string) : option string :=
  (λ line, Py.strip (Py.after_eq line)) <$>
  head (filter (λ line, Py.startswith (Py.strip line) "id = " = true) (Py.splitlines block)).

(** Whether the merge loop appends a block. *)
Definition accepted (existing_ids : gset string) (block : string) : bool :=
  Py.truthy (block_id block) &&
  match block_id block with
  | Some i => bool_decide (i ∉ existing_ids)
  | None => false
  end.

(** One round of the merge loop, on [(merged_blocks, unlocked_cost)]. *)
Definition merge_tech_block (existing_ids : gset string) (new_costs : gmap string float)
    (acc : list string * float) (block : string) : list string * float :=
  if accepted existing_ids block then
    (acc.1 ++ [block],
     fadd acc.2 (default fzero (block_id block ≫= λ i, new_costs !! i)))
  else acc.

Definition merge_tech (existing_data new_data : string) : list string * float :=
  let '(_, new_costs) := extract_tech_ids_and_costs new_data in
  let new_blocks := extract_tech_blocks new_data in
  let '(existing_ids, _) := extract_tech_ids_and_costs existing_data in
  let existing_blocks := extract_tech_blocks existing_data in
  foldl (merge_tech_block existing_ids new_costs) (existing_blocks, fzero) new_blocks.

(** The cost the loop adds for a block. *)
Definition block_cost (new_costs : gmap string float) (block : string) : float :=
  default fzero (block_id block ≫= λ i, new_costs !! i).

(** The blocks the merge appends: the uploaded blocks whose id is not
    among the existing ids, in upload order. *)
Definition newly_accepted (existing_data new_data : string) : list string :=
  filter (λ b, accepted (extract_tech_ids_and_costs existing_data).1 b)
         (extract_tech_blocks new_data).

(** The deduction from [SciencePoints.txt] after a merge. *)
Definition deduct_points (fs : store) (points_path : string) (unlocked_cost : float) : store :=
  match read_text fs points_path with
  | Some text =>
      match parse_points text with
      | Some current_points =>
          let new_points := pymax fzero (fsub current_points unlocked_cost) in
          <[points_path := "sci = " +:+ fmt6 new_points +:+ Py.NL]> fs
      | None => fs
      end
  | None => fs
  end.

Definition upload_TechTree (fs : store) (save_safe path new_data : string)
    : response * store :=
  (("OK", 200),
   match read_text fs path with
   | Some existing_data =>
       let '(merged_blocks, unlocked_cost) := merge_tech existing_data new_data in
       let fs' := <[path := Py.strip (Py.join Py.NL merged_blocks) +:+ Py.NL]> fs in
       deduct_points fs' (scenario_file save_safe "SciencePoints.txt") unlocked_cost
   | None => <[path := Py.strip new_data +:+ Py.NL]> fs
   end).

(** *** ScienceArchives upload *)

Record sci_scan := SciScan {
  sci_blocks : list string;
  cur : list string;
  inside : bool;
}.

Definition sci_scan_line (st : sci_scan) (line : string) : sci_scan :=
  let s := Py.strip line in
  if Py.startswith s "Science" then
    let blocks :=
      if inside st && negb (bool_decide (cur st = []))
      then sci_blocks st ++ [Py.join Py.NL (cur st)] else sci_blocks st in
    SciScan blocks [Py.rstrip line] true
  else if inside st then
    let cur' := cur st ++ [Py.rstrip line] in
    if bool_decide (s = "}") then SciScan (sci_blocks st ++ [Py.join Py.NL cur']) [] false
    else SciScan (sci_blocks st) cur' true
  else st.

Definition extract_science_blocks (text : string) : list string :=
  let st := foldl sci_scan_line (SciScan [] [] false) (Py.splitlines (Py.strip text)) in
  if bool_decide (cur st = []) then sci_blocks st
  else sci_blocks st ++ [Py.join Py.NL (cur st)].

(** The [(sid, sci, cap)] of [parse_block]. *)
Record parsed := Parsed {
  p_sid : option string;
  p_sci : option float;
  p_cap : option float;
}.

Definition parse_line (st : parsed) (ln : string) : parsed :=
  let s := Py.strip ln in
  if Py.startswith s "id =" then
    Parsed (Some (Py.strip (Py.after_eq s))) (p_sci st) (p_cap st)
  else if Py.startswith s "sci =" then
    match float_of_string (Py.strip (Py.after_eq s)) with
    | Some v => Parsed (p_sid st) (Some v) (p_cap st)
    | None => st
    end
  else if Py.startswith s "cap =" then
    match float_of_string (Py.strip (Py.after_eq s)) with
    | Some v => Parsed (p_sid st) (p_sci st) (Some v)
    | None => st
    end
  else st.

Definition parse_block (block : string) : parsed :=
  foldl parse_line (Parsed None None None) (Py.splitlines block).

(** The triple [parse_block] returns. *)
Definition parsed_values (p : parsed) : option string * option float * option float :=
  (p_sid p, p_sci p, p_cap p).

(** [ln[:len(ln) - len(ln.lstrip())]] *)
Definition indent_of (ln : string) : string :=
  Py.take (String.length ln - String.length (Py.lstrip ln)) ln.

(** The first loop of [replace_sci], on [(out, replaced)]. *)
Definition replace_line (new_sci : float) (acc : list string * bool) (ln : string)
    : list string * bool :=
  if negb acc.2 && Py.startswith (Py.strip ln) "sci =" then
    (acc.1 ++ [indent_of ln +:+ "sci = " +:+ repr new_sci], true)
  else (acc.1 ++ [ln], acc.2).

(** The second loop: insert before the last line that is a closing
    brace, if there is one. *)
Fixpoint insert_before_last_brace (line : string) (out : list string) : option (list string) :=
  match out with
  | [] => None
  | x :: out' =>
      match insert_before_last_brace line out' with
      | Some r => Some (x :: r)
      | None => if bool_decide (Py.strip x = "}") then Some (line :: x :: out') else None
      end
  end.

Definition replace_sci (block : string) (new_sci : float) : string :=
  let '(out, replaced) := foldl (replace_line new_sci) ([], false) (Py.splitlines block) in
  Py.join Py.NL
    (if replaced then out
     else default out (insert_before_last_brace ("    sci = " +:+ repr new_sci) out)).

(** A value of [merged_map]. *)
Record entry := Entry {
  raw : string;
  sci : option float;
  cap : option float;
}.

Definition load_existing (merged_map : gmap string entry) (b : string) : gmap string entry :=
  let p := parse_block b in
  match p_sid p with
  | Some sid => if Py.truthy (p_sid p) then <[sid := Entry b (p_sci p) (p_cap p)]> merged_map
                else merged_map
  | None => merged_map
  end.

(** The sci value of one round of the merge loop. *)
Definition merged_sci (prev_sci new_sci cap_final : option float) : float :=
  let best_sci := default fzero prev_sci in
  let best_sci :=
    match new_sci with
    | Some v => if fgt v best_sci then v else best_sci
    | None => best_sci
    end in
  match cap_final with
  | Some c => pymin best_sci c
  | None => best_sci
  end.

(** The block whose layout the round keeps. *)
Definition base_block (b : string) (new_sci : option float) (prev : entry) : string :=
  match new_sci with
  | Some v =>
      match sci prev with
      | None => b
      | Some pv => if fge v pv then b else raw prev
      end
  | None => raw prev
  end.

Definition merge_science_block (merged_map : gmap string entry) (b : string)
    : gmap string entry :=
  let p := parse_block b in
  match p_sid p with
  | Some sid =>
      if Py.truthy (p_sid p) then
        let prev := default (Entry b None None) (merged_map !! sid) in
        let cap_final := match p_cap p with Some c => Some c | None => cap prev end in
        let best_sci := merged_sci (sci prev) (p_sci p) cap_final in
        let out_block := replace_sci (base_block b (p_sci p) prev) best_sci in
        <[sid := Entry out_block (Some best_sci) cap_final]> merged_map
      else merged_map
  | None => merged_map
  end.

(** The id a round works under: [None] when the round skips the
    block. *)
Definition round_id (b : string) : option string :=
  match p_sid (parse_block b) with
  | Some sid => if Py.truthy (Some sid) then Some sid else None
  | None => None
  end.

(** The values a round of the merge loop reads back from an entry. *)
Definition entry_values (e : entry) : option float * option float := (sci e, cap e).

(** [sorted(merged_map.keys())] *)
Definition sorted_keys (merged_map : gmap string entry) : list string :=
  merge_sort String.le (map_to_list merged_map).*1.

Definition merge_science (existing : option string) (new_data : string) : gmap string entry :=
  let new_blocks := extract_science_blocks new_data in
  let merged_map :=
    match existing with
    | Some text => foldl load_existing ∅ (extract_science_blocks text)
    | None => ∅
    end in
  foldl merge_science_block merged_map new_blocks.

(** The text written for a [merged_map]. *)
Definition render_science (merged_map : gmap string entry) : string :=
  Py.join Py.NL
    (omap (λ k, raw <$> merged_map !! k) (sorted_keys merged_map)) +:+ Py.NL.

Definition upload_ScienceArchives (fs : store) (path new_data : string) : response * store :=
  (("OK", 200),
   <[path := render_science (merge_science (read_text fs path) new_data)]> fs).

(** *** SCANcontroller upload *)

(** The brace-matching loop of [_find_block_at], from index [k]. *)
Fixpoint match_brace (s : string) (depth : Z) (k : nat) : option nat :=
  match s with
  | EmptyString => None
  | String c s' =>
      if bool_decide (c = "{"%char) then match_brace s' (depth + 1) (S k)
      else if bool_decide (c = "}"%char) then
        if bool_decide (depth - 1 = 0)%Z then Some k
        else match_brace s' (depth - 1) (S k)
      else match_brace s' depth (S k)
  end.

(** [_find_block_at(s, hdr, start)]; [None] is the pair [(None, -1)]. *)
Definition _find_block_at (s hdr : string) (start : nat) : option (string * nat) :=
  i ← Py.find_from s hdr start;
  j ← Py.find_from s "{" i;
  k ← match_brace (Py.drop j s) 0 j;
  Some (Py.slice s i (k + 1), k + 1).

Definition ensure_newline (t : string) : string :=
  if Py.endswith t Py.NL then t else t +:+ Py.NL.

(** The rewrite of a [SCENARIO] wrapper. *)
Definition unwrap_scenario (inner : string) : string :=
  let lines := match Py.splitlines inner with
               | _ :: rest => "SCANcontroller" :: rest
               | [] => []
               end in
  let out := filter (λ ln, (Py.startswith (Py.strip ln) "name ="
                            || Py.startswith (Py.strip ln) "scene =") = false) lines in
  ensure_newline (Py.join Py.NL out).

(** The [while True] loop over the [SCENARIO] blocks.  Every round
    moves [idx] forward, so the length of the text bounds the rounds. *)
Fixpoint scan_scenarios (fuel : nat) (s : string) (idx : nat) : option string :=
  match fuel with
  | O => None
  | S fuel' =>
      match _find_block_at s "SCENARIO" idx with
      | None => None
      | Some (scen, idx') =>
          if Py.contains scen "name" && Py.contains scen "SCANcontroller"
          then Some (unwrap_scenario scen)
          else scan_scenarios fuel' s idx'
      end
  end.

Definition _normalize_scansat (text : string) : string :=
  let s := Py.replace_crlf text in
  match _find_block_at s "SCANcontroller" 0 with
  | Some (blk, _) => ensure_newline blk
  | None =>
      match scan_scenarios (S (String.length s)) s 0 with
      | Some out_txt => out_txt
      | None => "SCANcontroller" +:+ Py.NL +:+ "{" +:+ Py.NL +:+ "}" +:+ Py.NL
      end
  end.

Definition user_file (save_safe user : string) : string :=
  scenario_file save_safe ("SCANcontroller_users/" +:+ user +:+ ".txt").

Definition upload_SCANcontroller (fs : store) (save_safe : string) (u : option string)
    (new_data : string) : response * store :=
  match _resolve_user_from_request u with
  | Some user =>
      if Py.truthy (Some user) then
        let user_path := user_file save_safe user in
        let new_norm := _normalize_scansat new_data in
        let old_norm := _normalize_scansat <$> read_text fs user_path in
        if bool_decide (old_norm = Some new_norm) then (("UNCHANGED", 200), fs)
        else (("OK", 200), <[user_path := new_norm]> fs)
      else (("Missing user (send X-User header or ?user=...)", 400), fs)
  | None => (("Missing user (send X-User header or ?user=...)", 400), fs)
  end.

(** *** The two scenario endpoints *)

(** [POST /scenarios/<save>/<module>] with body [data] (decoded) and
    requesting user [u]. *)
Definition upload_scenario (fs : store) (save module : string) (u : option string)
    (data : string) : response * store :=
  let save_safe := safe_path_seg save in
  let module_safe := safe_path_seg module in
  let path := scenario_file save_safe (module_safe +:+ ".txt") in
  let new_data := Py.strip data in
  if bool_decide (module_safe = "SciencePoints") then upload_SciencePoints fs path new_data
  else if bool_decide (module_safe = "TechTree") then upload_TechTree fs save_safe path new_data
  else if bool_decide (module_safe = "ScienceArchives") then upload_ScienceArchives fs path new_data
  else if bool_decide (module_safe = "SCANcontroller") then upload_SCANcontroller fs save_safe u new_data
  else (("OK", 200), fs).

(** The sum of the values of the lines that start with [key], over the
    lines of an open file. *)
Definition sum_lines (key : string) (text : string) : float :=
  foldl (λ total line,
           if Py.startswith (Py.strip line) key then
             match Py.split "="%char (Py.strip line) !! 1 ≫= float_of_string with
             | Some v => fadd total v
             | None => total
             end
           else total)
        fzero (Py.file_lines text).

Definition download_SciencePoints (fs : store) (save_safe : string) : response :=
  let total_science :=
    match read_text fs (scenario_file save_safe "ScienceArchives.txt") with
    | Some text => sum_lines "sci =" text
    | None => fzero
    end in
  let total_cost :=
    match read_text fs (scenario_file save_safe "TechTree.txt") with
    | Some text => sum_lines "cost =" text
    | None => fzero
    end in
  let final_points := pymax fzero (fsub total_science total_cost) in
  ("sci = " +:+ fmt6 final_points +:+ Py.NL, 200).

(** [GET /scenarios/<save>/<module>] *)
Definition download_scenario (fs : store) (save module : string) (u : option string)
    : response :=
  let save_safe := safe_path_seg save in
  let module_safe := safe_path_seg module in
  let path := scenario_file save_safe (module_safe +:+ ".txt") in
  if bool_decide (module_safe = "SCANcontroller") then
    match _resolve_user_from_request u with
    | Some user =>
        if Py.truthy (Some user) then
          match read_text fs (user_file save_safe user) with
          | Some body => (body, 200)
          | None => ("SCANcontroller" +:+ Py.NL +:+ "{" +:+ Py.NL +:+ "}" +:+ Py.NL, 200)
          end
        else ("Missing user (send X-User header or ?user=...)", 400)
    | None => ("Missing user (send X-User header or ?user=...)", 400)
    end
  else if bool_decide (module_safe = "SciencePoints") then download_SciencePoints fs save_safe
  else match read_text fs path with
       | Some body => (body, 200)
       | None => ("Scenario not found", 404)
       end.

End Scenario.

(** ** Scan coverage maps ([Server/serverold.py]) *)

(** A byte is its eight bits; a coverage map is a list of bytes. *)
Abbreviation bytes := (list ascii).

(** [x | y] on two bytes. *)
Definition byte_or (x y : ascii) : ascii :=
  match x, y with
  | Ascii x0 x1 x2 x3 x4 x5 x6 x7, Ascii y0 y1 y2 y3 y4 y5 y6 y7 =>
      Ascii (x0 || y0) (x1 || y1) (x2 || y2) (x3 || y3)
            (x4 || y4) (x5 || y5) (x6 || y6) (x7 || y7)
  end.

(** Bit [i] of a byte, bit 0 the least significant. *)
Definition byte_bit (i : nat) (x : ascii) : bool :=
  match x with
  | Ascii x0 x1 x2 x3 x4 x5 x6 x7 => nth i [x0; x1; x2; x3; x4; x5; x6; x7] false
  end.

(** Bit [i] of byte [n] of a map; a byte beyond the end has no bit set. *)
Definition map_bit (m : bytes) (n i : nat) : bool :=
  match m !! n with
  | Some x => byte_bit i x
  | None => false
  end.

(** What the helpers use of Python's [base64] module:
    [base64.b64decode(s)] ([None] is the [binascii.Error]) and
    [base64.b64encode(b).decode("ascii")]. *)
Class PyBase64 := {
  b64decode : string → option bytes;
  b64encode : bytes → string;
}.

(** The facts about the module that the lemmas on [_map_union] ask for:
    an encoding decodes to what was encoded, is padded to a multiple of
    four characters, and has no white space at its ends. *)
Class PyBase64Laws `{PyBase64} : Prop := {
  b64_round : ∀ b, b64decode (b64encode b) = Some b;
  b64_padded : ∀ b, (String.length (b64encode b) `mod` 4 = 0)%nat;
  b64_stripped : ∀ b, Py.strip (b64encode b) = b64encode b;
}.

Section ScanCoverage.
Context `{PyBase64}.

(** ["=" * n] *)
Fixpoint equals (n : nat) : string :=
  match n with
  | O => EmptyString
  | S n' => String "="%char (equals n')
  end.

Definition _b64decode (s : string) : option bytes :=
  let s := Py.strip s in
  let pad := equals ((4 - String.length s `mod` 4) `mod` 4) in
  b64decode (s +:+ pad).

Definition _b64encode (b : bytes) : string := b64encode b.

(** [A + b"\x00" * (L - len(A))] when [len(A) < L], else [A]. *)
Definition zero_extend (L : nat) (A : bytes) : bytes :=
  if bool_decide (length A < L) then A ++ replicate (L - length A) zero else A.

(** [bytes(x | y for x, y in zip(A, B))] *)
Definition or_bytes (A B : bytes) : bytes := zip_with byte_or A B.

(** The bytes [merged] of two decoded maps. *)
Definition union_bytes (A B : bytes) : bytes :=
  let L := length A `max` length B in
  or_bytes (zero_extend L A) (zero_extend L B).

Definition _map_union (a b : string) : string :=
  match _b64decode a, _b64decode b with
  | Some A, Some B => _b64encode (union_bytes A B)
  | _, _ => if bool_decide (String.length b ≤ String.length a) then a else b
  end.

End ScanCoverage.

(** An instance of the [base64] interface: the standard alphabet, the
    padded encoder, and the decoder of [binascii.a2b_base64] as
    [b64decode] calls it (characters outside the alphabet are skipped,
    decoding stops at the padding that completes a quad; a string with
    a character that is not ASCII is refused). *)
Module B64.

(** Six bits, most significant first. *)
Definition sextet : Type := bool * bool * bool * bool * bool * bool.

Definition sextet_index (x : sextet) : N :=
  let '(b5, b4, b3, b2, b1, b0) := x in
  (N.b2n b0 + 2 * (N.b2n b1 + 2 * (N.b2n b2 + 2 * (N.b2n b3 + 2 * (N.b2n b4 + 2 * N.b2n b5)))))%N.

Definition index_sextet (n : N) : sextet :=
  (N.testbit n 5, N.testbit n 4, N.testbit n 3, N.testbit n 2, N.testbit n 1, N.testbit n 0).

(** The alphabet: [A-Z], [a-z], [0-9], [+], [/]. *)
Definition char_of (x : sextet) : ascii :=
  let i := sextet_index x in
  if (i <? 26)%N then ascii_of_N (65 + i)
  else if (i <? 52)%N then ascii_of_N (97 + (i - 26))
  else if (i <? 62)%N then ascii_of_N (48 + (i - 52))
  else if (i =? 62)%N then "+"%char else "/"%char.

Definition value_of (c : ascii) : option sextet :=
  let n := N_of_ascii c in
  if ((65 <=? n) && (n <=? 90))%N then Some (index_sextet (n - 65))
  else if ((97 <=? n) && (n <=? 122))%N then Some (index_sextet (n - 97 + 26))
  else if ((48 <=? n) && (n <=? 57))%N then Some (index_sextet (n - 48 + 52))
  else if (n =? 43)%N then Some (index_sextet 62)
  else if (n =? 47)%N then Some (index_sextet 63)
  else None.

Definition pad_char : ascii := "="%char.

(** Three bytes as four characters. *)
Definition encode3 (x y z : ascii) : string :=
  match x, y, z with
  | Ascii x0 x1 x2 x3 x4 x5 x6 x7, Ascii y0 y1 y2 y3 y4 y5 y6 y7,
    Ascii z0 z1 z2 z3 z4 z5 z6 z7 =>
      String (char_of (x7, x6, x5, x4, x3, x2))
        (String (char_of (x1, x0, y7, y6, y5, y4))
           (String (char_of (y3, y2, y1, y0, z7, z6))
              (String (char_of (z5, z4, z3, z2, z1, z0)) EmptyString)))
  end.

Fixpoint encode (b : bytes) : string :=
  match b with
  | x :: y :: z :: b' => encode3 x y z +:+ encode b'
  | [x; y] => Py.take 3 (encode3 x y zero) +:+ String pad_char EmptyString
  | [x] => Py.take 2 (encode3 x zero zero) +:+ String pad_char (String pad_char EmptyString)
  | [] => EmptyString
  end.

(** The decoder's state: the position in the quad, the bits left over
    from the characters read, and the run of padding seen. *)
Inductive quad : Type :=
  | Q0
  | Q1 (a : sextet)
  | Q2 (hi : bool * bool * bool * bool)
  | Q3 (hi : bool * bool).

Definition quad_pos (q : quad) : nat :=
  match q with Q0 => 0 | Q1 _ => 1 | Q2 _ => 2 | Q3 _ => 3 end.

(** One data character: the next state and the byte it completes. *)
Definition feed (q : quad) (v : sextet) : quad * option ascii :=
  let '(v5, v4, v3, v2, v1, v0) := v in
  match q with
  | Q0 => (Q1 v, None)
  | Q1 (a5, a4, a3, a2, a1, a0) =>
      (Q2 (v3, v2, v1, v0), Some (Ascii v4 v5 a0 a1 a2 a3 a4 a5))
  | Q2 (h3, h2, h1, h0) =>
      (Q3 (v1, v0), Some (Ascii v2 v3 v4 v5 h0 h1 h2 h3))
  | Q3 (h1, h0) =>
      (Q0, Some (Ascii v0 v1 v2 v3 v4 v5 h0 h1))
  end.

Fixpoint decode_go (s : string) (q : quad) (pads : nat) : option bytes :=
  match s with
  | EmptyString => if bool_decide (quad_pos q = 0) then Some [] else None
  | String c s' =>
      if bool_decide (c = pad_char) then
        if bool_decide (2 ≤ quad_pos q) && bool_decide (4 ≤ quad_pos q + S pads)
        then Some []
        else decode_go s' q (if bool_decide (2 ≤ quad_pos q) then S pads else pads)
      else
        match value_of c with
        | None => decode_go s' q pads
        | Some v =>
            let '(q', out) := feed q v in
            match out with
            | Some x => (x ::.) <$> decode_go s' q' 0
            | None => decode_go s' q' 0
            end
        end
  end.

(** [s.encode("ascii")] succeeds. *)
Fixpoint is_ascii (s : string) : bool :=
  match s with
  | String c s' => (N_of_ascii c <? 128)%N && is_ascii s'
  | EmptyString => true
  end.

Definition decode (s : string) : option bytes :=
  if is_ascii s then decode_go s Q0 0 else None.

#[export] Instance py_base64 : PyBase64 := {|
  b64decode := decode;
  b64encode := encode;
|}.

End B64.

(** ** Tech-tree voting *)

Section Votes.
Context `{PyFloat}.

(** A value of [VOTES]. *)
Record session := Session {
  title : string;
  requester : string;
  cost : float;
  votes : gmap string bool;
  opened : float;
  closed : bool;
  approved : option bool;
  quorum : Z;
}.

(** The JSON value under ["vote"]: a boolean, or anything else by its
    [str()]. *)
Inductive vote_value : Type :=
  | VBool (b : bool)
  | VOther (text : string).

(** The fields of a vote request's JSON body that the handlers read. *)
Record vote_request := VoteRequest {
  d_user : option string;
  d_title : option string;
  d_cost : option float;
  d_vote : option vote_value;
}.

Abbreviation vote_table := (gmap (string * string) session).

Definition _key (save tech : string) : string * string :=
  (safe_path_seg save, safe_path_seg tech).

(** [s.lower()] on the ASCII letters. *)
Definition lower_char (c : ascii) : ascii :=
  let n := N_of_ascii c in
  if ((65 <=? n) && (n <=? 90))%N then ascii_of_N (n + 32) else c.

Fixpoint lower (s : string) : string :=
  match s with
  | String c s' => String (lower_char c) (lower s')
  | EmptyString => EmptyString
  end.

(** The ballot read from the request. *)
Definition ballot (v : option vote_value) : bool :=
  match v with
  | None => false
  | Some (VBool b) => b
  | Some (VOther text) =>
      bool_decide (lower (Py.strip text) ∈ ["1"; "true"; "yes"; "y"; "t"])
  end.

(** [(data.get('user') or 'Player').strip()] *)
Definition request_user (d : vote_request) : string :=
  Py.strip (if Py.truthy (d_user d) then default "Player" (d_user d) else "Player").

(** [sum(1 for v in votes.values() if v)] and its complement. *)
Definition count_votes (b : bool) (ballots : gmap string bool) : nat :=
  size (filter (λ kv, kv.2 = b) ballots).

(** [POST /vote/start/<save>/<tech>]; [online] is what
    [_online_users()] returns and [now] the clock. *)
Definition vote_start (VOTES : vote_table) (save tech : string) (d : vote_request)
    (online : list string) (now : float) : response * vote_table :=
  let requester := default "Player" (d_user d) in
  let title := default tech (d_title d) in
  let cost := default fzero (d_cost d) in
  let k := _key save tech in
  let online_cnt := Z.max 0 (Z.of_nat (length online)) in
  let quorum := if bool_decide (online_cnt ≤ 1)%Z then 1%Z else 2%Z in
  (("OK", 200),
   <[k := Session title requester cost ∅ now false None quorum]> VOTES).

(** [POST /vote/cast/<save>/<tech>] *)
Definition vote_cast (VOTES : vote_table) (save tech : string) (d : vote_request)
    : response * vote_table :=
  let user := request_user d in
  let vote := ballot (d_vote d) in
  let k := _key save tech in
  match VOTES !! k with
  | Some v =>
      if closed v then (("No open vote", 400), VOTES)
      else
        let ballots := <[user := vote]> (votes v) in
        let yes := count_votes true ballots in
        let no := count_votes false ballots in
        let n := (yes + no)%nat in
        let v' :=
          if bool_decide (quorum v ≤ Z.of_nat n)%Z
          then Session (title v) (requester v) (cost v) ballots (opened v)
                       true (Some (bool_decide (no < yes)%nat)) (quorum v)
          else Session (title v) (requester v) (cost v) ballots (opened v)
                       (closed v) (approved v) (quorum v) in
        (("OK", 200), <[k := v']> VOTES)
  | None => (("No open vote", 400), VOTES)
  end.

(** [POST /vote/cancel/<save>/<tech>] *)
Definition vote_cancel (VOTES : vote_table) (save tech : string) (d : vote_request)
    : response * vote_table :=
  let user := request_user d in
  let k := _key save tech in
  match VOTES !! k with
  | Some v =>
      (("OK", 200),
       if bool_decide (user = requester v)
       then <[k := Session (title v) (requester v) (cost v) (votes v) (opened v)
                           true (Some false) (quorum v)]> VOTES
       else VOTES)
  | None => (("No vote", 200), VOTES)
  end.

End Votes.

(** The table [VOTES], by [(save, tech)]. *)
Abbreviation vote_table := (gmap (string * string) session).

(** ** Sample requests *)

Module Sample.

(** A text from its lines. *)
Definition text (lines : list string) : string := Py.join Py.NL lines.

Definition tech_T1 : string := text ["Tech"; "{"; "  id = T1"; "  cost = 10"; "}"].
Definition tech_T2 : string := text ["Tech"; "{"; "  id = T2"; "  cost = 15"; "}"].

(** Save [s] with T1 unlocked and fifty science points. *)
Definition tech_store : store :=
  <["s/TechTree.txt" := tech_T1 +:+ Py.NL]> (<["s/SciencePoints.txt" := "sci = 50"]> ∅).

(** A SCANcontroller snapshot as a bare block, and the same content in
    its [SCENARIO] wrapper. *)
Definition scan_bare : string :=
  text ["SCANcontroller"; "{"; "  Scanners"; "  {"; "  }"; "  Progress"; "  {"; "  }"; "}"].

Definition scan_wrapped : string :=
  text ["SCENARIO"; "{"; "  name = SCANcontroller"; "  scene = 7, 5, 8";
        "  Scanners"; "  {"; "  }"; "  Progress"; "  {"; "  }"; "}"].

(** A wrapper with fields only. *)
Definition scan_wrapped_flat : string :=
  text ["SCENARIO"; "{"; "  name = SCANcontroller"; "  scene = 7, 5, 8";
        "  overlay = True"; "}"].

(** One subject with a cap, and two uploads for it without one. *)
Definition sci_A_40_cap_50 : string :=
  text ["Science"; "{"; "  id = A"; "  sci = 40"; "  cap = 50"; "}"].
Definition sci_A_60 : string := text ["Science"; "{"; "  id = A"; "  sci = 60"; "}"].
Definition sci_A_70 : string := text ["Science"; "{"; "  id = A"; "  sci = 70"; "}"].

Definition archive_store : store := <["s/ScienceArchives.txt" := sci_A_40_cap_50 +:+ Py.NL]> ∅.

(** Two uploads for one subject with caps of their own. *)
Definition sci_A_60_cap_100 : string :=
  text ["Science"; "{"; "  id = A"; "  sci = 60"; "  cap = 100"; "}"].

End Sample.

(** A vote with two users online: alice proposes T2 and votes yes; bob
    votes no. *)
Module SampleVote.

Definition alice_yes : vote_request (H := Dec.dec_float) :=
  VoteRequest (Some "alice") None None (Some (VBool true)).
Definition bob_no : vote_request (H := Dec.dec_float) :=
  VoteRequest (Some "bob") None None (Some (VOther "No")).

Definition started : gmap (string * string) (session (H := Dec.dec_float)) :=
  (vote_start ∅ "s" "T2" alice_yes ["alice"; "bob"] 0%Z).2.
Definition one_yes : gmap (string * string) (session (H := Dec.dec_float)) :=
  (vote_cast started "s" "T2" alice_yes).2.

End SampleVote.

(** ** Further handlers *)

(** The characters [safe_path_seg] keeps. *)
Definition path_char (c : ascii) : bool :=
  Py.is_alnum c || bool_decide (c = "_"%char) || bool_decide (c = "-"%char)
  || bool_decide (c = "."%char).

(** The JSON object of [vote_status]: [{'decided': False}] alone when
    there is no session, else title, requester, the two tallies,
    [decided] and [approved] ([None] is [null]). *)
Inductive status_reply : Type :=
  | NoSession
  | Status (title requester : string) (yes no : nat) (decided : bool)
           (approved : option bool).

Section VoteStatus.
Context `{PyFloat}.

(** [GET /vote/status/<save>/<tech>] *)
Definition vote_status (VOTES : vote_table) (save tech : string) : status_reply * nat :=
  match VOTES !! _key save tech with
  | None => (NoSession, 200)
  | Some v =>
      (Status (title v) (requester v) (count_votes true (votes v))
              (count_votes false (votes v)) (closed v) (approved v), 200)
  end.

(** What [vote_start], [vote_cast] and [vote_cancel] keep true of a
    session: the quorum is 1 or 2; an open session has no decision and
    fewer ballots than its quorum; a closed one has a decision. *)
Definition session_ok (v : session) : Prop :=
  (quorum v = 1 ∨ quorum v = 2)%Z
  ∧ (closed v = false → approved v = None ∧ (Z.of_nat (size (votes v)) < quorum v)%Z)
  ∧ (closed v = true → is_Some (approved v)).

Definition votes_ok (VOTES : vote_table) : Prop :=
  ∀ k v, VOTES !! k = Some v → session_ok v.

End VoteStatus.

Section VoteRuns.
Context `{PyFloat}.

(** The three requests that change [VOTES]. *)
Inductive vote_op : Type :=
  | OpStart (save tech : string) (d : vote_request) (online : list string) (now : float)
  | OpCast (save tech : string) (d : vote_request)
  | OpCancel (save tech : string) (d : vote_request).

Definition run_vote_op (VOTES : vote_table) (op : vote_op) : vote_table :=
  match op with
  | OpStart save tech d online now => (vote_start VOTES save tech d online now).2
  | OpCast save tech d => (vote_cast VOTES save tech d).2
  | OpCancel save tech d => (vote_cancel VOTES save tech d).2
  end.

(** [VOTES] after a sequence of requests on a fresh server. *)
Definition run_votes (ops : list vote_op) : vote_table := foldl run_vote_op ∅ ops.

End VoteRuns.

(** The sample vote as a sequence of requests: alice starts with two
    users online and votes yes. *)
Module SampleRun.

Definition one_yes : list (vote_op (H := Dec.dec_float)) :=
  [OpStart "s" "T2" SampleVote.alice_yes ["alice"; "bob"] 0%Z;
   OpCast "s" "T2" SampleVote.alice_yes].

End SampleRun.

Section ArchiveLoad.
Context `{PyFloat}.

(** [merged_map] after the loop over the existing blocks, before the
    uploaded ones are merged in. *)
Definition loaded_map (existing : option string) : gmap string entry :=
  match existing with
  | Some text => foldl load_existing ∅ (extract_science_blocks text)
  | None => ∅
  end.

End ArchiveLoad.

(** ** Block fields ([Server/serverold.py] and the ScienceArchives branch) *)

(** A text without a line boundary: one line for [splitlines]. *)
Definition one_line (s : string) : bool :=
  Py.all_chars (λ c, negb (Py.is_linebreak c)) s.

(** [_extract_map(block)] *)
Definition _extract_map (block : string) : string :=
  default ""
    ((λ ln, Py.strip (Py.after_eq (Py.strip ln))) <$>
     head (filter (λ ln, Py.startswith (Py.strip ln) "Map =" = true) (Py.splitlines block))).

(** The first loop of [_replace_map], on [(out, replaced)]. *)
Definition replace_map_line (new_map : string) (acc : list string * bool) (ln : string)
    : list string * bool :=
  if negb acc.2 && Py.startswith (Py.strip ln) "Map =" then
    (acc.1 ++ [indent_of ln +:+ "Map = " +:+ new_map], true)
  else (acc.1 ++ [ln], acc.2).

(** [_replace_map(block, new_map)] *)
Definition _replace_map (block new_map : string) : string :=
  let '(out, replaced) := foldl (replace_map_line new_map) ([], false) (Py.splitlines block) in
  Py.join Py.NL
    (if replaced then out
     else default out (insert_before_last_brace ("    Map = " +:+ new_map) out)).

(** The shape [replace_sci] and [_replace_map] share: the first line
    that starts with [key] becomes its indentation and [text]; without
    such a line, [text] goes, indented by four spaces, before the last
    closing brace. *)
Definition replace_key_line (key text : string) (acc : list string * bool) (ln : string)
    : list string * bool :=
  if negb acc.2 && Py.startswith (Py.strip ln) key then
    (acc.1 ++ [indent_of ln +:+ text], true)
  else (acc.1 ++ [ln], acc.2).

Definition replace_key (key text block : string) : string :=
  let '(out, replaced) := foldl (replace_key_line key text) ([], false) (Py.splitlines block) in
  Py.join Py.NL
    (if replaced then out
     else default out (insert_before_last_brace ("    " +:+ text) out)).


(** ** Brace depth *)

(** The opening braces of a text less its closing braces: what the
    counter [depth] of [_find_block_at] adds up over the text. *)
Fixpoint brace_depth (t : string) : Z :=
  match t with
  | EmptyString => 0
  | String c t' =>
      (if bool_decide (c = "{"%char) then 1
       else if bool_decide (c = "}"%char) then -1 else 0) + brace_depth t'
  end.


(** ** The per-user SCANcontroller file *)

(** [GET /scenarios/<save>/SCANcontroller/user/<user>] *)
Definition scansat_user_file (fs : store) (save user : string) : response :=
  match read_text fs (user_file (safe_path_seg save) (safe_path_seg user)) with
  | Some body => (body, 200)
  | None => ("not found", 404)
  end.


(** ** The body blocks of [_merge_scansat] ([Server/serverold.py]) *)

(** An encoding is one line of text. *)
Class PyBase64Line `{PyBase64} : Prop := {
  b64_line : ∀ b, one_line (b64encode b) = true;
}.

Section BodyMerge.
Context `{PyBase64}.

(** The block kept for a body that an earlier file already gave:
    [_replace_map(bodies[bname], _map_union(a, b))]. *)
Definition merge_body (old blk : string) : string :=
  _replace_map old (_map_union (_extract_map old) (_extract_map blk)).

End BodyMerge.


(** ** The keyed blocks of a snapshot ([Server/serverold.py]) *)

(** [s.count(c)] for a character. *)
Fixpoint count_char (c : ascii) (s : string) : Z :=
  match s with
  | EmptyString => 0
  | String a s' => (if bool_decide (a = c) then 1 else 0) + count_char c s'
  end.

(** The state of the loop of [_blocks_by]: [out], [cur] and [lvl]
    ([key] is [None] whenever a round starts). *)
Record blocks_scan := BlocksScan {
  bs_out : gmap string string;
  bs_cur : list string;
  bs_lvl : Z;
}.

(** The key a finished block gets: the value of its last [guid =] line
    for a [Vessel], of its last [Name =] line for a [Body]. *)
Definition block_key (prefix : string) (cur : list string) : option string :=
  foldl (λ key ln,
           let t := Py.strip ln in
           let key := if bool_decide (prefix = "Vessel") && Py.startswith t "guid ="
                      then Some (Py.strip (Py.after_eq t)) else key in
           if bool_decide (prefix = "Body") && Py.startswith t "Name ="
           then Some (Py.strip (Py.after_eq t)) else key)
        None cur.

Definition blocks_by_line (prefix : string) (st : blocks_scan) (raw : string) : blocks_scan :=
  if Py.startswith (Py.strip raw) prefix then BlocksScan (bs_out st) [Py.rstrip raw] 1
  else
    match bs_cur st with
    | [] => st
    | _ :: _ =>
        let cur := bs_cur st ++ [Py.rstrip raw] in
        let lvl := (bs_lvl st + (count_char "{" raw - count_char "}" raw))%Z in
        if bool_decide (lvl ≤ 0)%Z then
          BlocksScan
            match block_key prefix cur with
            | Some key =>
                if Py.truthy (Some key) then <[key := Py.join Py.NL cur]> (bs_out st)
                else bs_out st
            | None => bs_out st
            end [] lvl
        else BlocksScan (bs_out st) cur lvl
    end.

(** [_blocks_by(prefix, text)] *)
Definition _blocks_by (prefix text : string) : gmap string string :=
  bs_out (foldl (blocks_by_line prefix) (BlocksScan ∅ [] 0) (Py.splitlines text)).

(** A line without a brace that does not open a block of [prefix]. *)
Definition plain_line (prefix ln : string) : bool :=
  one_line ln
  && Py.all_chars (λ c, negb (bool_decide (c = "{"%char)) && negb (bool_decide (c = "}"%char))) ln
  && negb (Py.startswith (Py.strip ln) prefix).

(** * Properties *)

(** ** The decimal instance and the base64 instance at work *)

#[global] Instance dec_order : PyFloatOrder (H := Dec.dec_float).
Proof.
  split; simpl; intros.
  - destruct (Z.ltb_spec x y), (Z.leb_spec y x); simpl; lia.
  - lia.
  - lia.
  - lia.
  - lia.
Qed.

Example dec_parse : Dec.parse " 50" = Some 50000000%Z ∧ Dec.parse "10.5" = Some 10500000%Z
  ∧ Dec.parse "-0.25 " = Some (-250000)%Z ∧ Dec.parse "abc" = None ∧ Dec.parse "" = None.
Proof. vm_compute. repeat split. Qed.

Example dec_print : Dec.print 50000000 = "50.0" ∧ Dec.print6 35000000 = "35.000000"
  ∧ Dec.print (-250000) = "-0.25" ∧ Dec.print6 1234567891 = "1234.567891".
Proof. vm_compute. repeat split. Qed.

Example b64_encode_ex :
  B64.encode ["M"; "a"; "n"]%char = "TWFu" ∧ B64.encode ["M"; "a"]%char = "TWE="
  ∧ B64.encode ["M"]%char = "TQ==" ∧ B64.decode "TWE=" = Some ["M"; "a"]%char
  ∧ B64.decode "TQ" = None ∧ B64.decode "T" = None ∧ B64.decode "TW Fu" = Some ["M"; "a"; "n"]%char.
Proof. vm_compute. repeat split. Qed.

(** ** Paths and dispatch *)

Lemma scenario_file_inj save_safe name1 name2 :
  scenario_file save_safe name1 = scenario_file save_safe name2 → name1 = name2.
Proof.
  unfold scenario_file. intros E.
  apply (inj (String.app save_safe)) in E.
  by apply (inj (String.app "/")) in E.
Qed.

Lemma points_path_not_techtree save_safe :
  scenario_file save_safe "SciencePoints.txt" ≠ scenario_file save_safe "TechTree.txt".
Proof. by intros E%scenario_file_inj. Qed.

(** A split at most once has a second piece as soon as the text has the
    separator, which every guarded call of [after_eq] ensures. *)
Lemma after_eq_guarded s :
  Py.contains s "=" = true → Py.split1 "="%char s !! 1 = Some (Py.after_eq s).
Proof.
  unfold Py.after_eq. induction s as [|a s IH]; simpl; [done|].
  case_bool_decide as Ha; simpl.
  - subst a. rewrite bool_decide_eq_true_2 by done. done.
  - rewrite bool_decide_eq_false_2 by done. simpl.
    intros Hc. specialize (IH Hc).
    destruct (Py.split1 "=" s) as [|p ps]; simpl in *; [done|]. done.
Qed.

Section ScenarioFacts.
Context `{PyFloat}.

Lemma upload_scenario_TechTree fs save u data :
  upload_scenario fs save "TechTree" u data =
  upload_TechTree fs (safe_path_seg save)
    (scenario_file (safe_path_seg save) "TechTree.txt") (Py.strip data).
Proof. reflexivity. Qed.

Lemma upload_scenario_SciencePoints fs save u data :
  upload_scenario fs save "SciencePoints" u data =
  upload_SciencePoints fs (scenario_file (safe_path_seg save) "SciencePoints.txt")
    (Py.strip data).
Proof. reflexivity. Qed.

Lemma upload_scenario_ScienceArchives fs save u data :
  upload_scenario fs save "ScienceArchives" u data =
  upload_ScienceArchives fs (scenario_file (safe_path_seg save) "ScienceArchives.txt")
    (Py.strip data).
Proof. reflexivity. Qed.

Lemma upload_scenario_SCANcontroller fs save u data :
  upload_scenario fs save "SCANcontroller" u data =
  upload_SCANcontroller fs (safe_path_seg save) u (Py.strip data).
Proof. reflexivity. Qed.

Lemma download_scenario_SciencePoints fs save u :
  download_scenario fs save "SciencePoints" u =
  download_SciencePoints fs (safe_path_seg save).
Proof. reflexivity. Qed.

(** *** The TechTree merge loop *)

Lemma accepted_iff existing_ids block :
  accepted existing_ids block = true ↔
  ∃ i, block_id block = Some i ∧ i ≠ "" ∧ i ∉ existing_ids.
Proof.
  unfold accepted. destruct (block_id block) as [i|]; simpl.
  - destruct i as [|c i]; simpl.
    + split; [done|]. by intros (? & [= <-] & ? & ?).
    + rewrite bool_decide_eq_true. split.
      * intros Hi. by exists (String c i).
      * by intros (? & [= <-] & _ & ?).
  - split; [done|]. by intros (? & ? & _).
Qed.

Lemma merge_loop_blocks existing_ids new_costs new_blocks acc :
  (foldl (merge_tech_block existing_ids new_costs) acc new_blocks).1 =
  acc.1 ++ filter (λ b, accepted existing_ids b) new_blocks.
Proof.
  revert acc. induction new_blocks as [|b bs IH]; intros acc; simpl.
  - by rewrite app_nil_r.
  - rewrite IH. unfold merge_tech_block.
    destruct (accepted existing_ids b) eqn:Hb.
    + rewrite filter_cons_True by (rewrite Hb; exact I).
      simpl. by rewrite <- app_assoc.
    + rewrite filter_cons_False by (rewrite Hb; intros []). done.
Qed.

Lemma merge_loop_cost existing_ids new_costs new_blocks acc :
  (foldl (merge_tech_block existing_ids new_costs) acc new_blocks).2 =
  foldl (λ c b, fadd c (block_cost new_costs b)) acc.2
        (filter (λ b, accepted existing_ids b) new_blocks).
Proof.
  revert acc. induction new_blocks as [|b bs IH]; intros acc; simpl; [done|].
  rewrite IH. unfold merge_tech_block.
  destruct (accepted existing_ids b) eqn:Hb.
  - rewrite filter_cons_True by (rewrite Hb; exact I). done.
  - rewrite filter_cons_False by (rewrite Hb; intros []). done.
Qed.

Lemma merge_tech_blocks existing_data new_data :
  (merge_tech existing_data new_data).1 =
  extract_tech_blocks existing_data ++ newly_accepted existing_data new_data.
Proof.
  unfold merge_tech, newly_accepted.
  destruct (extract_tech_ids_and_costs new_data) as [? new_costs].
  destruct (extract_tech_ids_and_costs existing_data) as [existing_ids ?].
  apply merge_loop_blocks.
Qed.

Lemma merge_tech_cost existing_data new_data :
  (merge_tech existing_data new_data).2 =
  foldl (λ c b, fadd c (block_cost (extract_tech_ids_and_costs new_data).2 b)) fzero
        (newly_accepted existing_data new_data).
Proof.
  unfold merge_tech, newly_accepted.
  destruct (extract_tech_ids_and_costs new_data) as [? new_costs].
  destruct (extract_tech_ids_and_costs existing_data) as [existing_ids ?].
  apply merge_loop_cost.
Qed.

(** An uploaded block is appended exactly when it carries an id that
    is not among the existing ids, and the existing blocks stay, in
    place and unchanged, in front of what is appended. *)
Lemma merge_tech_accepts existing_data new_data block :
  block ∈ extract_tech_blocks new_data →
  (block ∈ newly_accepted existing_data new_data ↔
   ∃ i, block_id block = Some i ∧ i ≠ "" ∧
        i ∉ (extract_tech_ids_and_costs existing_data).1).
Proof.
  intros Hin. unfold newly_accepted.
  rewrite list_elem_of_filter, <- accepted_iff, Is_true_true. tauto.
Qed.

End ScenarioFacts.

(** ** TechTree: merge and cost accounting *)

(** C1 (the code departs from the claim).  Save [s] holds T1; one upload
    carries the new id T2 in two blocks.  Neither block's id is among
    the existing ids, which the loop never extends, so both are
    appended: the stored TechTree holds the id T2 twice, and its cost
    is deducted twice (50 - 15 - 15). *)
Theorem techtree_repeated_id_stored_twice :
  let fs' := (upload_scenario (H := Dec.dec_float) Sample.tech_store "s" "TechTree" None
                (Sample.text [Sample.tech_T2; Sample.tech_T2])).2 in
  (fmap block_id ∘ extract_tech_blocks) <$> read_text fs' "s/TechTree.txt"
    = Some [Some "T1"; Some "T2"; Some "T2"]
  ∧ read_text fs' "s/SciencePoints.txt" = Some (Sample.text ["sci = 20.000000"; ""]).
Proof. vm_compute. repeat split. Qed.

(** C2.  A TechTree upload over an existing TechTree answers OK, and
    with [unlocked_cost] the sum, in upload order from 0.0, of the
    costs of the blocks it appends: a SciencePoints file that parses
    is replaced by [max(0.0, current - unlocked_cost)] printed with six
    decimals, and one that is missing or does not parse is left as it
    is.  On save [s] with T1 (cost 10) and 50 points, uploading T2
    (cost 15) stores T1 and T2 and 35 points, and uploading T2 again
    changes neither file. *)
Theorem techtree_cost_accounting :
  (∀ (F : PyFloat) (fs : store) (save : string) (u : option string)
     (data existing_data : string),
     read_text fs (scenario_file (safe_path_seg save) "TechTree.txt") = Some existing_data →
     let points_path := scenario_file (safe_path_seg save) "SciencePoints.txt" in
     let new_data := Py.strip data in
     let unlocked_cost :=
       foldl (λ c b, fadd c (block_cost (extract_tech_ids_and_costs new_data).2 b)) fzero
             (newly_accepted existing_data new_data) in
     let result := upload_scenario fs save "TechTree" u data in
     result.1 = ("OK", 200) ∧
     match read_text fs points_path ≫= parse_points with
     | Some current_points =>
         result.2 !! points_path =
         Some ("sci = " +:+ fmt6 (pymax fzero (fsub current_points unlocked_cost)) +:+ Py.NL)
     | None => result.2 !! points_path = fs !! points_path
     end)
  ∧ (let once := (upload_scenario (H := Dec.dec_float) Sample.tech_store "s" "TechTree" None
                    Sample.tech_T2).2 in
     let twice := (upload_scenario (H := Dec.dec_float) once "s" "TechTree" None
                     Sample.tech_T2).2 in
     once !! "s/SciencePoints.txt" = Some (Sample.text ["sci = 35.000000"; ""])
     ∧ (fmap block_id ∘ extract_tech_blocks) <$> read_text once "s/TechTree.txt"
         = Some [Some "T1"; Some "T2"]
     ∧ twice !! "s/TechTree.txt" = once !! "s/TechTree.txt"
     ∧ twice !! "s/SciencePoints.txt" = once !! "s/SciencePoints.txt").
Proof.
  split.
  - intros F fs save u data existing_data Hex points_path new_data unlocked_cost result.
    subst result. rewrite upload_scenario_TechTree. unfold upload_TechTree.
    rewrite Hex. fold new_data.
    pose proof (merge_tech_cost existing_data new_data) as Hcost.
    destruct (merge_tech existing_data new_data) as [merged_blocks cost'] eqn:Hm.
    simpl in Hcost. fold unlocked_cost in Hcost. subst cost'.
    split; [done|]. simpl. fold points_path.
    unfold deduct_points, read_text.
    rewrite lookup_insert_ne by (symmetry; apply points_path_not_techtree).
    unfold read_text. destruct (fs !! points_path) as [text|] eqn:Hp; simpl.
    + destruct (parse_points (Py.universal_newlines text)).
      * by rewrite lookup_insert_eq.
      * by rewrite lookup_insert_ne by (symmetry; apply points_path_not_techtree).
    + by rewrite lookup_insert_ne by (symmetry; apply points_path_not_techtree).
  - vm_compute. repeat split.
Qed.

(** The general part of C2 at the sample upload. *)
Lemma techtree_cost_accounting_witness :
  read_text Sample.tech_store (scenario_file (safe_path_seg "s") "TechTree.txt")
    = Some (Sample.tech_T1 +:+ Py.NL)
  ∧ (upload_scenario (H := Dec.dec_float) Sample.tech_store "s" "TechTree" None
       Sample.tech_T2).2 !! "s/SciencePoints.txt"
    = Some (Sample.text ["sci = 35.000000"; ""]).
Proof.
  split; [reflexivity|].
  pose proof (proj1 techtree_cost_accounting Dec.dec_float Sample.tech_store "s" None
                Sample.tech_T2 (Sample.tech_T1 +:+ Py.NL) eq_refl) as [_ Hpoints].
  exact Hpoints.
Defined.

(** ** SciencePoints: the download *)

Section PointsDownload.
Context `{PyFloat}.

(** The download reads two files and no other. *)
Lemma download_SciencePoints_frame (fs fs' : store) save_safe :
  fs' !! scenario_file save_safe "ScienceArchives.txt"
    = fs !! scenario_file save_safe "ScienceArchives.txt" →
  fs' !! scenario_file save_safe "TechTree.txt"
    = fs !! scenario_file save_safe "TechTree.txt" →
  download_SciencePoints fs' save_safe = download_SciencePoints fs save_safe.
Proof.
  intros Ha Ht. unfold download_SciencePoints, read_text. by rewrite Ha, Ht.
Qed.

Lemma upload_SciencePoints_writes_one_file (fs : store) path new_data other :
  other ≠ path → (upload_SciencePoints fs path new_data).2 !! other = fs !! other.
Proof.
  intros Hne. unfold upload_SciencePoints.
  destruct (parse_points new_data) as [new_value|]; simpl; [|done].
  destruct (read_text fs path) as [old_text|]; simpl.
  - destruct (parse_points old_text) as [old_value|].
    + destruct (fgt new_value old_value); [|done]. by rewrite lookup_insert_ne.
    + by rewrite lookup_insert_ne.
  - by rewrite lookup_insert_ne.
Qed.

Lemma deduct_points_writes_one_file (fs : store) points_path unlocked_cost other :
  other ≠ points_path → deduct_points fs points_path unlocked_cost !! other = fs !! other.
Proof.
  intros Hne. unfold deduct_points.
  destruct (read_text fs points_path) as [text|]; [|done].
  destruct (parse_points text); [|done]. by rewrite lookup_insert_ne.
Qed.

End PointsDownload.

(** C3.  [GET /scenarios/<save>/SciencePoints] answers
    [max(0.0, S - C)] with six decimals, [S] the sum of the [sci =]
    lines of ScienceArchives.txt and [C] the sum of the [cost =] lines
    of TechTree.txt (0.0 for a missing file).  The answer is the same in
    any two stores that agree on these two files: whatever
    SciencePoints.txt holds, and whether it exists, makes no
    difference, so neither a SciencePoints upload nor the deduction of
    a TechTree upload changes what this endpoint returns. *)
Theorem download_SciencePoints_never_reads_points `{PyFloat}
    (fs : store) (save : string) (u : option string) :
  let archives_path := scenario_file (safe_path_seg save) "ScienceArchives.txt" in
  let tech_path := scenario_file (safe_path_seg save) "TechTree.txt" in
  let points_path := scenario_file (safe_path_seg save) "SciencePoints.txt" in
  let total_science := from_option (sum_lines "sci =") fzero (read_text fs archives_path) in
  let total_cost := from_option (sum_lines "cost =") fzero (read_text fs tech_path) in
  download_scenario fs save "SciencePoints" u
    = ("sci = " +:+ fmt6 (pymax fzero (fsub total_science total_cost)) +:+ Py.NL, 200)
  ∧ (∀ fs' : store,
       fs' !! archives_path = fs !! archives_path → fs' !! tech_path = fs !! tech_path →
       download_scenario fs' save "SciencePoints" u = download_scenario fs save "SciencePoints" u)
  ∧ (∀ content : option string,
       download_scenario (partial_alter (λ _, content) points_path fs) save "SciencePoints" u
       = download_scenario fs save "SciencePoints" u)
  ∧ (∀ (u' : option string) (data : string),
       download_scenario (upload_scenario fs save "SciencePoints" u' data).2 save "SciencePoints" u
       = download_scenario fs save "SciencePoints" u)
  ∧ (∀ unlocked_cost : float,
       download_scenario (deduct_points fs points_path unlocked_cost) save "SciencePoints" u
       = download_scenario fs save "SciencePoints" u).
Proof.
  intros archives_path tech_path points_path total_science total_cost.
  assert (archives_path ≠ points_path) as Hap by (by intros E%scenario_file_inj).
  assert (tech_path ≠ points_path) as Htp by (by intros E%scenario_file_inj).
  rewrite !download_scenario_SciencePoints.
  split; [|split; [|split; [|split]]].
  - unfold download_SciencePoints. fold archives_path tech_path.
    subst total_science total_cost.
    by destruct (read_text fs archives_path), (read_text fs tech_path).
  - intros fs' Ha Ht. rewrite download_scenario_SciencePoints.
    by apply download_SciencePoints_frame.
  - intros content. rewrite download_scenario_SciencePoints.
    apply download_SciencePoints_frame; by rewrite lookup_partial_alter_ne.
  - intros u' data. rewrite download_scenario_SciencePoints, upload_scenario_SciencePoints.
    apply download_SciencePoints_frame; by apply upload_SciencePoints_writes_one_file.
  - intros unlocked_cost. rewrite download_scenario_SciencePoints.
    apply download_SciencePoints_frame; by apply deduct_points_writes_one_file.
Qed.

(** C3 on the sample save: 50 points are stored, the archives are
    missing and the TechTree costs 10, so the download answers 0; with
    the stored points raised to 900 the answer is the same. *)
Lemma download_SciencePoints_never_reads_points_witness :
  (<["s/SciencePoints.txt" := "sci = 900"]> Sample.tech_store : store)
      !! scenario_file (safe_path_seg "s") "ScienceArchives.txt"
    = Sample.tech_store !! scenario_file (safe_path_seg "s") "ScienceArchives.txt"
  ∧ (<["s/SciencePoints.txt" := "sci = 900"]> Sample.tech_store : store)
      !! scenario_file (safe_path_seg "s") "TechTree.txt"
    = Sample.tech_store !! scenario_file (safe_path_seg "s") "TechTree.txt"
  ∧ download_scenario (H := Dec.dec_float)
      (<["s/SciencePoints.txt" := "sci = 900"]> Sample.tech_store) "s" "SciencePoints" None
    = download_scenario (H := Dec.dec_float) Sample.tech_store "s" "SciencePoints" None
  ∧ download_scenario (H := Dec.dec_float) Sample.tech_store "s" "SciencePoints" None
    = (Sample.text ["sci = 0.000000"; ""], 200).
Proof.
  pose proof (download_SciencePoints_never_reads_points (H := Dec.dec_float)
                Sample.tech_store "s" None) as (Hval & Hframe & _).
  split; [reflexivity|]. split; [reflexivity|]. split.
  - apply Hframe; reflexivity.
  - exact Hval.
Defined.

(** ** SciencePoints: the upload *)

(** C8.  [POST /scenarios/<save>/SciencePoints]: a body whose value does
    not parse is answered [Invalid format], 400, and the store is left
    as it is.  A value that parses is answered OK; it is written when
    there is no stored file (first upload), when the stored value does
    not parse, and when it is strictly greater than the stored value;
    otherwise the store is left as it is. *)
Theorem upload_SciencePoints_high_water `{PyFloat}
    (fs : store) (save : string) (u : option string) (data : string) :
  let path := scenario_file (safe_path_seg save) "SciencePoints.txt" in
  let result := upload_scenario fs save "SciencePoints" u data in
  match parse_points (Py.strip data) with
  | None => result = (("Invalid format", 400), fs)
  | Some new_value =>
      let written := <[path := "sci = " +:+ repr new_value +:+ Py.NL]> fs in
      result.1 = ("OK", 200) ∧
      match read_text fs path with
      | None => result.2 = written
      | Some old_text =>
          match parse_points old_text with
          | None => result.2 = written
          | Some old_value =>
              result.2 = if fgt new_value old_value then written else fs
          end
      end
  end.
Proof.
  intros path result. subst result.
  rewrite upload_scenario_SciencePoints. fold path. unfold upload_SciencePoints.
  destruct (parse_points (Py.strip data)) as [new_value|]; [|done].
  split; [done|]. simpl.
  destruct (read_text fs path) as [old_text|]; [|done].
  by destruct (parse_points old_text).
Qed.

(** ** The vote coordinator *)

Section VoteFacts.
Context `{PyFloat}.

(** The yes and the no ballots together are the ballots: one per
    caster. *)
Lemma count_votes_total (ballots : gmap string bool) :
  count_votes true ballots + count_votes false ballots = size ballots.
Proof.
  unfold count_votes.
  assert (filter (λ kv : string * bool, kv.2 = false) ballots
          = filter (λ kv : string * bool, ¬ kv.2 = true) ballots) as ->.
  { apply map_filter_ext. intros i x _. simpl. by destruct x. }
  rewrite <- map_size_disj_union by apply map_disjoint_filter_complement.
  by rewrite map_filter_union_complement.
Qed.

End VoteFacts.

(** C9.  [vote_start] stores an open session with no ballots whose
    quorum is 1 when at most one user is online and 2 otherwise.
    [vote_cast] is answered [No open vote], 400, and changes nothing,
    when there is no session under the key or the session is closed.
    On an open session it is answered OK and records the caster's
    ballot over any earlier one; the yes and no counts add up to the
    number of casters; the session is closed exactly when that number
    has reached the quorum, then with [approved = (yes > no)], so that
    equal counts reject; otherwise [approved] stays as it was. *)
Theorem vote_quorum_and_close `{PyFloat}
    (VOTES : vote_table) (save tech : string) (d : vote_request) :
  let k := _key save tech in
  (∀ (online : list string) (now : float),
     let started := vote_start VOTES save tech d online now in
     started.1 = ("OK", 200) ∧
     ∃ s, started.2 !! k = Some s ∧ votes s = ∅ ∧ closed s = false ∧ approved s = None
          ∧ quorum s = if bool_decide (length online ≤ 1) then 1%Z else 2%Z)
  ∧ match VOTES !! k with
    | None => vote_cast VOTES save tech d = (("No open vote", 400), VOTES)
    | Some v =>
        if closed v then vote_cast VOTES save tech d = (("No open vote", 400), VOTES)
        else
          ∃ v', vote_cast VOTES save tech d = (("OK", 200), <[k := v']> VOTES)
            ∧ votes v' = <[request_user d := ballot (d_vote d)]> (votes v)
            ∧ quorum v' = quorum v
            ∧ count_votes true (votes v') + count_votes false (votes v') = size (votes v')
            ∧ closed v' = bool_decide (quorum v ≤ Z.of_nat (size (votes v')))%Z
            ∧ approved v' =
                (if closed v'
                 then Some (bool_decide (count_votes false (votes v') < count_votes true (votes v')))
                 else approved v)
            ∧ (closed v' = true →
               count_votes true (votes v') = count_votes false (votes v') →
               approved v' = Some false)
    end.
Proof.
  intros k. split.
  - intros online now started. subst started. unfold vote_start. fold k. simpl.
    split; [done|]. eexists. rewrite lookup_insert_eq. split; [done|]. simpl.
    repeat split.
    repeat case_bool_decide; lia.
  - unfold vote_cast. fold k. destruct (VOTES !! k) as [v|]; [|done].
    destruct (closed v) eqn:Hclosed; [done|].
    set (ballots := <[request_user d := ballot (d_vote d)]> (votes v)).
    rewrite (count_votes_total ballots).
    case_bool_decide as Hq.
    + eexists. split; [done|]. simpl.
      rewrite (count_votes_total ballots).
      rewrite bool_decide_eq_true_2 by done.
      repeat split. intros _ Heq. f_equal. apply bool_decide_eq_false_2.
      fold ballots. lia.
    + eexists. split; [done|]. simpl.
      rewrite (count_votes_total ballots).
      rewrite bool_decide_eq_false_2 by done.
      repeat split; done.
Qed.

(** C9 with two users online: the quorum is 2; after alice's yes the
    session is open; bob's no makes two casters, the session closes,
    and one yes against one no rejects. *)
Lemma vote_quorum_and_close_witness :
  quorum (H := Dec.dec_float) <$> SampleVote.started !! ("s", "T2") = Some 2%Z
  ∧ closed (H := Dec.dec_float) <$> SampleVote.one_yes !! ("s", "T2") = Some false
  ∧ ∃ v', vote_cast SampleVote.one_yes "s" "T2" SampleVote.bob_no
          = (("OK", 200), <[("s", "T2") := v']> SampleVote.one_yes)
        ∧ size (votes v') = 2
        ∧ closed v' = true
        ∧ approved v' = Some false.
Proof.
  split; [reflexivity|]. split; [reflexivity|].
  pose proof (proj2 (vote_quorum_and_close (H := Dec.dec_float)
                       SampleVote.one_yes "s" "T2" SampleVote.bob_no)) as Hcast.
  change (SampleVote.one_yes !! _key "s" "T2") with
    (Some (Session "T2" "alice" 0%Z {["alice" := true]} 0%Z false None 2%Z)) in Hcast.
  cbn beta iota in Hcast.
  destruct Hcast as (v' & Hcast & Hvotes & _ & _ & Hclosed & _ & Htie).
  exists v'. split; [exact Hcast|].
  assert (votes v' = <["bob" := false]> {["alice" := true]}) as Hv by exact Hvotes.
  rewrite Hv in Hclosed, Htie |- *.
  split; [reflexivity|]. split; [exact Hclosed|].
  apply Htie; [exact Hclosed | reflexivity].
Defined.

(** A cancel by anyone but the requester changes nothing, and a cast
    on a closed session changes nothing. *)
Lemma vote_cancel_not_requester `{PyFloat}
    (VOTES : vote_table) (save tech : string) (d : vote_request) (v : session) :
  VOTES !! _key save tech = Some v → request_user d ≠ requester v →
  vote_cancel VOTES save tech d = (("OK", 200), VOTES).
Proof.
  intros Hv Hne. unfold vote_cancel. rewrite Hv.
  by rewrite bool_decide_eq_false_2.
Qed.

Lemma vote_cast_closed `{PyFloat}
    (VOTES : vote_table) (save tech : string) (d : vote_request) (v : session) :
  VOTES !! _key save tech = Some v → closed v = true →
  vote_cast VOTES save tech d = (("No open vote", 400), VOTES).
Proof. intros Hv Hc. unfold vote_cast. by rewrite Hv, Hc. Qed.

(** A lone player: with nobody else online one yes closes the vote as
    approved, and a later ballot is refused. *)
Example vote_lone_player :
  (λ v : session (H := Dec.dec_float), (closed v, approved v)) <$>
    (vote_cast (H := Dec.dec_float)
       (vote_start (H := Dec.dec_float) ∅ "s" "T2" SampleVote.alice_yes ["alice"] 0%Z).2
       "s" "T2" SampleVote.alice_yes).2 !! ("s", "T2")
  = Some (true, Some true)
  ∧ (vote_cast (H := Dec.dec_float)
       (vote_cast (H := Dec.dec_float)
          (vote_start (H := Dec.dec_float) ∅ "s" "T2" SampleVote.alice_yes ["alice"] 0%Z).2
          "s" "T2" SampleVote.alice_yes).2
       "s" "T2" SampleVote.bob_no).1
    = ("No open vote", 400).
Proof. vm_compute. repeat split. Qed.

(** C10 (the code departs from the claim).  With nobody online the
    quorum is 1; the requester's own yes closes the session with
    [approved = True]; a third request, the requester's cancel, is
    answered OK and sets [approved] of the closed session to [False]. *)
Theorem vote_cancel_flips_closed_session :
  let H := Dec.dec_float in
  let alice := VoteRequest (Some "alice") None None (Some (VBool true)) in
  let started := (vote_start ∅ "s" "T2" alice [] 0%Z).2 in
  let decided := (vote_cast started "s" "T2" alice).2 in
  let cancelled := vote_cancel decided "s" "T2" alice in
  (λ v, (closed v, approved v)) <$> decided !! ("s", "T2") = Some (true, Some true)
  ∧ cancelled.1 = ("OK", 200)
  ∧ (λ v, (closed v, approved v)) <$> cancelled.2 !! ("s", "T2") = Some (true, Some false).
Proof. vm_compute. repeat split. Qed.

(** ** Scan coverage: the union of two maps *)

(** *** Bytes *)

Lemma byte_or_comm x y : byte_or x y = byte_or y x.
Proof. destruct x, y. simpl. f_equal; apply orb_comm. Qed.

Lemma byte_or_assoc x y z : byte_or (byte_or x y) z = byte_or x (byte_or y z).
Proof. destruct x, y, z. simpl. f_equal; symmetry; apply orb_assoc. Qed.

Lemma byte_or_diag x : byte_or x x = x.
Proof. destruct x. simpl. f_equal; apply orb_diag. Qed.

Lemma byte_or_zero_r x : byte_or x zero = x.
Proof. destruct x. simpl. f_equal; apply orb_false_r. Qed.

Lemma byte_or_zero_l x : byte_or zero x = x.
Proof. by rewrite byte_or_comm, byte_or_zero_r. Qed.

Lemma byte_bit_or i x y : byte_bit i (byte_or x y) = byte_bit i x || byte_bit i y.
Proof.
  destruct x, y. simpl.
  do 8 (destruct i as [|i]; [done|]). by destruct i.
Qed.

Lemma byte_bit_zero i : byte_bit i zero = false.
Proof. simpl. do 8 (destruct i as [|i]; [done|]). by destruct i. Qed.

(** *** Zero extension and the byte-wise or *)

Lemma lookup_zero_extend (L : nat) (A : bytes) (n : nat) :
  zero_extend L A !! n =
  if decide (n < L `max` length A) then Some (default zero (A !! n)) else None.
Proof.
  unfold zero_extend. case_bool_decide as HL.
  - destruct (decide (n < length A)) as [Hn|Hn].
    + rewrite lookup_app_l by done.
      destruct (lookup_lt_is_Some_2 A n Hn) as [x Hx]. rewrite Hx. simpl.
      by rewrite decide_True by lia.
    + rewrite lookup_app_r by lia. rewrite (lookup_ge_None_2 A n) by lia. simpl.
      case_decide as Hm.
      * apply lookup_replicate_2. lia.
      * apply lookup_ge_None_2. rewrite length_replicate. lia.
  - case_decide as Hm.
    + destruct (lookup_lt_is_Some_2 A n) as [x Hx]; [lia|]. by rewrite Hx.
    + apply lookup_ge_None_2. lia.
Qed.

Lemma lookup_union_bytes (A B : bytes) (n : nat) :
  union_bytes A B !! n =
  if decide (n < length A `max` length B)
  then Some (byte_or (default zero (A !! n)) (default zero (B !! n))) else None.
Proof.
  unfold union_bytes, or_bytes. rewrite lookup_zip_with, !lookup_zero_extend.
  repeat case_decide; try lia; done.
Qed.

Lemma length_union_bytes (A B : bytes) :
  length (union_bytes A B) = length A `max` length B.
Proof.
  apply Nat.le_antisymm.
  - apply Nat.nlt_ge. intros Hlt.
    apply lookup_lt_is_Some_2 in Hlt as [x Hx].
    rewrite lookup_union_bytes in Hx. by rewrite decide_False in Hx by lia.
  - apply Nat.nlt_ge. intros Hlt.
    pose proof (lookup_union_bytes A B (length (union_bytes A B))) as Hl.
    rewrite decide_True in Hl by done.
    by rewrite lookup_ge_None_2 in Hl.
Qed.

Lemma union_bytes_comm (A B : bytes) : union_bytes A B = union_bytes B A.
Proof.
  apply list_eq. intros n. rewrite !lookup_union_bytes, byte_or_comm.
  repeat case_decide; try lia; done.
Qed.

Lemma default_lookup_union_bytes (A B : bytes) (n : nat) :
  default zero (union_bytes A B !! n)
  = byte_or (default zero (A !! n)) (default zero (B !! n)).
Proof.
  rewrite lookup_union_bytes. case_decide as Hn; [done|]. simpl.
  rewrite (lookup_ge_None_2 A n), (lookup_ge_None_2 B n) by lia. done.
Qed.

Lemma union_bytes_assoc (A B C : bytes) :
  union_bytes (union_bytes A B) C = union_bytes A (union_bytes B C).
Proof.
  apply list_eq. intros n.
  rewrite (lookup_union_bytes (union_bytes A B) C), (lookup_union_bytes A (union_bytes B C)).
  rewrite !default_lookup_union_bytes, !length_union_bytes.
  rewrite byte_or_assoc. repeat case_decide; try lia; done.
Qed.

Lemma union_bytes_diag (A : bytes) : union_bytes A A = A.
Proof.
  apply list_eq. intros n. rewrite lookup_union_bytes, byte_or_diag.
  case_decide as Hn.
  - destruct (lookup_lt_is_Some_2 A n) as [x Hx]; [lia|]. by rewrite Hx.
  - symmetry. apply lookup_ge_None_2. lia.
Qed.

Lemma map_bit_union_bytes (A B : bytes) (n i : nat) :
  map_bit (union_bytes A B) n i = map_bit A n i || map_bit B n i.
Proof.
  unfold map_bit. rewrite lookup_union_bytes. case_decide as Hn.
  - rewrite byte_bit_or.
    destruct (A !! n), (B !! n); cbn [from_option id];
      by rewrite ?byte_bit_zero, ?orb_false_r.
  - by rewrite (lookup_ge_None_2 A n), (lookup_ge_None_2 B n) by lia.
Qed.

(** *** The base64 instance meets the interface's laws *)

Lemma string_app_cons c s1 s2 : String c s1 +:+ s2 = String c (s1 +:+ s2).
Proof. reflexivity. Qed.

Lemma string_app_nil s : "" +:+ s = s.
Proof. reflexivity. Qed.

Lemma string_length_app s1 s2 :
  String.length (s1 +:+ s2) = String.length s1 + String.length s2.
Proof. induction s1 as [|c s1 IH]; [done|]. rewrite string_app_cons. simpl. by rewrite IH. Qed.

Lemma all_chars_app p s1 s2 :
  Py.all_chars p (s1 +:+ s2) = Py.all_chars p s1 && Py.all_chars p s2.
Proof.
  induction s1 as [|c s1 IH]; [done|].
  rewrite string_app_cons. simpl. by rewrite IH, andb_assoc.
Qed.

(** A text without white space is its own [strip()]. *)
Lemma strip_no_space s :
  Py.all_chars (λ c, negb (Py.is_space c)) s = true → Py.strip s = s.
Proof.
  intros Hs. unfold Py.strip.
  assert (Py.lstrip s = s) as ->.
  { destruct s as [|c s]; [done|]. simpl in *.
    by destruct (Py.is_space c). }
  induction s as [|c s IH]; [done|]. simpl in *.
  apply andb_true_iff in Hs as [Hc Hs]. rewrite (IH Hs).
  destruct s; [|done]. by destruct (Py.is_space c).
Qed.

(** Lists three elements at a time. *)
Lemma triple_ind {A} (P : list A → Prop) :
  P [] → (∀ x, P [x]) → (∀ x y, P [x; y]) →
  (∀ x y z l, P l → P (x :: y :: z :: l)) → ∀ l, P l.
Proof.
  intros H0 H1 H2 H3.
  assert (∀ l, P l ∧ (∀ x, P (x :: l)) ∧ (∀ x y, P (x :: y :: l))) as Hall.
  { induction l as [|z l (IH0 & IH1 & IH2)]; [by auto|].
    split; [apply IH1|]. split; [intros x; apply IH2|]. intros x y. by apply H3. }
  intros l. apply Hall.
Qed.

Ltac sextet_cases v :=
  destruct v as [[[[[b5 b4] b3] b2] b1] b0];
  destruct b5, b4, b3, b2, b1, b0.

Lemma value_of_char_of v : B64.value_of (B64.char_of v) = Some v.
Proof. sextet_cases v; reflexivity. Qed.

Lemma char_of_not_pad v : B64.char_of v ≠ B64.pad_char.
Proof. sextet_cases v; discriminate. Qed.

Lemma char_of_7bit v : (N_of_ascii (B64.char_of v) <? 128)%N = true.
Proof. sextet_cases v; reflexivity. Qed.

Lemma char_of_not_space v : Py.is_space (B64.char_of v) = false.
Proof. sextet_cases v; reflexivity. Qed.

Lemma decode_go_data v s q pads :
  B64.decode_go (String (B64.char_of v) s) q pads =
  match (B64.feed q v).2 with
  | Some x => (x ::.) <$> B64.decode_go s (B64.feed q v).1 0
  | None => B64.decode_go s (B64.feed q v).1 0
  end.
Proof.
  cbn [B64.decode_go].
  rewrite bool_decide_eq_false_2 by apply char_of_not_pad.
  rewrite value_of_char_of. by destruct (B64.feed q v).
Qed.

Lemma decode_go_encode3 x y z s :
  B64.decode_go (B64.encode3 x y z +:+ s) B64.Q0 0 =
  (λ l, x :: y :: z :: l) <$> B64.decode_go s B64.Q0 0.
Proof.
  destruct x, y, z. unfold B64.encode3.
  rewrite !string_app_cons, string_app_nil, !decode_go_data. cbn [B64.feed fst snd].
  by destruct (B64.decode_go s B64.Q0 0).
Qed.

Lemma decode_go_encode (b : bytes) : B64.decode_go (B64.encode b) B64.Q0 0 = Some b.
Proof.
  induction b as [|x|x y|x y z b IH] using triple_ind.
  - done.
  - destruct x. cbn [B64.encode]. unfold zero. cbn [B64.encode3 Py.take].
    rewrite !string_app_cons, string_app_nil, !decode_go_data. by cbn.
  - destruct x, y. cbn [B64.encode]. unfold zero. cbn [B64.encode3 Py.take].
    rewrite !string_app_cons, string_app_nil, !decode_go_data. by cbn.
  - cbn [B64.encode]. by rewrite decode_go_encode3, IH.
Qed.

Lemma encode3_chars p x y z :
  (∀ v, p (B64.char_of v) = true) → Py.all_chars p (B64.encode3 x y z) = true.
Proof. intros Hp. destruct x, y, z. simpl. by rewrite !Hp. Qed.

Lemma encode_chars p (b : bytes) :
  (∀ v, p (B64.char_of v) = true) → p B64.pad_char = true →
  Py.all_chars p (B64.encode b) = true.
Proof.
  intros Hp Hpad.
  induction b as [|x|x y|x y z b IH] using triple_ind.
  - done.
  - destruct x. cbn [B64.encode]. unfold zero. cbn [B64.encode3 Py.take].
    rewrite !string_app_cons, string_app_nil. simpl. by rewrite !Hp, Hpad.
  - destruct x, y. cbn [B64.encode]. unfold zero. cbn [B64.encode3 Py.take].
    rewrite !string_app_cons, string_app_nil. simpl. by rewrite !Hp, Hpad.
  - cbn [B64.encode]. by rewrite all_chars_app, encode3_chars, IH.
Qed.

Lemma is_ascii_all_chars s :
  B64.is_ascii s = Py.all_chars (λ c, (N_of_ascii c <? 128)%N) s.
Proof. induction s as [|c s IH]; simpl; [done|]. by rewrite IH. Qed.

Lemma length_encode3 x y z : String.length (B64.encode3 x y z) = 4.
Proof. by destruct x, y, z. Qed.

#[global] Instance b64_laws : PyBase64Laws (H := B64.py_base64).
Proof.
  split; cbn [b64encode b64decode B64.py_base64].
  - intros b. unfold B64.decode.
    rewrite is_ascii_all_chars, encode_chars; [apply decode_go_encode| |done].
    apply char_of_7bit.
  - induction b as [|x|x y|x y z b IH] using triple_ind.
    + done.
    + by destruct x.
    + by destruct x, y.
    + intros. cbn [B64.encode]. rewrite string_length_app, length_encode3.
      by rewrite Nat.Div0.add_mod, IH.
  - intros b. apply strip_no_space, encode_chars; [|done].
    intros v. by rewrite char_of_not_space.
Qed.

(** *** [_map_union] *)

Lemma string_app_nil_r s : s +:+ "" = s.
Proof. induction s as [|c s IH]; [done|]. by rewrite string_app_cons, IH. Qed.

Lemma zero_extend_app (L : nat) (A : bytes) :
  zero_extend L A = A ++ replicate (L - length A) zero.
Proof.
  unfold zero_extend. case_bool_decide as HL; [done|].
  replace (L - length A) with 0 by lia. by rewrite app_nil_r.
Qed.

Section MapUnion.
Context `{PyBase64} `{!PyBase64Laws}.

(** What [_b64encode] returns decodes, through [_b64decode], to the
    bytes encoded. *)
Lemma _b64decode_encode (X : bytes) : _b64decode (_b64encode X) = Some X.
Proof.
  unfold _b64decode, _b64encode.
  rewrite b64_stripped, b64_padded. cbn [equals Nat.sub Nat.modulo].
  change ((4 - 0) `mod` 4) with 0. cbn [equals].
  by rewrite string_app_nil_r, b64_round.
Qed.

Lemma _map_union_decoded (a b : string) (A B : bytes) :
  _b64decode a = Some A → _b64decode b = Some B →
  _map_union a b = _b64encode (union_bytes A B).
Proof. intros Ha Hb. unfold _map_union. by rewrite Ha, Hb. Qed.

End MapUnion.

(** C6.  For maps [a], [b], [c] that decode (padding completed) to the
    bytes [A], [B], [C]: [_map_union a b] is the encoding of the
    byte-wise or of [A] and [B], each extended with zero bytes to the
    longer length; a bit of the result is set exactly when it is set in
    [A] or in [B], so no bit of either input is cleared; the union is
    commutative and associative; the union of a map with itself
    decodes to the map's own bytes, and merging [b] a second time
    changes nothing. *)
Theorem map_union_bitwise_or `{PyBase64} `{!PyBase64Laws}
    (a b c : string) (A B C : bytes) :
  _b64decode a = Some A → _b64decode b = Some B → _b64decode c = Some C →
  let L := length A `max` length B in
  _map_union a b
    = _b64encode (zip_with byte_or (A ++ replicate (L - length A) zero)
                                   (B ++ replicate (L - length B) zero))
  ∧ _b64decode (_map_union a b) = Some (union_bytes A B)
  ∧ length (union_bytes A B) = L
  ∧ (∀ n i, map_bit (union_bytes A B) n i = map_bit A n i || map_bit B n i)
  ∧ _map_union a b = _map_union b a
  ∧ _map_union (_map_union a b) c = _map_union a (_map_union b c)
  ∧ _b64decode (_map_union a a) = Some A
  ∧ _map_union (_map_union a b) b = _map_union a b.
Proof.
  intros Ha Hb Hc L.
  pose proof (_map_union_decoded a b A B Ha Hb) as Hab.
  pose proof (_map_union_decoded b c B C Hb Hc) as Hbc.
  assert (_b64decode (_map_union a b) = Some (union_bytes A B)) as Dab
    by (rewrite Hab; apply _b64decode_encode).
  assert (_b64decode (_map_union b c) = Some (union_bytes B C)) as Dbc
    by (rewrite Hbc; apply _b64decode_encode).
  repeat split.
  - rewrite Hab. unfold union_bytes, or_bytes. fold L. by rewrite !zero_extend_app.
  - done.
  - apply length_union_bytes.
  - intros n i. apply map_bit_union_bytes.
  - rewrite Hab, (_map_union_decoded b a B A Hb Ha). by rewrite union_bytes_comm.
  - rewrite (_map_union_decoded _ c _ C Dab Hc), (_map_union_decoded a _ A _ Ha Dbc).
    by rewrite union_bytes_assoc.
  - rewrite (_map_union_decoded a a A A Ha Ha), union_bytes_diag.
    apply _b64decode_encode.
  - rewrite (_map_union_decoded _ b _ B Dab Hb), Hab.
    by rewrite union_bytes_assoc, union_bytes_diag.
Qed.

(** C6 at three maps, the first without its padding: [41], [02 03]
    and [80]. *)
Lemma map_union_bitwise_or_witness :
  _b64decode (H := B64.py_base64) "QQ" = Some ["A"%char]
  ∧ _b64decode (H := B64.py_base64) "AgM=" = Some ["002"%char; "003"%char]
  ∧ _b64decode (H := B64.py_base64) "gA==" = Some ["128"%char]
  ∧ _map_union (H := B64.py_base64) "QQ" "AgM=" = "QwM="
  ∧ _map_union (H := B64.py_base64) "QQ" "AgM="
    = _map_union (H := B64.py_base64) "AgM=" "QQ"
  ∧ _map_union (H := B64.py_base64) (_map_union (H := B64.py_base64) "QQ" "AgM=") "gA=="
    = _map_union (H := B64.py_base64) "QQ" (_map_union (H := B64.py_base64) "AgM=" "gA==").
Proof.
  assert (_b64decode (H := B64.py_base64) "QQ" = Some ["A"%char]) as Ha by reflexivity.
  assert (_b64decode (H := B64.py_base64) "AgM=" = Some ["002"%char; "003"%char]) as Hb
    by reflexivity.
  assert (_b64decode (H := B64.py_base64) "gA==" = Some ["128"%char]) as Hc by reflexivity.
  destruct (map_union_bitwise_or (H := B64.py_base64) "QQ" "AgM=" "gA==" _ _ _ Ha Hb Hc)
    as (Hu & _ & _ & _ & Hcomm & Hassoc & _).
  exact (conj Ha (conj Hb (conj Hc (conj Hu (conj Hcomm Hassoc))))).
Defined.

(** ** The search for blocks moves forward *)

Lemma startswith_length s p : Py.startswith s p = true → String.length p ≤ String.length s.
Proof.
  revert s. induction p as [|a p IH]; intros [|b s]; simpl; try done; try lia.
  case_bool_decide; [|done]. intros Hs%IH. lia.
Qed.

Lemma find_from_bounds s sub start i :
  Py.find_from s sub start = Some i →
  start ≤ i ∧ i + String.length sub ≤ String.length s.
Proof.
  revert start i. induction s as [|c s IH]; intros start i.
  - destruct start; cbn [Py.find_from]; [|done].
    destruct (Py.startswith "" sub) eqn:Hs; [|done].
    intros [= <-]. apply startswith_length in Hs. simpl in *. lia.
  - destruct start as [|n]; cbn [Py.find_from].
    + destruct (Py.startswith (String c s) sub) eqn:Hs.
      * intros [= <-]. apply startswith_length in Hs. simpl in *. lia.
      * destruct (Py.find_from s sub 0) as [i'|] eqn:Hf; [|done].
        cbn [fmap option_fmap option_map]. intros [= <-]. apply IH in Hf. simpl. lia.
    + destruct (Py.find_from s sub n) as [i'|] eqn:Hf; [|done].
      cbn [fmap option_fmap option_map]. intros [= <-]. apply IH in Hf. simpl. lia.
Qed.

Lemma match_brace_bounds s depth k k' :
  match_brace s depth k = Some k' → k ≤ k' < k + String.length s.
Proof.
  revert depth k. induction s as [|c s IH]; intros depth k; simpl; [done|].
  repeat case_bool_decide; try (intros Hm%IH; lia).
  intros [= <-]. lia.
Qed.

Lemma length_drop i s : String.length (Py.drop i s) = String.length s - i.
Proof.
  revert s. induction i as [|i IH]; intros [|c s]; simpl; done.
Qed.

Lemma _find_block_at_bounds s hdr start blk idx :
  _find_block_at s hdr start = Some (blk, idx) → start < idx ≤ String.length s.
Proof.
  unfold _find_block_at.
  destruct (Py.find_from s hdr start) as [i|] eqn:Hi; [|done]. simpl.
  destruct (Py.find_from s "{" i) as [j|] eqn:Hj; [|done]. simpl.
  destruct (match_brace (Py.drop j s) 0 j) as [k|] eqn:Hk; [|done]. simpl.
  intros [= <- <-].
  apply find_from_bounds in Hi, Hj. apply match_brace_bounds in Hk.
  rewrite length_drop in Hk. simpl in Hj. lia.
Qed.

(** The loop over the [SCENARIO] blocks does not depend on the bound
    once the bound covers the rest of the text: with the rounds that
    [_normalize_scansat] allows, the loop ends as in the source. *)
Lemma scan_scenarios_fuel s idx fuel fuel' :
  String.length s < fuel + idx → String.length s < fuel' + idx →
  scan_scenarios fuel s idx = scan_scenarios fuel' s idx.
Proof.
  revert idx fuel'. induction fuel as [|fuel IH]; intros idx fuel' Hf Hf'.
  - destruct fuel' as [|fuel']; [done|]. simpl.
    destruct (_find_block_at s "SCENARIO" idx) as [[scen idx']|] eqn:Hb; [|done].
    apply _find_block_at_bounds in Hb. lia.
  - destruct fuel' as [|fuel']; simpl.
    + destruct (_find_block_at s "SCENARIO" idx) as [[scen idx']|] eqn:Hb; [|done].
      apply _find_block_at_bounds in Hb. lia.
    + destruct (_find_block_at s "SCENARIO" idx) as [[scen idx']|] eqn:Hb; [|done].
      apply _find_block_at_bounds in Hb.
      destruct (Py.contains scen "name" && Py.contains scen "SCANcontroller"); [done|].
      apply IH; lia.
Qed.

(** ** Scan coverage: the upload guard *)

(** The guard of the SCANcontroller upload: for a request with a user,
    the upload is answered [UNCHANGED] and the store is left as it is
    when the user's file exists and normalizes to the same text as the
    upload; otherwise the normalized upload is written to the user's
    file. *)
Lemma upload_SCANcontroller_guard (fs : store) (save_safe user : string)
    (u : option string) (new_data : string) :
  _resolve_user_from_request u = Some user → user ≠ "" →
  let user_path := user_file save_safe user in
  upload_SCANcontroller fs save_safe u new_data =
  if bool_decide (_normalize_scansat <$> read_text fs user_path
                  = Some (_normalize_scansat new_data))
  then (("UNCHANGED", 200), fs)
  else (("OK", 200), <[user_path := _normalize_scansat new_data]> fs).
Proof.
  intros Hu Hne user_path. unfold upload_SCANcontroller. rewrite Hu.
  by destruct user.
Qed.

(** C7 (the code departs from the claim).  A bare block normalizes to
    itself.  For the same content in its [SCENARIO] wrapper, the search
    for the header text finds it in the line [name = SCANcontroller];
    the block returned starts there and ends at the first closing brace
    that balances, the one of [Scanners]: the [scene =] line stays, the
    braces of the block and everything after [Scanners] are gone.  So
    the wrapped upload of a stored bare snapshot is not answered
    [UNCHANGED], and the user's file is overwritten with the cut
    text.  Only a wrapper without nested blocks is unwrapped as the
    docstring says. *)
Theorem normalize_scansat_cuts_wrapped_upload :
  let stored := (upload_scenario (H := Dec.dec_float) ∅ "s" "SCANcontroller" (Some "bob")
                   Sample.scan_bare).2 in
  let again := upload_scenario (H := Dec.dec_float) stored "s" "SCANcontroller" (Some "bob")
                 Sample.scan_wrapped in
  _normalize_scansat Sample.scan_bare = Sample.scan_bare +:+ Py.NL
  ∧ _normalize_scansat Sample.scan_wrapped
    = Sample.text ["SCANcontroller"; "  scene = 7, 5, 8"; "  Scanners"; "  {"; "  }"; ""]
  ∧ stored !! "s/SCANcontroller_users/bob.txt" = Some (Sample.scan_bare +:+ Py.NL)
  ∧ again.1 = ("OK", 200)
  ∧ again.2 !! "s/SCANcontroller_users/bob.txt"
    = Some (Sample.text ["SCANcontroller"; "  scene = 7, 5, 8"; "  Scanners"; "  {"; "  }"; ""])
  ∧ _normalize_scansat Sample.scan_wrapped_flat
    = Sample.text ["SCANcontroller"; "{"; "  overlay = True"; "}"; ""].
Proof. vm_compute. repeat split. Qed.

(** ** ScienceArchives: the merge *)

(** C4 (the code departs from the claim).  The stored subject A has
    sci 40 and cap 50; the upload has sci 60 and no cap.  The round
    computes sci 50 under cap 50, but the text it keeps is the upload's
    block with the sci line rewritten, and that block has no cap line:
    what is stored parses to sci 50 without a cap.  A later upload of
    sci 70 is then stored as 70. *)
Theorem science_archives_cap_not_stored :
  let H := Dec.dec_float in
  let merged := (upload_scenario Sample.archive_store "s" "ScienceArchives" None
                   Sample.sci_A_60).2 in
  let later := (upload_scenario merged "s" "ScienceArchives" None Sample.sci_A_70).2 in
  entry_values <$> merge_science (read_text Sample.archive_store "s/ScienceArchives.txt")
                     Sample.sci_A_60 !! "A"
    = Some (Some 50000000%Z, Some 50000000%Z)
  ∧ merged !! "s/ScienceArchives.txt"
    = Some (Sample.text ["Science"; "{"; "  id = A"; "  sci = 50.0"; "}"; ""])
  ∧ (fmap (parsed_values ∘ parse_block) ∘ extract_science_blocks)
      <$> read_text merged "s/ScienceArchives.txt"
    = Some [(Some "A", Some 50000000%Z, None)]
  ∧ later !! "s/ScienceArchives.txt"
    = Some (Sample.text ["Science"; "{"; "  id = A"; "  sci = 70.0"; "}"; ""]).
Proof. vm_compute. repeat split. Qed.

(** C5 fails as stated.  Uploading the block (A, sci 60) over the
    stored (A, sci 40, cap 50) stores sci 50; uploading the same block
    again stores sci 60.  And the uploads (A, sci 60, cap 100) and
    (A, sci 40, cap 50) into an empty save leave sci 50 in one order
    and sci 60 in the other. *)
Lemma science_archives_reupload_and_order_matter :
  (upload_scenario (H := Dec.dec_float)
     (upload_scenario (H := Dec.dec_float) Sample.archive_store "s" "ScienceArchives" None
        Sample.sci_A_60).2
     "s" "ScienceArchives" None Sample.sci_A_60).2
  ≠ (upload_scenario (H := Dec.dec_float) Sample.archive_store "s" "ScienceArchives" None
       Sample.sci_A_60).2
  ∧ (upload_scenario (H := Dec.dec_float)
       (upload_scenario (H := Dec.dec_float) ∅ "s" "ScienceArchives" None
          Sample.sci_A_60_cap_100).2
       "s" "ScienceArchives" None Sample.sci_A_40_cap_50).2
    ≠ (upload_scenario (H := Dec.dec_float)
         (upload_scenario (H := Dec.dec_float) ∅ "s" "ScienceArchives" None
            Sample.sci_A_40_cap_50).2
         "s" "ScienceArchives" None Sample.sci_A_60_cap_100).2.
Proof.
  split; intros E.
  - apply (f_equal (λ fs : store, fs !! "s/ScienceArchives.txt")) in E.
    vm_compute in E. discriminate E.
  - apply (f_equal (λ fs : store, fs !! "s/ScienceArchives.txt")) in E.
    vm_compute in E. discriminate E.
Qed.

(** *** The values of a merge round *)

Section FloatOrder.
Context `{PyFloat} `{!PyFloatOrder}.

Lemma fle_false_flip x y : fle x y = false → fle y x = true.
Proof. intros Hf. destruct (fle_total x y) as [Ht|Ht]; [congruence|done]. Qed.

End FloatOrder.

(** Case analysis on every comparison of the goal, innermost first,
    then the order laws: equal ends of a chain are equal, a chain against a strict
    comparison is absurd. *)
Ltac float_cases :=
  unfold pymin, pymax, fgt, fge in *;
  repeat match goal with
    | |- context [flt ?x ?y] =>
        lazymatch x with context [flt] => fail | _ => idtac end;
        lazymatch y with context [flt] => fail | _ => idtac end;
        rewrite (flt_fle x y); destruct (fle y x) eqn:?; cbn [negb]
    end.

Ltac float_flip :=
  repeat match goal with
    | Hf : fle ?a ?b = false |- _ =>
        lazymatch goal with
        | _ : fle b a = true |- _ => fail
        | _ => pose proof (fle_false_flip a b Hf)
        end
    end.

Ltac float_order :=
  float_flip;
  first
    [ congruence
    | apply fle_antisym; solve [eauto 5 using fle_trans, fle_refl]
    | exfalso;
      match goal with
      | Hf : fle ?a ?b = false |- _ =>
          assert (fle a b = true) by (solve [eauto 5 using fle_trans, fle_refl]); congruence
      end ].

Section ScienceRounds.
Context `{PyFloat} `{!PyFloatOrder}.

Lemma merged_sci_idem prev_sci new_sci cap_final :
  merged_sci (Some (merged_sci prev_sci new_sci cap_final)) new_sci cap_final
  = merged_sci prev_sci new_sci cap_final.
Proof.
  unfold merged_sci. destruct prev_sci, new_sci, cap_final; cbn [from_option id];
    float_cases; float_order.
Qed.

Lemma merged_sci_comm prev_sci sci1 sci2 cap_final :
  merged_sci (Some (merged_sci prev_sci sci1 cap_final)) sci2 cap_final
  = merged_sci (Some (merged_sci prev_sci sci2 cap_final)) sci1 cap_final.
Proof.
  unfold merged_sci. destruct prev_sci, sci1, sci2, cap_final; cbn [from_option id];
    float_cases; float_order.
Qed.

Lemma merge_science_block_skip merged_map b :
  round_id b = None → merge_science_block merged_map b = merged_map.
Proof.
  unfold round_id, merge_science_block.
  destruct (p_sid (parse_block b)) as [sid|]; [|done].
  by destruct (Py.truthy (Some sid)).
Qed.

Lemma merge_science_block_other merged_map b sid k :
  round_id b = Some sid → k ≠ sid →
  merge_science_block merged_map b !! k = merged_map !! k.
Proof.
  unfold round_id, merge_science_block. intros Hid Hk.
  destruct (p_sid (parse_block b)) as [sid'|]; [|done].
  destruct (Py.truthy (Some sid')); [|done].
  injection Hid as ->. by rewrite lookup_insert_ne.
Qed.

Lemma merge_science_block_values merged_map b sid :
  round_id b = Some sid →
  let p := parse_block b in
  let prev_cap := merged_map !! sid ≫= cap in
  let cap_final := match p_cap p with Some c => Some c | None => prev_cap end in
  entry_values <$> merge_science_block merged_map b !! sid
  = Some (Some (merged_sci (merged_map !! sid ≫= sci) (p_sci p) cap_final), cap_final).
Proof.
  unfold round_id, merge_science_block. intros Hid.
  destruct (p_sid (parse_block b)) as [sid'|]; [|done].
  destruct (Py.truthy (Some sid')); [|done].
  injection Hid as ->. rewrite lookup_insert_eq.
  by destruct (merged_map !! sid).
Qed.

Lemma merge_science_block_twice merged_map b k :
  entry_values <$> merge_science_block (merge_science_block merged_map b) b !! k
  = entry_values <$> merge_science_block merged_map b !! k.
Proof.
  destruct (round_id b) as [sid|] eqn:Hid.
  - destruct (decide (k = sid)) as [->|Hk].
    + rewrite (merge_science_block_values _ b sid Hid). cbn zeta.
      pose proof (merge_science_block_values merged_map b sid Hid) as H1.
      cbn zeta in H1. rewrite H1.
      destruct (merge_science_block merged_map b !! sid) as [e1|]; [|done].
      unfold entry_values in H1. cbn [fmap option_fmap option_map] in H1.
      injection H1 as Hsci Hcap.
      cbn [mbind option_bind]. rewrite Hsci, Hcap.
      destruct (p_cap (parse_block b)); by rewrite merged_sci_idem.
    + by rewrite !(merge_science_block_other _ b sid k Hid Hk).
  - by rewrite !merge_science_block_skip.
Qed.

Lemma merge_science_block_swap merged_map b1 b2 k :
  p_cap (parse_block b1) = p_cap (parse_block b2) →
  entry_values <$> merge_science_block (merge_science_block merged_map b1) b2 !! k
  = entry_values <$> merge_science_block (merge_science_block merged_map b2) b1 !! k.
Proof.
  intros Hcap.
  destruct (round_id b1) as [sid1|] eqn:Hid1;
    [|by rewrite !(merge_science_block_skip _ b1)].
  destruct (round_id b2) as [sid2|] eqn:Hid2;
    [|by rewrite !(merge_science_block_skip _ b2)].
  destruct (decide (sid1 = sid2)) as [->|Hne].
  - destruct (decide (k = sid2)) as [->|Hk].
    + rewrite (merge_science_block_values _ b2 sid2 Hid2),
              (merge_science_block_values _ b1 sid2 Hid1). cbn zeta.
      pose proof (merge_science_block_values merged_map b1 sid2 Hid1) as H1.
      pose proof (merge_science_block_values merged_map b2 sid2 Hid2) as H2.
      cbn zeta in H1, H2.
      destruct (merge_science_block merged_map b1 !! sid2) as [e1|]; [|done].
      destruct (merge_science_block merged_map b2 !! sid2) as [e2|]; [|done].
      unfold entry_values in H1, H2. cbn [fmap option_fmap option_map] in H1, H2.
      injection H1 as Hsci1 Hcap1. injection H2 as Hsci2 Hcap2.
      cbn [mbind option_bind]. rewrite Hsci1, Hcap1, Hsci2, Hcap2, Hcap.
      destruct (p_cap (parse_block b2)); by rewrite merged_sci_comm.
    + by repeat first [ rewrite (merge_science_block_other _ b2 sid2 k Hid2 Hk)
                      | rewrite (merge_science_block_other _ b1 sid2 k Hid1 Hk) ].
  - destruct (decide (k = sid1)) as [->|Hk1].
    + rewrite (merge_science_block_other _ b2 sid2 sid1 Hid2 Hne).
      rewrite !(merge_science_block_values _ b1 sid1 Hid1). cbn zeta.
      by rewrite (merge_science_block_other _ b2 sid2 sid1 Hid2 Hne).
    + rewrite (merge_science_block_other _ b1 sid1 k Hid1 Hk1).
      destruct (decide (k = sid2)) as [->|Hk2].
      * rewrite !(merge_science_block_values _ b2 sid2 Hid2). cbn zeta.
        by rewrite (merge_science_block_other _ b1 sid1 sid2 Hid1 Hk1).
      * by rewrite !(merge_science_block_other _ b2 sid2 k Hid2 Hk2),
                   (merge_science_block_other _ b1 sid1 k Hid1 Hk1).
Qed.

End ScienceRounds.

(** *** The order of the output *)

Lemma StronglySorted_strict {A} (R : relation A) (l : list A) :
  StronglySorted R l → NoDup l → StronglySorted (λ x y, R x y ∧ x ≠ y) l.
Proof.
  induction 1 as [|x l Hl IH Hx]; intros Hnd; [constructor|].
  apply NoDup_cons in Hnd as [Hnotin Hnd].
  constructor; [by apply IH|].
  apply Forall_forall. intros y Hy. split.
  - by eapply Forall_forall in Hx.
  - intros ->. done.
Qed.

Section ScienceOrder.
Context `{PyFloat}.

Lemma sorted_keys_elem_of (merged_map : gmap string entry) (k : string) :
  k ∈ sorted_keys merged_map ↔ is_Some (merged_map !! k).
Proof.
  unfold sorted_keys. rewrite merge_sort_Permutation, list_elem_of_fmap. split.
  - intros ([k' e] & -> & Hin). apply elem_of_map_to_list in Hin. by exists e.
  - intros [e He]. exists (k, e). split; [done|]. by apply elem_of_map_to_list.
Qed.

Lemma sorted_keys_ascending (merged_map : gmap string entry) :
  StronglySorted (λ k1 k2, String.le k1 k2 ∧ k1 ≠ k2) (sorted_keys merged_map).
Proof.
  apply StronglySorted_strict.
  - apply StronglySorted_merge_sort; apply _.
  - unfold sorted_keys. rewrite merge_sort_Permutation. apply NoDup_fst_map_to_list.
Qed.

End ScienceOrder.

(** C5 as the code has it.  What a ScienceArchives upload stores is
    the text of the merged blocks in strictly ascending id order, one
    block per id.  On the values a round keeps for an id, sci and cap,
    a round over the same block a second time changes nothing, and two
    rounds over blocks that carry the same cap, or both none, leave the
    same values in either order.  (Nothing is said of the stored text
    under a repeated upload or a change of arrival order.) *)
Theorem science_archives_order_and_rounds `{PyFloat} `{!PyFloatOrder}
    (fs : store) (save : string) (u : option string) (data : string)
    (merged_map : gmap string entry) (b b1 b2 k : string) :
  let path := scenario_file (safe_path_seg save) "ScienceArchives.txt" in
  let merged := merge_science (read_text fs path) (Py.strip data) in
  (upload_scenario fs save "ScienceArchives" u data).2 !! path
    = Some (Py.join Py.NL (omap (λ i, raw <$> merged !! i) (sorted_keys merged)) +:+ Py.NL)
  ∧ StronglySorted (λ k1 k2, String.le k1 k2 ∧ k1 ≠ k2) (sorted_keys merged)
  ∧ (∀ i, i ∈ sorted_keys merged ↔ is_Some (merged !! i))
  ∧ entry_values <$> merge_science_block (merge_science_block merged_map b) b !! k
    = entry_values <$> merge_science_block merged_map b !! k
  ∧ (p_cap (parse_block b1) = p_cap (parse_block b2) →
     entry_values <$> merge_science_block (merge_science_block merged_map b1) b2 !! k
     = entry_values <$> merge_science_block (merge_science_block merged_map b2) b1 !! k).
Proof.
  intros path merged. split; [|split; [|split; [|split]]].
  - rewrite upload_scenario_ScienceArchives. unfold upload_ScienceArchives. simpl.
    by rewrite lookup_insert_eq.
  - apply sorted_keys_ascending.
  - apply sorted_keys_elem_of.
  - apply merge_science_block_twice.
  - apply merge_science_block_swap.
Qed.

(** The rounds of C5 at the blocks (A, sci 60) and (A, sci 70), which
    carry no cap: 70 in either order. *)
Lemma science_archives_order_and_rounds_witness :
  p_cap (parse_block (H := Dec.dec_float) Sample.sci_A_60)
    = p_cap (parse_block (H := Dec.dec_float) Sample.sci_A_70)
  ∧ entry_values (H := Dec.dec_float) <$>
      merge_science_block (merge_science_block (H := Dec.dec_float) ∅ Sample.sci_A_60)
        Sample.sci_A_70 !! "A"
    = entry_values (H := Dec.dec_float) <$>
      merge_science_block (merge_science_block (H := Dec.dec_float) ∅ Sample.sci_A_70)
        Sample.sci_A_60 !! "A".
Proof.
  split; [reflexivity|].
  exact (proj2 (proj2 (proj2 (proj2
    (science_archives_order_and_rounds (H := Dec.dec_float) ∅ "s" None ""
       ∅ Sample.sci_A_60 Sample.sci_A_60 Sample.sci_A_70 "A")))) eq_refl).
Defined.

(** * Further properties *)

(** ** Path segments *)

Lemma all_chars_filter_chars p s : Py.all_chars p (Py.filter_chars p s) = true.
Proof.
  induction s as [|c s IH]; [done|]. simpl.
  destruct (p c) eqn:Hc; [|done]. simpl. by rewrite Hc.
Qed.

Lemma filter_chars_all_chars p s : Py.all_chars p s = true → Py.filter_chars p s = s.
Proof.
  induction s as [|c s IH]; [done|]. simpl.
  intros [Hc Hs]%andb_true_iff. by rewrite Hc, IH.
Qed.

Lemma all_chars_not_contains p s c :
  Py.all_chars p s = true → p c = false → Py.contains s (String c "") = false.
Proof.
  intros Hs Hc. induction s as [|a s IH]; [done|]. simpl in *.
  apply andb_true_iff in Hs as [Ha Hs].
  rewrite bool_decide_eq_false_2 by (intros ->; congruence). by apply IH.
Qed.

Lemma safe_path_seg_filter name :
  safe_path_seg name
  = Py.filter_chars path_char (match name with "" => "default" | _ => name end).
Proof. reflexivity. Qed.

Lemma safe_path_seg_path_chars name : Py.all_chars path_char (safe_path_seg name) = true.
Proof. rewrite safe_path_seg_filter. apply all_chars_filter_chars. Qed.

(** X1.  Whatever the name, its path segment holds only letters,
    digits, underscores, hyphens and dots; it never holds a slash or a
    backslash. *)
Theorem safe_path_seg_chars (name : string) :
  Py.all_chars path_char (safe_path_seg name) = true
  ∧ Py.contains (safe_path_seg name) "/" = false
  ∧ Py.contains (safe_path_seg name) "\" = false.
Proof.
  pose proof (safe_path_seg_path_chars name) as Hall.
  split; [done|]. split; by eapply all_chars_not_contains.
Qed.

(** X2.  A segment that is not empty is its own segment: sanitizing
    twice changes nothing more.  (An empty segment, from a name
    without any kept character, would become [default].) *)
Theorem safe_path_seg_idempotent (name : string) :
  safe_path_seg name ≠ "" → safe_path_seg (safe_path_seg name) = safe_path_seg name.
Proof.
  intros Hne. rewrite (safe_path_seg_filter (safe_path_seg name)).
  destruct (safe_path_seg name) as [|c s] eqn:Hs; [done|]. rewrite <- Hs.
  apply filter_chars_all_chars, safe_path_seg_path_chars.
Qed.

Lemma safe_path_seg_idempotent_witness :
  safe_path_seg "my save/1" ≠ ""
  ∧ safe_path_seg (safe_path_seg "my save/1") = "mysave1".
Proof.
  split; [discriminate|].
  exact (safe_path_seg_idempotent "my save/1" ltac:(discriminate)).
Defined.

(** ** What an upload writes *)

Lemma all_chars_impl (p q : ascii → bool) s :
  (∀ c, p c = true → q c = true) → Py.all_chars p s = true → Py.all_chars q s = true.
Proof.
  intros Hpq. induction s as [|c s IH]; [done|]. simpl.
  intros [Hc Hs]%andb_true_iff. by rewrite (Hpq c Hc), IH.
Qed.


Section UploadFrame.
Context `{PyFloat}.

Lemma upload_TechTree_writes (fs : store) save_safe path new_data p :
  p ≠ path → p ≠ scenario_file save_safe "SciencePoints.txt" →
  (upload_TechTree fs save_safe path new_data).2 !! p = fs !! p.
Proof.
  intros Hp Hpts. unfold upload_TechTree. simpl.
  destruct (read_text fs path) as [existing|].
  - destruct (merge_tech existing new_data) as [merged cost'].
    rewrite deduct_points_writes_one_file by done. by rewrite lookup_insert_ne.
  - by rewrite lookup_insert_ne.
Qed.

Lemma upload_SCANcontroller_writes (fs : store) save_safe u new_data p :
  (∀ user, p ≠ user_file save_safe user) →
  (upload_SCANcontroller fs save_safe u new_data).2 !! p = fs !! p.
Proof.
  intros Hp. unfold upload_SCANcontroller.
  destruct (_resolve_user_from_request u) as [user|]; [|done].
  destruct (Py.truthy (Some user)); [|done].
  case_bool_decide; [done|]. simpl. rewrite lookup_insert_ne; [done|].
  intros E. by apply (Hp user).
Qed.

End UploadFrame.

(** X3.  An upload writes at most three kinds of file of its save: the
    module's own file, SciencePoints.txt, and a file under
    SCANcontroller_users; every other path of the store holds after
    the upload what it held before. *)
Theorem upload_scenario_frame `{PyFloat}
    (fs : store) (save module : string) (u : option string) (data p : string) :
  p ≠ scenario_file (safe_path_seg save) (safe_path_seg module +:+ ".txt") →
  p ≠ scenario_file (safe_path_seg save) "SciencePoints.txt" →
  (∀ user, p ≠ user_file (safe_path_seg save) user) →
  (upload_scenario fs save module u data).2 !! p = fs !! p.
Proof.
  intros Hmod Hpts Huser. unfold upload_scenario.
  repeat case_bool_decide.
  - by apply upload_SciencePoints_writes_one_file.
  - by apply upload_TechTree_writes.
  - unfold upload_ScienceArchives. simpl. by rewrite lookup_insert_ne.
  - by apply upload_SCANcontroller_writes.
  - done.
Qed.

Lemma upload_scenario_frame_witness :
  "s/TechTree.txt" ≠ scenario_file (safe_path_seg "s") (safe_path_seg "ScienceArchives" +:+ ".txt")
  ∧ "s/TechTree.txt" ≠ scenario_file (safe_path_seg "s") "SciencePoints.txt"
  ∧ (∀ user, "s/TechTree.txt" ≠ user_file (safe_path_seg "s") user)
  ∧ (upload_scenario (H := Dec.dec_float) Sample.tech_store "s" "ScienceArchives" None
       Sample.sci_A_60).2 !! "s/TechTree.txt"
    = Sample.tech_store !! "s/TechTree.txt".
Proof.
  assert (∀ user, "s/TechTree.txt" ≠ user_file (safe_path_seg "s") user) as Hu
    by (intros user; discriminate).
  split; [discriminate|]. split; [discriminate|]. split; [exact Hu|].
  exact (upload_scenario_frame (H := Dec.dec_float) Sample.tech_store "s" "ScienceArchives"
           None Sample.sci_A_60 "s/TechTree.txt" ltac:(discriminate) ltac:(discriminate) Hu).
Defined.



(** X5.  A module that is none of SciencePoints, TechTree,
    ScienceArchives and SCANcontroller is answered OK and nothing is
    stored: when no file of that name existed, the download that
    follows is answered [Scenario not found], 404. *)
Theorem upload_other_module_dropped `{PyFloat}
    (fs : store) (save module : string) (u u' : option string) (data : string) :
  safe_path_seg module ∉ ["SciencePoints"; "TechTree"; "ScienceArchives"; "SCANcontroller"] →
  upload_scenario fs save module u data = (("OK", 200), fs)
  ∧ (fs !! scenario_file (safe_path_seg save) (safe_path_seg module +:+ ".txt") = None →
     download_scenario (upload_scenario fs save module u data).2 save module u'
     = ("Scenario not found", 404)).
Proof.
  intros Hmod.
  assert (safe_path_seg module ≠ "SciencePoints") as H1
    by (intros E; apply Hmod; rewrite E; by left).
  assert (safe_path_seg module ≠ "TechTree") as H2
    by (intros E; apply Hmod; rewrite E; by right; left).
  assert (safe_path_seg module ≠ "ScienceArchives") as H3
    by (intros E; apply Hmod; rewrite E; by right; right; left).
  assert (safe_path_seg module ≠ "SCANcontroller") as H4
    by (intros E; apply Hmod; rewrite E; by right; right; right; left).
  assert (upload_scenario fs save module u data = (("OK", 200), fs)) as Hup.
  { unfold upload_scenario. by rewrite !bool_decide_eq_false_2 by done. }
  split; [done|]. intros Hnone. rewrite Hup. simpl.
  unfold download_scenario. rewrite !bool_decide_eq_false_2 by done.
  unfold read_text. by rewrite Hnone.
Qed.

Lemma upload_other_module_dropped_witness :
  (safe_path_seg "Funding" ∉ ["SciencePoints"; "TechTree"; "ScienceArchives"; "SCANcontroller"])
  ∧ upload_scenario (H := Dec.dec_float) ∅ "s" "Funding" None "funds = 5"
    = (("OK", 200), ∅).
Proof.
  assert (safe_path_seg "Funding"
          ∉ ["SciencePoints"; "TechTree"; "ScienceArchives"; "SCANcontroller"]) as Hm.
  { intros Hin. repeat (apply elem_of_cons in Hin as [Hin|Hin]; [discriminate Hin|]).
    by apply elem_of_nil in Hin. }
  split; [exact Hm|].
  exact (proj1 (upload_other_module_dropped (H := Dec.dec_float) ∅ "s" "Funding" None None
                  "funds = 5" Hm)).
Defined.

(** ** The vote table *)

Section VoteInvariant.
Context `{PyFloat}.

Lemma votes_ok_insert (VOTES : vote_table) k v :
  votes_ok VOTES → session_ok v → votes_ok (<[k := v]> VOTES).
Proof.
  intros Hok Hv k' v' Hl. destruct (decide (k = k')) as [->|Hne].
  - rewrite lookup_insert_eq in Hl. by injection Hl as <-.
  - rewrite lookup_insert_ne in Hl by done. by eapply Hok.
Qed.

Lemma vote_start_ok (VOTES : vote_table) save tech d online now :
  votes_ok VOTES → votes_ok (vote_start VOTES save tech d online now).2.
Proof.
  intros Hok. unfold vote_start. simpl. apply votes_ok_insert; [done|].
  unfold session_ok. simpl. rewrite map_size_empty.
  case_bool_decide; (split; [lia|]); (split; [intros _; split; [done|lia] | done]).
Qed.

Lemma vote_cast_ok (VOTES : vote_table) save tech d :
  votes_ok VOTES → votes_ok (vote_cast VOTES save tech d).2.
Proof.
  intros Hok. unfold vote_cast.
  destruct (VOTES !! _key save tech) as [v|] eqn:Hv; [|done].
  destruct (closed v) eqn:Hc; [done|]. simpl.
  destruct (Hok _ _ Hv) as (Hq & Hopen & _).
  apply votes_ok_insert; [done|].
  rewrite count_votes_total. case_bool_decide as Hn; unfold session_ok; simpl.
  - split; [done|]. split; [done|]. intros _. by eexists.
  - split; [done|]. split; [|done]. intros _.
    split; [by apply Hopen | lia].
Qed.

Lemma vote_cancel_ok (VOTES : vote_table) save tech d :
  votes_ok VOTES → votes_ok (vote_cancel VOTES save tech d).2.
Proof.
  intros Hok. unfold vote_cancel.
  destruct (VOTES !! _key save tech) as [v|] eqn:Hv; [|done]. simpl.
  case_bool_decide; [|done].
  destruct (Hok _ _ Hv) as (Hq & _ & _).
  apply votes_ok_insert; [done|]. unfold session_ok. simpl.
  split; [done|]. split; [done|]. intros _. by eexists.
Qed.

Lemma run_votes_ok (ops : list vote_op) : votes_ok (run_votes ops).
Proof.
  unfold run_votes.
  assert (∀ VOTES, votes_ok VOTES → votes_ok (foldl run_vote_op VOTES ops)) as Hfold.
  { induction ops as [|op ops IH]; intros VOTES Hok; [done|]. simpl. apply IH.
    destruct op; simpl; [by apply vote_start_ok | by apply vote_cast_ok
                        | by apply vote_cancel_ok]. }
  apply Hfold. intros k v Hl. by rewrite lookup_empty in Hl.
Qed.

End VoteInvariant.

(** X6.  Whatever requests a fresh server has served, every session of
    the table has quorum 1 or 2; an open session has no decision and
    fewer ballots than its quorum (so at most one); a closed session
    has a decision. *)
Theorem vote_sessions_consistent `{PyFloat}
    (ops : list vote_op) (k : string * string) (v : session) :
  run_votes ops !! k = Some v →
  (quorum v = 1 ∨ quorum v = 2)%Z
  ∧ (closed v = false → approved v = None ∧ size (votes v) ≤ 1)
  ∧ (closed v = true → is_Some (approved v)).
Proof.
  intros Hv. destruct (run_votes_ok ops k v Hv) as (Hq & Hopen & Hclosed).
  split; [done|]. split; [|done].
  intros Hc. destruct (Hopen Hc) as [Ha Hs]. split; [done|]. lia.
Qed.

Lemma vote_sessions_consistent_witness :
  run_votes SampleRun.one_yes !! ("s", "T2")
  = Some (Session (H := Dec.dec_float) "T2" "alice" 0%Z {["alice" := true]} 0%Z false None 2%Z)
  ∧ size ({["alice" := true]} : gmap string bool) ≤ 1.
Proof.
  split; [reflexivity|].
  exact (proj2 (proj1 (proj2
    (vote_sessions_consistent (H := Dec.dec_float) SampleRun.one_yes
       ("s", "T2") _ eq_refl)) eq_refl)).
Defined.

(** X7.  What [vote_status] reports after any requests: the session is
    decided exactly when [approved] is not null, and an undecided
    session shows at most one ballot in its two tallies. *)
Theorem vote_status_consistent `{PyFloat} (ops : list vote_op) (save tech : string) :
  match (vote_status (run_votes ops) save tech).1 with
  | NoSession => run_votes ops !! _key save tech = None
  | Status _ _ yes no decided approved =>
      (decided = true ↔ is_Some approved) ∧ (decided = false → yes + no ≤ 1)
  end.
Proof.
  unfold vote_status.
  destruct (run_votes ops !! _key save tech) as [v|] eqn:Hv; [|done]. simpl.
  destruct (run_votes_ok ops _ v Hv) as (Hq & Hopen & Hclosed).
  rewrite count_votes_total. split.
  - split; [done|]. intros Ha. destruct (closed v) eqn:Hc; [done|].
    destruct (Hopen eq_refl) as [Hnone _]. rewrite Hnone in Ha. by destruct Ha.
  - intros Hc. destruct (Hopen Hc) as [_ Hs]. lia.
Qed.

(** X8.  Neither a cast nor a cancel, for whatever key and user,
    reopens a closed session or touches its ballots: only a start
    replaces it. *)
Theorem vote_closed_stays_closed `{PyFloat}
    (VOTES : vote_table) (k : string * string) (v : session)
    (save tech : string) (d : vote_request) :
  VOTES !! k = Some v → closed v = true →
  (vote_cast VOTES save tech d).2 !! k = Some v
  ∧ ∃ v', (vote_cancel VOTES save tech d).2 !! k = Some v'
          ∧ closed v' = true ∧ votes v' = votes v ∧ quorum v' = quorum v
          ∧ requester v' = requester v.
Proof.
  intros Hv Hc. split.
  - unfold vote_cast. destruct (decide (_key save tech = k)) as [->|Hne].
    + by rewrite Hv, Hc.
    + destruct (VOTES !! _key save tech) as [w|]; [|done].
      destruct (closed w); [done|]. simpl. by rewrite lookup_insert_ne.
  - unfold vote_cancel. destruct (decide (_key save tech = k)) as [->|Hne].
    + rewrite Hv. simpl. case_bool_decide.
      * eexists. rewrite lookup_insert_eq. by split.
      * by exists v.
    + exists v. destruct (VOTES !! _key save tech) as [w|]; [|by split]. simpl.
      case_bool_decide; [|by split]. by rewrite lookup_insert_ne.
Qed.

Lemma vote_closed_stays_closed_witness :
  (vote_cast (H := Dec.dec_float) SampleVote.one_yes "s" "T2" SampleVote.bob_no).2
     !! ("s", "T2")
  = Some (Session (H := Dec.dec_float) "T2" "alice" 0%Z (<["bob" := false]> {["alice" := true]}) 0%Z
                  true (Some false) 2%Z)
  ∧ (vote_cast (H := Dec.dec_float)
       (vote_cast (H := Dec.dec_float) SampleVote.one_yes "s" "T2" SampleVote.bob_no).2
       "s" "T2" SampleVote.alice_yes).2 !! ("s", "T2")
    = Some (Session (H := Dec.dec_float) "T2" "alice" 0%Z (<["bob" := false]> {["alice" := true]}) 0%Z
                    true (Some false) 2%Z).
Proof.
  split; [reflexivity|].
  exact (proj1 (vote_closed_stays_closed (H := Dec.dec_float)
    (vote_cast (H := Dec.dec_float) SampleVote.one_yes "s" "T2" SampleVote.bob_no).2
    ("s", "T2") _ "s" "T2" SampleVote.alice_yes eq_refl eq_refl)).
Defined.

(** X9.  A user who has a ballot in an open session and casts again
    replaces that ballot and adds none: the session stays open, so one
    user alone never reaches a quorum of two. *)
Theorem vote_cast_again_stays_open `{PyFloat}
    (ops : list vote_op) (save tech : string) (d : vote_request) (v : session) :
  run_votes ops !! _key save tech = Some v → closed v = false →
  is_Some (votes v !! request_user d) →
  ∃ v', (vote_cast (run_votes ops) save tech d).2 !! _key save tech = Some v'
        ∧ votes v' = <[request_user d := ballot (d_vote d)]> (votes v)
        ∧ size (votes v') = size (votes v)
        ∧ closed v' = false ∧ approved v' = None.
Proof.
  intros Hv Hc [b Hb].
  destruct (run_votes_ok ops _ v Hv) as (_ & Hopen & _).
  destruct (Hopen Hc) as [Hnone Hsize].
  unfold vote_cast. rewrite Hv, Hc. simpl. rewrite lookup_insert_eq.
  rewrite count_votes_total.
  rewrite map_size_insert_Some by (by exists b).
  rewrite bool_decide_eq_false_2 by lia.
  eexists. split; [done|]. simpl.
  by rewrite map_size_insert_Some by (by exists b).
Qed.

Lemma vote_cast_again_stays_open_witness :
  ∃ v', (vote_cast (H := Dec.dec_float) SampleVote.one_yes "s" "T2" SampleVote.alice_yes).2
          !! ("s", "T2") = Some v'
        ∧ size (votes v') = 1 ∧ closed v' = false.
Proof.
  destruct (vote_cast_again_stays_open (H := Dec.dec_float)
              SampleRun.one_yes "s" "T2" SampleVote.alice_yes
              _ eq_refl eq_refl (ex_intro _ true eq_refl))
    as (v' & Hl & _ & Hs & Hc & _).
  exists v'. split; [exact Hl|]. split; [exact Hs | exact Hc].
Defined.

(** ** ScienceArchives: what a merge keeps *)

Section ArchiveKeeps.
Context `{PyFloat}.

Lemma merge_science_loaded existing new_data :
  merge_science existing new_data
  = foldl merge_science_block (loaded_map existing) (extract_science_blocks new_data).
Proof. by destruct existing. Qed.

Lemma merge_science_block_is_Some merged_map b k :
  is_Some (merged_map !! k) → is_Some (merge_science_block merged_map b !! k).
Proof.
  intros Hk. destruct (round_id b) as [sid|] eqn:Hid.
  - destruct (decide (k = sid)) as [->|Hne].
    + unfold round_id in Hid. unfold merge_science_block.
      destruct (p_sid (parse_block b)) as [sid'|]; [|done].
      destruct (Py.truthy (Some sid')); [|done]. injection Hid as ->.
      rewrite lookup_insert_eq. by eexists.
    + by rewrite (merge_science_block_other _ b sid k).
  - by rewrite merge_science_block_skip.
Qed.

Lemma merge_science_block_new merged_map b sid :
  round_id b = Some sid → is_Some (merge_science_block merged_map b !! sid).
Proof.
  intros Hid. unfold round_id in Hid. unfold merge_science_block.
  destruct (p_sid (parse_block b)) as [sid'|]; [|done].
  destruct (Py.truthy (Some sid')); [|done]. injection Hid as ->.
  rewrite lookup_insert_eq. by eexists.
Qed.

Lemma merge_rounds_is_Some blocks merged_map k :
  is_Some (merged_map !! k) → is_Some (foldl merge_science_block merged_map blocks !! k).
Proof.
  revert merged_map. induction blocks as [|b blocks IH]; intros m Hk; [done|].
  simpl. by apply IH, merge_science_block_is_Some.
Qed.

Lemma merge_rounds_untouched blocks merged_map k :
  (∀ b, b ∈ blocks → round_id b ≠ Some k) →
  foldl merge_science_block merged_map blocks !! k = merged_map !! k.
Proof.
  revert merged_map. induction blocks as [|b blocks IH]; intros m Hb; [done|].
  simpl. rewrite IH by (intros b' Hb'; apply Hb; by right).
  destruct (round_id b) as [sid|] eqn:Hid.
  - apply (merge_science_block_other _ b sid k Hid). intros ->.
    by apply (Hb b); [left|].
  - by rewrite merge_science_block_skip.
Qed.

Lemma merge_rounds_new blocks merged_map b sid :
  b ∈ blocks → round_id b = Some sid →
  is_Some (foldl merge_science_block merged_map blocks !! sid).
Proof.
  revert merged_map. induction blocks as [|b' blocks IH]; intros m Hin Hid.
  - by apply elem_of_nil in Hin.
  - simpl. apply elem_of_cons in Hin as [->|Hin].
    + by apply merge_rounds_is_Some, merge_science_block_new.
    + by apply IH.
Qed.

End ArchiveKeeps.

(** X10.  A ScienceArchives merge never drops a subject: every id
    loaded from the stored file is in the merged map, every uploaded
    block with an id is in it under that id, and a subject that no
    uploaded block names keeps its entry, block text included, as
    loaded. *)
Theorem merge_science_keeps_subjects `{PyFloat}
    (existing : option string) (new_data : string) (k : string) :
  (is_Some (loaded_map existing !! k) → is_Some (merge_science existing new_data !! k))
  ∧ ((∃ b, b ∈ extract_science_blocks new_data ∧ round_id b = Some k) →
     is_Some (merge_science existing new_data !! k))
  ∧ ((∀ b, b ∈ extract_science_blocks new_data → round_id b ≠ Some k) →
     merge_science existing new_data !! k = loaded_map existing !! k).
Proof.
  rewrite merge_science_loaded. split; [|split].
  - apply merge_rounds_is_Some.
  - intros (b & Hb & Hid). by eapply merge_rounds_new.
  - apply merge_rounds_untouched.
Qed.

Lemma merge_science_keeps_subjects_witness :
  is_Some (loaded_map (H := Dec.dec_float)
             (read_text Sample.archive_store "s/ScienceArchives.txt") !! "A")
  ∧ is_Some (merge_science (H := Dec.dec_float)
               (read_text Sample.archive_store "s/ScienceArchives.txt")
               Sample.sci_A_60 !! "A").
Proof.
  assert (is_Some (loaded_map (H := Dec.dec_float)
             (read_text Sample.archive_store "s/ScienceArchives.txt") !! "A")) as Hl
    by (eexists; reflexivity).
  split; [exact Hl|].
  exact (proj1 (merge_science_keeps_subjects (H := Dec.dec_float)
                  (read_text Sample.archive_store "s/ScienceArchives.txt")
                  Sample.sci_A_60 "A") Hl).
Defined.

Section SciBounds.
Context `{PyFloat} `{!PyFloatOrder}.

Lemma merged_sci_capped prev_sci new_sci c :
  fle (merged_sci prev_sci new_sci (Some c)) c = true.
Proof.
  unfold merged_sci. destruct prev_sci, new_sci; cbn [from_option id];
    float_cases; float_flip; first [done | apply fle_refl].
Qed.

Lemma merged_sci_uncapped prev_sci new_sci :
  fle (default fzero prev_sci) (merged_sci prev_sci new_sci None) = true
  ∧ (∀ v, new_sci = Some v → fle v (merged_sci prev_sci new_sci None) = true).
Proof.
  unfold merged_sci. split.
  - destruct prev_sci, new_sci; cbn [from_option id];
      float_cases; float_flip; first [done | apply fle_refl].
  - intros v ->. destruct prev_sci; cbn [from_option id];
      float_cases; float_flip; first [done | apply fle_refl].
Qed.

End SciBounds.

(** X11.  After a merge round over a block with an id, the subject's
    sci is a number: with a cap in force (the block's, else the stored
    one) it is not above that cap; with none it is neither below the
    stored sci (0.0 when there is none) nor below the block's sci. *)
Theorem merge_round_sci_bounds `{PyFloat} `{!PyFloatOrder}
    (merged_map : gmap string entry) (b sid : string) :
  round_id b = Some sid →
  ∃ e x, merge_science_block merged_map b !! sid = Some e ∧ sci e = Some x
    ∧ (∀ c, cap e = Some c → fle x c = true)
    ∧ (cap e = None →
       fle (default fzero (merged_map !! sid ≫= sci)) x = true
       ∧ ∀ v, p_sci (parse_block b) = Some v → fle v x = true).
Proof.
  intros Hid.
  pose proof (merge_science_block_values merged_map b sid Hid) as Hv. cbn zeta in Hv.
  destruct (merge_science_block merged_map b !! sid) as [e|]; [|done].
  unfold entry_values in Hv. cbn [fmap option_fmap option_map] in Hv.
  injection Hv as Hsci Hcap.
  exists e. eexists. split; [done|]. split; [exact Hsci|]. rewrite Hcap. split.
  - intros c Hc. rewrite Hc. apply merged_sci_capped.
  - intros Hc. rewrite Hc. apply merged_sci_uncapped.
Qed.

Lemma merge_round_sci_bounds_witness :
  round_id (H := Dec.dec_float) Sample.sci_A_60 = Some "A"
  ∧ ∃ e x, merge_science_block (H := Dec.dec_float)
             (loaded_map (read_text Sample.archive_store "s/ScienceArchives.txt"))
             Sample.sci_A_60 !! "A" = Some e
           ∧ sci e = Some x
           ∧ (∀ c, cap e = Some c → fle x c = true).
Proof.
  split; [reflexivity|].
  destruct (merge_round_sci_bounds (H := Dec.dec_float)
              (loaded_map (read_text Sample.archive_store "s/ScienceArchives.txt"))
              Sample.sci_A_60 "A" eq_refl) as (e & x & He & Hx & Hcap & _).
  exists e, x. split; [exact He|]. split; [exact Hx | exact Hcap].
Defined.

(** ** SciencePoints: the stored value is a high-water mark *)

(** X12.  When the stored value parses to [old] and the upload to
    [new], and the text written for [new] reads back as [new], the
    value stored after the upload is [max(old, new)], which is not
    below [old]. *)
Theorem upload_SciencePoints_is_max `{PyFloat} `{!PyFloatOrder}
    (fs : store) (save : string) (u : option string) (data : string)
    (old_value new_value : float) :
  let path := scenario_file (safe_path_seg save) "SciencePoints.txt" in
  read_text fs path ≫= parse_points = Some old_value →
  parse_points (Py.strip data) = Some new_value →
  parse_points (Py.universal_newlines ("sci = " +:+ repr new_value +:+ Py.NL))
    = Some new_value →
  read_text (upload_scenario fs save "SciencePoints" u data).2 path ≫= parse_points
    = Some (pymax old_value new_value)
  ∧ fle old_value (pymax old_value new_value) = true.
Proof.
  intros path Hold Hnew Hback. split.
  - rewrite upload_scenario_SciencePoints. fold path. unfold upload_SciencePoints.
    rewrite Hnew. simpl.
    destruct (read_text fs path) as [old_text|] eqn:Hr; [|done]. simpl in Hold.
    rewrite Hold. unfold pymax. destruct (fgt new_value old_value).
    + unfold read_text. rewrite lookup_insert_eq. simpl. exact Hback.
    + rewrite Hr. simpl. exact Hold.
  - float_cases; float_flip; first [done | apply fle_refl].
Qed.

Lemma upload_SciencePoints_is_max_witness :
  read_text Sample.tech_store (scenario_file (safe_path_seg "s") "SciencePoints.txt")
    ≫= parse_points (H := Dec.dec_float) = Some 50000000%Z
  ∧ parse_points (H := Dec.dec_float) (Py.strip "sci = 60.5") = Some 60500000%Z
  ∧ read_text (upload_scenario (H := Dec.dec_float) Sample.tech_store "s" "SciencePoints"
                 None "sci = 60.5").2 "s/SciencePoints.txt"
      ≫= parse_points (H := Dec.dec_float) = Some 60500000%Z.
Proof.
  split; [reflexivity|]. split; [reflexivity|].
  exact (proj1 (upload_SciencePoints_is_max (H := Dec.dec_float) Sample.tech_store "s" None
                  "sci = 60.5" 50000000%Z 60500000%Z eq_refl eq_refl eq_refl)).
Defined.

(** ** TechTree: what a merge stores *)

(** X13.  Over an existing TechTree the file stored is the text of the
    existing blocks followed, in upload order, by the uploaded blocks
    that are appended; an uploaded block is appended exactly when it
    has an id, not empty, that is not among the ids of the stored
    file.  No existing block is dropped or rewritten. *)
Theorem techtree_merge_appends `{PyFloat}
    (fs : store) (save : string) (u : option string) (data existing_data : string) :
  let path := scenario_file (safe_path_seg save) "TechTree.txt" in
  read_text fs path = Some existing_data →
  (upload_scenario fs save "TechTree" u data).2 !! path
    = Some (Py.strip (Py.join Py.NL (extract_tech_blocks existing_data
                                     ++ newly_accepted existing_data (Py.strip data)))
            +:+ Py.NL)
  ∧ ∀ block, block ∈ extract_tech_blocks (Py.strip data) →
      (block ∈ newly_accepted existing_data (Py.strip data) ↔
       ∃ i, block_id block = Some i ∧ i ≠ ""
            ∧ i ∉ (extract_tech_ids_and_costs existing_data).1).
Proof.
  intros path Hex. split; [|intros block; apply merge_tech_accepts].
  rewrite upload_scenario_TechTree. fold path. unfold upload_TechTree. rewrite Hex.
  pose proof (merge_tech_blocks existing_data (Py.strip data)) as Hb.
  destruct (merge_tech existing_data (Py.strip data)) as [merged cost']. simpl in Hb.
  subst merged. simpl.
  rewrite deduct_points_writes_one_file
    by (symmetry; apply points_path_not_techtree).
  by rewrite lookup_insert_eq.
Qed.

Lemma techtree_merge_appends_witness :
  read_text Sample.tech_store (scenario_file (safe_path_seg "s") "TechTree.txt")
    = Some (Sample.tech_T1 +:+ Py.NL)
  ∧ (upload_scenario (H := Dec.dec_float) Sample.tech_store "s" "TechTree" None
       Sample.tech_T2).2 !! "s/TechTree.txt"
    = Some (Sample.text [Sample.tech_T1; Sample.tech_T2; ""]).
Proof.
  split; [reflexivity|].
  exact (proj1 (techtree_merge_appends (H := Dec.dec_float) Sample.tech_store "s" None
                  Sample.tech_T2 (Sample.tech_T1 +:+ Py.NL) eq_refl)).
Defined.

(** X14.  The first TechTree upload of a save is stored as sent
    (stripped, with a final line feed) and changes no other file: no
    cost is deducted from SciencePoints, whatever the upload unlocks.
    The download that follows returns that text. *)
Theorem techtree_first_upload `{PyFloat}
    (fs : store) (save : string) (u u' : option string) (data : string) :
  let path := scenario_file (safe_path_seg save) "TechTree.txt" in
  fs !! path = None →
  upload_scenario fs save "TechTree" u data
    = (("OK", 200), <[path := Py.strip (Py.strip data) +:+ Py.NL]> fs)
  ∧ download_scenario (upload_scenario fs save "TechTree" u data).2 save "TechTree" u'
    = (Py.universal_newlines (Py.strip (Py.strip data) +:+ Py.NL), 200).
Proof.
  intros path Hnone.
  assert (upload_scenario fs save "TechTree" u data
          = (("OK", 200), <[path := Py.strip (Py.strip data) +:+ Py.NL]> fs)) as Hup.
  { rewrite upload_scenario_TechTree. fold path. unfold upload_TechTree, read_text.
    by rewrite Hnone. }
  split; [done|]. rewrite Hup. simpl.
  change (download_scenario ?s save "TechTree" u') with
    (match read_text s path with
     | Some body => (body, 200)
     | None => ("Scenario not found", 404)
     end).
  unfold read_text. by rewrite lookup_insert_eq.
Qed.

Lemma techtree_first_upload_witness :
  (<["s/SciencePoints.txt" := "sci = 50"]> ∅ : store)
    !! scenario_file (safe_path_seg "s") "TechTree.txt" = None
  ∧ upload_scenario (H := Dec.dec_float) (<["s/SciencePoints.txt" := "sci = 50"]> ∅)
      "s" "TechTree" None Sample.tech_T2
    = (("OK", 200),
       <["s/TechTree.txt" := Sample.tech_T2 +:+ Py.NL]>
         (<["s/SciencePoints.txt" := "sci = 50"]> ∅)).
Proof.
  split; [reflexivity|].
  exact (proj1 (techtree_first_upload (H := Dec.dec_float)
                  (<["s/SciencePoints.txt" := "sci = 50"]> ∅) "s" None None
                  Sample.tech_T2 eq_refl)).
Defined.

(** ** Lines *)

Lemma splitlines_app_nl x r :
  one_line x = true → Py.splitlines (x +:+ Py.NL +:+ r) = x :: Py.splitlines r.
Proof.
  induction x as [|c x IH]; intros Hx.
  - rewrite string_app_nil. unfold Py.NL. rewrite string_app_cons, string_app_nil.
    by destruct r.
  - simpl in Hx. apply andb_true_iff in Hx as [Hc Hx].
    rewrite string_app_cons. cbn [Py.splitlines].
    apply negb_true_iff in Hc. by rewrite Hc, IH.
Qed.

Lemma splitlines_one_line x :
  one_line x = true → x ≠ "" → Py.splitlines x = [x].
Proof.
  induction x as [|c x IH]; intros Hx Hne; [done|].
  simpl in Hx. apply andb_true_iff in Hx as [Hc Hx].
  cbn [Py.splitlines]. apply negb_true_iff in Hc. rewrite Hc.
  destruct x as [|d x]; [done|]. by rewrite IH.
Qed.

Lemma splitlines_lines_bounded n s :
  String.length s ≤ n → Forall (λ l, one_line l = true) (Py.splitlines s).
Proof.
  revert s. induction n as [|n IH]; intros s Hn.
  - destruct s; [constructor | simpl in Hn; lia].
  - destruct s as [|c s]; [constructor|]. simpl in Hn. cbn [Py.splitlines].
    destruct (Py.is_linebreak c) eqn:Hc.
    + constructor; [done|]. destruct s as [|c' s]; [constructor|].
      destruct (bool_decide (c = Py.CR) && bool_decide (c' = Py.LF));
        apply IH; simpl in *; lia.
    + pose proof (IH s ltac:(lia)) as Hs.
      destruct (Py.splitlines s) as [|l ls]; constructor.
      * unfold one_line. cbn [Py.all_chars]. by rewrite Hc.
      * constructor.
      * apply Forall_cons in Hs as [Hl _]. unfold one_line in *.
        cbn [Py.all_chars]. by rewrite Hc, Hl.
      * by apply Forall_cons in Hs as [_ Hls].
Qed.

Lemma splitlines_lines s : Forall (λ l, one_line l = true) (Py.splitlines s).
Proof. by apply (splitlines_lines_bounded (String.length s)). Qed.

Lemma join_cons2 sep x y l :
  Py.join sep (x :: y :: l) = x +:+ sep +:+ Py.join sep (y :: l).
Proof. reflexivity. Qed.

(** Joining lines and splitting again gives the lines back, but for an
    empty last line. *)
Lemma splitlines_join l :
  Forall (λ x, one_line x = true) l →
  Py.splitlines (Py.join Py.NL l)
  = if bool_decide (last l = Some "") then removelast l else l.
Proof.
  induction l as [|x [|y l] IH]; intros Hl.
  - done.
  - apply Forall_cons in Hl as [Hx _]. clear IH. simpl.
    case_bool_decide as Hlast.
    + by injection Hlast as ->.
    + apply splitlines_one_line; [done|]. intros ->. by apply Hlast.
  - apply Forall_cons in Hl as [Hx Hl].
    rewrite join_cons2, splitlines_app_nl, IH by done.
    change (last (x :: y :: l)) with (last (y :: l)).
    by case_bool_decide.
Qed.

Lemma removelast_last {A} (l : list A) x : last l = Some x → l = removelast l ++ [x].
Proof.
  induction l as [|a [|b l] IH]; [done| |].
  - by intros [= ->].
  - intros Hl. change (last (a :: b :: l)) with (last (b :: l)) in Hl.
    change (removelast (a :: b :: l)) with (a :: removelast (b :: l)).
    simpl. f_equal. by apply IH.
Qed.

(** A loop over the lines that an empty line does not affect sees the
    same after a join. *)
Lemma foldl_splitlines_join {S} (f : S → string → S) st l :
  (∀ st', f st' "" = st') → Forall (λ x, one_line x = true) l →
  foldl f st (Py.splitlines (Py.join Py.NL l)) = foldl f st l.
Proof.
  intros Hf Hl. rewrite splitlines_join by done. case_bool_decide as Hlast; [|done].
  transitivity (foldl f st (removelast l ++ [""])).
  - rewrite foldl_app. simpl. by rewrite Hf.
  - by rewrite <- removelast_last.
Qed.

Lemma head_filter_splitlines_join (P : string → bool) l :
  P "" = false → Forall (λ x, one_line x = true) l →
  head (filter (λ x, P x = true) (Py.splitlines (Py.join Py.NL l)))
  = head (filter (λ x, P x = true) l).
Proof.
  intros HP Hl. rewrite splitlines_join by done. case_bool_decide as Hlast; [|done].
  transitivity (head (filter (λ x, P x = true) (removelast l ++ [""]))).
  - rewrite filter_app, filter_cons_False, filter_nil, app_nil_r by congruence. done.
  - by rewrite <- removelast_last.
Qed.

(** ** White space *)

Lemma lstrip_spaces w s :
  Py.all_chars Py.is_space w = true → Py.lstrip (w +:+ s) = Py.lstrip s.
Proof.
  induction w as [|c w IH]; [done|]. cbn [Py.all_chars].
  intros [Hc Hw]%andb_true_iff. rewrite string_app_cons. cbn [Py.lstrip].
  by rewrite Hc, IH.
Qed.

Lemma indent_of_cons c s :
  indent_of (String c s) = if Py.is_space c then String c (indent_of s) else "".
Proof.
  assert (∀ t, String.length (Py.lstrip t) ≤ String.length t) as Hle.
  { induction t as [|d t IHt]; simpl; [done|]. destruct (Py.is_space d); simpl; lia. }
  unfold indent_of. simpl. destruct (Py.is_space c).
  - pose proof (Hle s).
    replace (S (String.length s) - String.length (Py.lstrip s))
      with (S (String.length s - String.length (Py.lstrip s))) by lia.
    done.
  - simpl. by rewrite Nat.sub_diag.
Qed.

Lemma indent_of_spaces ln : Py.all_chars Py.is_space (indent_of ln) = true.
Proof.
  induction ln as [|c s IH]; [done|]. rewrite indent_of_cons.
  destruct (Py.is_space c) eqn:Hc; [|done]. simpl. by rewrite Hc, IH.
Qed.

Lemma indent_of_one_line ln : one_line ln = true → one_line (indent_of ln) = true.
Proof.
  unfold one_line. induction ln as [|c s IH]; [done|]. rewrite indent_of_cons. simpl.
  intros [Hc Hs]%andb_true_iff. destruct (Py.is_space c); [|done]. simpl.
  by rewrite Hc, IH.
Qed.

Lemma one_line_app s t : one_line (s +:+ t) = one_line s && one_line t.
Proof. apply all_chars_app. Qed.

Lemma rstrip_app p m :
  Py.rstrip (p +:+ m)
  = match Py.rstrip m with "" => Py.rstrip p | r => p +:+ r end.
Proof.
  induction p as [|c p IH].
  - rewrite string_app_nil. by destruct (Py.rstrip m).
  - rewrite string_app_cons. cbn [Py.rstrip]. rewrite IH.
    destruct (Py.rstrip m) as [|d r]; [done|].
    rewrite string_app_cons. by destruct p.
Qed.

Lemma lstrip_rstrip m : Py.lstrip (Py.rstrip m) = Py.rstrip (Py.lstrip m).
Proof.
  induction m as [|c m IH]; [done|]. cbn [Py.rstrip Py.lstrip].
  destruct (Py.is_space c) eqn:Hc.
  - rewrite <- IH. destruct (Py.rstrip m) as [|d r]; [done|]. simpl. by rewrite Hc.
  - cbn [Py.rstrip]. destruct (Py.rstrip m) as [|d r]; simpl; by rewrite Hc.
Qed.

Lemma rstrip_idemp m : Py.rstrip (Py.rstrip m) = Py.rstrip m.
Proof.
  induction m as [|c m IH]; [done|]. cbn [Py.rstrip].
  destruct (Py.rstrip m) as [|d r] eqn:Hr.
  - destruct (Py.is_space c) eqn:Hc; [done|]. cbn [Py.rstrip]. by rewrite Hc.
  - change (Py.rstrip (String c (String d r))) with
      (match Py.rstrip (String d r) with
       | "" => if Py.is_space c then "" else String c ""
       | r' => String c r'
       end).
    by rewrite IH.
Qed.

Lemma lstrip_idemp m : Py.lstrip (Py.lstrip m) = Py.lstrip m.
Proof.
  induction m as [|c m IH]; [done|]. cbn [Py.lstrip].
  destruct (Py.is_space c) eqn:Hc; [done|]. cbn [Py.lstrip]. by rewrite Hc.
Qed.

Lemma strip_idemp m : Py.strip (Py.strip m) = Py.strip m.
Proof.
  unfold Py.strip. by rewrite (lstrip_rstrip (Py.lstrip m)), rstrip_idemp, lstrip_idemp.
Qed.

(** ** Rewriting one field of a block *)

Lemma replace_sci_replace_key `{PyFloat} block new_sci :
  replace_sci block new_sci = replace_key "sci =" ("sci = " +:+ repr new_sci) block.
Proof. reflexivity. Qed.

Lemma _replace_map_replace_key block new_map :
  _replace_map block new_map = replace_key "Map =" ("Map = " +:+ new_map) block.
Proof. reflexivity. Qed.

Lemma replace_key_loop key text lines acc r :
  ∃ out' r',
    foldl (replace_key_line key text) (acc, r) lines = (acc ++ out', r')
    ∧ (((r = true ∨ Forall (λ ln, Py.startswith (Py.strip ln) key = false) lines)
        ∧ out' = lines ∧ r' = r)
       ∨ (r = false ∧ r' = true
          ∧ ∃ l1 ln l2, lines = l1 ++ ln :: l2
              ∧ Forall (λ ln, Py.startswith (Py.strip ln) key = false) l1
              ∧ Py.startswith (Py.strip ln) key = true
              ∧ out' = l1 ++ (indent_of ln +:+ text) :: l2)).
Proof.
  revert acc r. induction lines as [|ln lines IH]; intros acc r.
  - exists [], r. rewrite app_nil_r. split; [done|]. left. split; [|done].
    right. constructor.
  - cbn [foldl]. unfold replace_key_line at 2. cbn [fst snd].
    destruct r; cbn [negb andb].
    + destruct (IH (acc ++ [ln]) true) as (out' & r' & -> & Hcase).
      exists (ln :: out'), r'. rewrite <- app_assoc. split; [done|].
      destruct Hcase as [(_ & -> & ->)|(? & _)]; [|done]. left. by split; [left|].
    + destruct (Py.startswith (Py.strip ln) key) eqn:Hk.
      * destruct (IH (acc ++ [indent_of ln +:+ text]) true) as (out' & r' & -> & Hcase).
        exists ((indent_of ln +:+ text) :: out'), r'. rewrite <- app_assoc.
        split; [done|].
        destruct Hcase as [(_ & -> & ->)|(? & _)]; [|done]. right.
        split; [done|]. split; [done|]. exists [], ln, lines. by repeat split.
      * destruct (IH (acc ++ [ln]) false) as (out' & r' & -> & Hcase).
        exists (ln :: out'), r'. rewrite <- app_assoc. split; [done|].
        destruct Hcase as [([Hr|Hall] & -> & ->)|(_ & -> & l1 & ln' & l2 & -> & Hl1 & Hln & ->)].
        -- done.
        -- left. split; [|done]. right. by constructor.
        -- right. split; [done|]. split; [done|].
           exists (ln :: l1), ln', l2. repeat split; [by constructor | done].
Qed.

Lemma insert_before_last_brace_Some line out out' :
  insert_before_last_brace line out = Some out' →
  ∃ l1 x l2, out = l1 ++ x :: l2 ∧ Py.strip x = "}" ∧ out' = l1 ++ line :: x :: l2.
Proof.
  revert out'. induction out as [|y out IH]; intros out'; [done|]. simpl.
  destruct (insert_before_last_brace line out) as [r|] eqn:Hr.
  - intros [= <-]. destruct (IH r eq_refl) as (l1 & x & l2 & -> & Hx & ->).
    by exists (y :: l1), x, l2.
  - case_bool_decide as Hy; [|done]. intros [= <-]. by exists [], y, out.
Qed.

Lemma insert_before_last_brace_None line out :
  insert_before_last_brace line out = None → Forall (λ x, Py.strip x ≠ "}") out.
Proof.
  induction out as [|y out IH]; [constructor|]. simpl.
  destruct (insert_before_last_brace line out); [done|].
  case_bool_decide; [done|]. intros _. constructor; [done|]. by apply IH.
Qed.

(** What [replace_key] returns, from the lines of the block. *)
Lemma replace_key_shape key text block :
  let is_key ln := Py.startswith (Py.strip ln) key in
  (∃ l1 ln l2, Py.splitlines block = l1 ++ ln :: l2
      ∧ Forall (λ x, is_key x = false) l1 ∧ is_key ln = true
      ∧ replace_key key text block = Py.join Py.NL (l1 ++ (indent_of ln +:+ text) :: l2))
  ∨ (Forall (λ x, is_key x = false) (Py.splitlines block)
     ∧ ∃ l1 x l2, Py.splitlines block = l1 ++ x :: l2 ∧ Py.strip x = "}"
         ∧ replace_key key text block = Py.join Py.NL (l1 ++ ("    " +:+ text) :: x :: l2))
  ∨ (Forall (λ x, is_key x = false) (Py.splitlines block)
     ∧ Forall (λ x, Py.strip x ≠ "}") (Py.splitlines block)
     ∧ replace_key key text block = Py.join Py.NL (Py.splitlines block)).
Proof.
  intros is_key. unfold replace_key.
  destruct (replace_key_loop key text (Py.splitlines block) [] false)
    as (out' & r' & -> & Hcase). rewrite app_nil_l.
  destruct Hcase as [([Hr|Hall] & -> & ->)|(_ & -> & l1 & ln & l2 & Hl & Hl1 & Hln & ->)].
  - done.
  - right.
    destruct (insert_before_last_brace ("    " +:+ text) (Py.splitlines block)) as [out|] eqn:Hi.
    + left. split; [done|].
      destruct (insert_before_last_brace_Some _ _ _ Hi) as (l1 & x & l2 & Hl & Hx & ->).
      by exists l1, x, l2.
    + right. split; [done|]. split; [|done]. by eapply insert_before_last_brace_None.
  - left. by exists l1, ln, l2.
Qed.

(** The line written for a key is a line of that key. *)
Lemma startswith_app s p : Py.startswith (p +:+ s) p = true.
Proof.
  induction p as [|c p IH]; [by destruct s|].
  rewrite string_app_cons. simpl. by rewrite bool_decide_eq_true_2.
Qed.

Lemma startswith_refl p : Py.startswith p p = true.
Proof. rewrite <- (string_app_nil_r p) at 1. apply startswith_app. Qed.

Lemma lstrip_length s : String.length (Py.lstrip s) ≤ String.length s.
Proof.
  induction s as [|c s IH]; [done|]. cbn [Py.lstrip].
  destruct (Py.is_space c); simpl; lia.
Qed.

Lemma key_line_written key rest w :
  key ≠ "" → Py.lstrip key = key → Py.rstrip key = key →
  Py.all_chars Py.is_space w = true →
  Py.startswith (Py.strip (w +:+ key +:+ rest)) key = true.
Proof.
  intros Hne Hl Hr Hw. unfold Py.strip. rewrite lstrip_spaces by done.
  assert (Py.lstrip (key +:+ rest) = key +:+ rest) as ->.
  { destruct key as [|c key]; [done|]. rewrite string_app_cons.
    cbn [Py.lstrip] in *. destruct (Py.is_space c); [|done].
    pose proof (lstrip_length key) as Hlen. rewrite Hl in Hlen. simpl in Hlen. lia. }
  rewrite rstrip_app. destruct (Py.rstrip rest).
  - rewrite Hr. apply startswith_refl.
  - apply startswith_app.
Qed.


Lemma filter_none (P : string → bool) l :
  Forall (λ x, P x = false) l → filter (λ x, P x = true) l = [].
Proof.
  induction 1 as [|x l Hx _ IH]; [done|].
  rewrite filter_cons_False by (by rewrite Hx). exact IH.
Qed.

Lemma parse_line_sci `{PyFloat} st ln :
  Py.startswith (Py.strip ln) "sci =" = true →
  p_sid (parse_line st ln) = p_sid st ∧ p_cap (parse_line st ln) = p_cap st.
Proof.
  intros Hs. unfold parse_line.
  destruct (Py.startswith (Py.strip ln) "id =") eqn:Hid.
  - destruct (Py.strip ln) as [|c s]; [done|]. cbn [Py.startswith] in Hs, Hid.
    repeat case_bool_decide; congruence.
  - rewrite Hs. by destruct (float_of_string _).
Qed.

Lemma parse_fold_sid_cap `{PyFloat} l st st' :
  p_sid st = p_sid st' → p_cap st = p_cap st' →
  p_sid (foldl parse_line st l) = p_sid (foldl parse_line st' l)
  ∧ p_cap (foldl parse_line st l) = p_cap (foldl parse_line st' l).
Proof.
  revert st st'. induction l as [|ln l IH]; intros st st' Hs Hc; [done|].
  cbn [foldl]. apply IH; unfold parse_line;
    (destruct (Py.startswith (Py.strip ln) "id ="); [simpl; congruence|]);
    (destruct (Py.startswith (Py.strip ln) "sci =");
      [destruct (float_of_string _); simpl; congruence|]);
    (destruct (Py.startswith (Py.strip ln) "cap =");
      [destruct (float_of_string _); simpl; congruence|]); congruence.
Qed.

Lemma map_line_value w m :
  Py.all_chars Py.is_space w = true →
  Py.strip (Py.after_eq (Py.strip (w +:+ "Map = " +:+ m))) = Py.strip m.
Proof.
  intros Hw. unfold Py.strip at 2. rewrite lstrip_spaces by done.
  change (Py.lstrip ("Map = " +:+ m)) with ("Map = " +:+ m).
  rewrite rstrip_app.
  assert (Py.strip m = Py.lstrip (Py.rstrip m)) as Hm.
  { unfold Py.strip. by rewrite lstrip_rstrip. }
  destruct (Py.rstrip m) as [|c r] eqn:Hr.
  - by rewrite Hm.
  - change (Py.after_eq ("Map = " +:+ String c r)) with (" " +:+ String c r).
    unfold Py.strip at 1. change (Py.lstrip (" " +:+ String c r)) with (Py.lstrip (String c r)).
    rewrite <- Hr, lstrip_rstrip, rstrip_idemp. done.
Qed.

(** ** A rewritten block keeps its other fields *)

(** X15.  [replace_sci] leaves the id and the cap of a block as
    [parse_block] reads them: whatever the block and the value written
    (its text being one line), the rewritten block parses to the same id
    and the same cap as the block it was made from. *)
Theorem replace_sci_keeps_id_and_cap `{PyFloat} (block : string) (v : float) :
  one_line (repr v) = true →
  p_sid (parse_block (replace_sci block v)) = p_sid (parse_block block)
  ∧ p_cap (parse_block (replace_sci block v)) = p_cap (parse_block block).
Proof.
  intros Hv. rewrite replace_sci_replace_key. unfold parse_block.
  pose proof (splitlines_lines block) as Hlines.
  assert (∀ w, Py.all_chars Py.is_space w = true → one_line w = true →
            one_line (w +:+ "sci = " +:+ repr v) = true
            ∧ Py.startswith (Py.strip (w +:+ "sci = " +:+ repr v)) "sci =" = true) as Hnew.
  { intros w Hw Hw1. split.
    - by rewrite !one_line_app, Hw1, Hv.
    - by apply (key_line_written "sci =" (" " +:+ repr v) w). }
  destruct (replace_key_shape "sci =" ("sci = " +:+ repr v) block)
    as [(l1 & ln & l2 & Hl & Hl1 & Hln & ->)
       |[(Hall & l1 & x & l2 & Hl & Hx & ->)|(Hall & Hnb & ->)]].
  - rewrite Hl in *. apply Forall_app in Hlines as [H1 H2].
    apply Forall_cons in H2 as [Hone H2].
    destruct (Hnew (indent_of ln)) as [Hone' Hkey];
      [apply indent_of_spaces | by apply indent_of_one_line |].
    rewrite foldl_splitlines_join;
      [|done | apply Forall_app; split; [done | by constructor]].
    rewrite !foldl_app. cbn [foldl].
    set (st := foldl parse_line (Parsed None None None) l1).
    apply parse_fold_sid_cap.
    + destruct (parse_line_sci st _ Hkey). destruct (parse_line_sci st _ Hln). congruence.
    + destruct (parse_line_sci st _ Hkey). destruct (parse_line_sci st _ Hln). congruence.
  - rewrite Hl in *. apply Forall_app in Hlines as [H1 H2].
    destruct (Hnew "    ") as [Hone' Hkey]; [done | done |].
    rewrite foldl_splitlines_join;
      [|done | apply Forall_app; split; [done | by constructor]].
    rewrite !foldl_app. cbn [foldl].
    set (st := foldl parse_line (Parsed None None None) l1).
    destruct (parse_line_sci st _ Hkey) as [Ha Hb].
    by apply (parse_fold_sid_cap (x :: l2)).
  - by rewrite foldl_splitlines_join.
Qed.

Lemma replace_sci_keeps_id_and_cap_witness :
  one_line (repr (PyFloat := Dec.dec_float) 60500000%Z) = true
  ∧ p_sid (parse_block (H := Dec.dec_float)
             (replace_sci (H := Dec.dec_float) Sample.sci_A_60 60500000%Z))
    = p_sid (parse_block (H := Dec.dec_float) Sample.sci_A_60).
Proof.
  split; [reflexivity|].
  exact (proj1 (replace_sci_keeps_id_and_cap (H := Dec.dec_float) Sample.sci_A_60
                  60500000%Z eq_refl)).
Defined.

(** ** The coverage map of a body block *)

Lemma _extract_replace_map (block new_map : string) :
  one_line new_map = true →
  (∃ ln, ln ∈ Py.splitlines block
         ∧ (Py.startswith (Py.strip ln) "Map =" = true ∨ Py.strip ln = "}")) →
  _extract_map (_replace_map block new_map) = Py.strip new_map.
Proof.
  intros Hm (ln0 & Hin & Hln0). rewrite _replace_map_replace_key. unfold _extract_map.
  pose proof (splitlines_lines block) as Hlines.
  assert (∀ w, Py.all_chars Py.is_space w = true → one_line w = true →
            one_line (w +:+ "Map = " +:+ new_map) = true
            ∧ Py.startswith (Py.strip (w +:+ "Map = " +:+ new_map)) "Map =" = true) as Hnew.
  { intros w Hw Hw1. split.
    - by rewrite !one_line_app, Hw1, Hm.
    - by apply (key_line_written "Map =" (" " +:+ new_map) w). }
  destruct (replace_key_shape "Map =" ("Map = " +:+ new_map) block)
    as [(l1 & ln & l2 & Hl & Hl1 & Hln & ->)
       |[(Hall & l1 & x & l2 & Hl & Hx & ->)|(Hall & Hnb & ->)]].
  - rewrite Hl in *. apply Forall_app in Hlines as [H1 H2].
    apply Forall_cons in H2 as [Hone H2].
    destruct (Hnew (indent_of ln)) as [Hone' Hkey];
      [apply indent_of_spaces | by apply indent_of_one_line |].
    rewrite (head_filter_splitlines_join (λ ln, Py.startswith (Py.strip ln) "Map ="));
      [|done | apply Forall_app; split; [done | by constructor]].
    rewrite filter_app, (filter_none (λ ln, Py.startswith (Py.strip ln) "Map =")) by done.
    rewrite filter_cons_True by done. simpl.
    apply map_line_value, indent_of_spaces.
  - rewrite Hl in *. apply Forall_app in Hlines as [H1 H2].
    apply Forall_app in Hall as [Hall1 Hall2].
    destruct (Hnew "    ") as [Hone' Hkey]; [done | done |].
    rewrite (head_filter_splitlines_join (λ ln, Py.startswith (Py.strip ln) "Map ="));
      [|done | apply Forall_app; split; [done | by constructor]].
    rewrite filter_app, (filter_none (λ ln, Py.startswith (Py.strip ln) "Map =")) by done.
    rewrite filter_cons_True by done. simpl.
    by apply (map_line_value "    ").
  - rewrite Forall_forall in Hall. rewrite Forall_forall in Hnb.
    destruct Hln0 as [Hk|Hb]; [by rewrite (Hall _ Hin) in Hk | by destruct (Hnb _ Hin)].
Qed.

(** X16.  Writing a map into a block and reading it back: when the
    block has a [Map =] line or a line that is a closing brace, and the
    map is one line, [_extract_map] of [_replace_map(block, new_map)]
    is [new_map] stripped. *)
Theorem replace_map_then_extract (block new_map : string) :
  one_line new_map = true →
  (∃ ln, ln ∈ Py.splitlines block
         ∧ (Py.startswith (Py.strip ln) "Map =" = true ∨ Py.strip ln = "}")) →
  _extract_map (_replace_map block new_map) = Py.strip new_map.
Proof. apply _extract_replace_map. Qed.

Lemma replace_map_then_extract_witness :
  one_line "AQID" = true
  ∧ "  Map = AAAA" ∈ Py.splitlines (Py.join Py.NL ["Body"; "{"; "  Name = Kerbin"; "  Map = AAAA"; "}"])
  ∧ _extract_map (_replace_map
      (Py.join Py.NL ["Body"; "{"; "  Name = Kerbin"; "  Map = AAAA"; "}"]) "AQID") = "AQID".
Proof.
  assert ("  Map = AAAA"
          ∈ Py.splitlines (Py.join Py.NL ["Body"; "{"; "  Name = Kerbin"; "  Map = AAAA"; "}"]))
    as Hin by (apply (list_elem_of_lookup_2 _ 3); reflexivity).
  split; [reflexivity|]. split; [exact Hin|].
  exact (replace_map_then_extract _ "AQID" eq_refl
           (ex_intro _ "  Map = AAAA" (conj Hin (or_introl eq_refl)))).
Defined.

(** X17.  A block with neither a [Map =] line nor a closing-brace
    line takes no map: [_replace_map] returns its lines joined, without
    the new map, and [_extract_map] of the result is empty. *)
Theorem replace_map_dropped (block new_map : string) :
  (∀ ln, ln ∈ Py.splitlines block →
         Py.startswith (Py.strip ln) "Map =" = false ∧ Py.strip ln ≠ "}") →
  _replace_map block new_map = Py.join Py.NL (Py.splitlines block)
  ∧ _extract_map (_replace_map block new_map) = "".
Proof.
  intros Hno. rewrite _replace_map_replace_key.
  pose proof (splitlines_lines block) as Hlines.
  assert (Forall (λ x, Py.startswith (Py.strip x) "Map =" = false) (Py.splitlines block))
    as Hnokey by (apply Forall_forall; intros ln Hin; apply (Hno ln Hin)).
  destruct (replace_key_shape "Map =" ("Map = " +:+ new_map) block)
    as [(l1 & ln & l2 & Hl & Hl1 & Hln & _)
       |[(Hall & l1 & x & l2 & Hl & Hx & _)|(Hall & Hnb & ->)]].
  - destruct (Hno ln) as [Hk _]; [rewrite Hl; apply elem_of_app; right; left|].
    by rewrite Hk in Hln.
  - destruct (Hno x) as [_ Hb]; [rewrite Hl; apply elem_of_app; right; left | done].
  - split; [done|]. unfold _extract_map.
    rewrite (head_filter_splitlines_join (λ ln, Py.startswith (Py.strip ln) "Map ="))
      by done.
    by rewrite (filter_none (λ ln, Py.startswith (Py.strip ln) "Map =")).
Qed.

Lemma replace_map_dropped_witness :
  _replace_map (Py.join Py.NL ["Body"; "  Name = Kerbin"]) "AQID"
  = Py.join Py.NL (Py.splitlines (Py.join Py.NL ["Body"; "  Name = Kerbin"])).
Proof.
  refine (proj1 (replace_map_dropped (Py.join Py.NL ["Body"; "  Name = Kerbin"]) "AQID" _)).
  intros ln Hin. vm_compute in Hin.
  apply elem_of_cons in Hin as [->|Hin]; [by split|].
  apply elem_of_cons in Hin as [->|Hin]; [by split|].
  by apply elem_of_nil in Hin.
Defined.


(** ** The block [_find_block_at] returns *)

Lemma find_from_startswith s sub start i :
  Py.find_from s sub start = Some i → Py.startswith (Py.drop i s) sub = true.
Proof.
  revert start i. induction s as [|c s IH]; intros start i.
  - destruct start; cbn [Py.find_from]; [|done].
    destruct (Py.startswith "" sub) eqn:Hs; [|done]. by intros [= <-].
  - destruct start as [|n]; cbn [Py.find_from].
    + destruct (Py.startswith (String c s) sub) eqn:Hs; [by intros [= <-]|].
      destruct (Py.find_from s sub 0) as [i'|] eqn:Hf; [|done].
      cbn [fmap option_fmap option_map]. intros [= <-]. by apply (IH 0).
    + destruct (Py.find_from s sub n) as [i'|] eqn:Hf; [|done].
      cbn [fmap option_fmap option_map]. intros [= <-]. by apply (IH n).
Qed.

Lemma find_from_first s sub start i m :
  Py.find_from s sub start = Some i → start ≤ m < i →
  Py.startswith (Py.drop m s) sub = false.
Proof.
  revert start i m. induction s as [|c s IH]; intros start i m.
  - destruct start; cbn [Py.find_from]; [|done].
    destruct (Py.startswith "" sub) eqn:Hs; [|done]. intros [= <-]. lia.
  - destruct start as [|n]; cbn [Py.find_from].
    + destruct (Py.startswith (String c s) sub) eqn:Hs; [intros [= <-]; lia|].
      destruct (Py.find_from s sub 0) as [i'|] eqn:Hf; [|done].
      cbn [fmap option_fmap option_map]. intros [= <-] Hm.
      destruct m as [|m]; [done|]. cbn [Py.drop]. apply (IH 0 i'); [done | lia].
    + destruct (Py.find_from s sub n) as [i'|] eqn:Hf; [|done].
      cbn [fmap option_fmap option_map]. intros [= <-] Hm.
      destruct m as [|m]; [lia|]. cbn [Py.drop]. apply (IH n i'); [done | lia].
Qed.

Lemma brace_depth_take_S c s n :
  brace_depth (Py.take (S n) (String c s))
  = ((if bool_decide (c = "{"%char) then 1
      else if bool_decide (c = "}"%char) then -1 else 0) + brace_depth (Py.take n s))%Z.
Proof. reflexivity. Qed.

Lemma match_brace_balanced s depth k k' :
  (1 ≤ depth)%Z → match_brace s depth k = Some k' →
  (depth + brace_depth (Py.take (S (k' - k)) s) = 0)%Z
  ∧ ∀ n, n ≤ k' - k → (1 ≤ depth + brace_depth (Py.take n s))%Z.
Proof.
  revert depth k. induction s as [|c s IH]; intros depth k Hd; [done|].
  cbn [match_brace]. intros Hm.
  assert (∀ d, (1 ≤ d)%Z → match_brace s d (S k) = Some k' →
            (d + brace_depth (Py.take (S (k' - S k)) s) = 0)%Z
            ∧ (∀ n, n ≤ k' - S k → (1 ≤ d + brace_depth (Py.take n s))%Z)
            ∧ k' - k = S (k' - S k)) as Hrec.
  { intros d Hd' Hm'. destruct (IH d (S k) Hd' Hm') as [H1 H2].
    apply match_brace_bounds in Hm'. repeat split; [done | done | lia]. }
  assert (1 ≤ depth + brace_depth (Py.take 0 (String c s)))%Z as Hzero
    by (cbn [Py.take brace_depth]; lia).
  case_bool_decide as Ho.
  { destruct (Hrec (depth + 1)%Z) as (H1 & H2 & ->); [lia | done |].
    split.
    - rewrite brace_depth_take_S, bool_decide_eq_true_2 by done. lia.
    - intros [|n] Hn; [exact Hzero|].
      rewrite brace_depth_take_S, bool_decide_eq_true_2 by done.
      specialize (H2 n). lia. }
  case_bool_decide as Hc.
  { case_bool_decide as Hz.
    - injection Hm as <-. replace (k - k) with 0 by lia. split.
      + rewrite brace_depth_take_S, bool_decide_eq_false_2 by done.
        rewrite bool_decide_eq_true_2 by done. cbn [Py.take brace_depth]. lia.
      + intros n Hn. replace n with 0 by lia. exact Hzero.
    - destruct (Hrec (depth - 1)%Z) as (H1 & H2 & ->); [lia | done |].
      split.
      + rewrite brace_depth_take_S, bool_decide_eq_false_2 by done.
        rewrite bool_decide_eq_true_2 by done. lia.
      + intros [|n] Hn; [exact Hzero|].
        rewrite brace_depth_take_S, bool_decide_eq_false_2 by done.
        rewrite bool_decide_eq_true_2 by done. specialize (H2 n). lia. }
  destruct (Hrec depth) as (H1 & H2 & ->); [lia | done |].
  split.
  - rewrite brace_depth_take_S, !bool_decide_eq_false_2 by done. lia.
  - intros [|n] Hn; [exact Hzero|].
    rewrite brace_depth_take_S, !bool_decide_eq_false_2 by done.
    specialize (H2 n). lia.
Qed.

(** X18.  The block [_find_block_at] returns: it is [s[i:idx]] for the
    first index [i], at or after [start], at which the header occurs;
    [idx] lies after [start] and within the text; from the first opening
    brace at or after [i], at [j], the braces of the block balance, and
    they balance at no earlier index. *)
Theorem find_block_at_balanced (s hdr : string) (start : nat) (blk : string) (idx : nat) :
  _find_block_at s hdr start = Some (blk, idx) →
  ∃ i j, start ≤ i ∧ i ≤ j ∧ j < idx ∧ idx ≤ String.length s
    ∧ blk = Py.slice s i idx
    ∧ Py.startswith (Py.drop i s) hdr = true
    ∧ (∀ m, start ≤ m < i → Py.startswith (Py.drop m s) hdr = false)
    ∧ Py.startswith (Py.drop j s) "{" = true
    ∧ (∀ m, i ≤ m < j → Py.startswith (Py.drop m s) "{" = false)
    ∧ brace_depth (Py.slice s j idx) = 0%Z
    ∧ ∀ m, j < m < idx → (0 < brace_depth (Py.slice s j m))%Z.
Proof.
  unfold _find_block_at.
  destruct (Py.find_from s hdr start) as [i|] eqn:Hi; [|done]. simpl.
  destruct (Py.find_from s "{" i) as [j|] eqn:Hj; [|done]. simpl.
  destruct (match_brace (Py.drop j s) 0 j) as [k|] eqn:Hk; [|done]. simpl.
  intros [= <- <-]. exists i, j.
  pose proof (find_from_bounds _ _ _ _ Hi) as Bi.
  pose proof (find_from_bounds _ _ _ _ Hj) as Bj.
  pose proof (match_brace_bounds _ _ _ _ Hk) as Bk. rewrite length_drop in Bk.
  pose proof (find_from_startswith _ _ _ _ Hj) as Sj.
  split; [lia|]. split; [lia|]. split; [lia|]. split; [lia|]. split; [done|].
  split; [by eapply find_from_startswith|].
  split; [intros m Hm; by eapply find_from_first|].
  split; [done|].
  split; [intros m Hm; by eapply find_from_first|].
  unfold Py.slice. destruct (Py.drop j s) as [|c t] eqn:Ht; [done|].
  cbn [Py.startswith] in Sj. case_bool_decide as Hc; [|done]. subst c.
  cbn [match_brace] in Hk. rewrite bool_decide_eq_true_2 in Hk by done.
  destruct (match_brace_balanced t (0 + 1)%Z (S j) k) as [H1 H2]; [lia | done |].
  apply match_brace_bounds in Hk. split.
  - replace (k + 1 - j) with (S (S (k - S j))) by lia.
    rewrite brace_depth_take_S, bool_decide_eq_true_2 by done. lia.
  - intros m Hm. replace (m - j) with (S (m - S j)) by lia.
    rewrite brace_depth_take_S, bool_decide_eq_true_2 by done.
    specialize (H2 (m - S j)). lia.
Qed.

Lemma find_block_at_balanced_witness :
  _find_block_at "x = 1 SCENARIO { a { b } c } tail" "SCENARIO" 0
    = Some ("SCENARIO { a { b } c }", 28)
  ∧ ∃ i j, "SCENARIO { a { b } c }" = Py.slice "x = 1 SCENARIO { a { b } c } tail" i 28
      ∧ brace_depth (Py.slice "x = 1 SCENARIO { a { b } c } tail" j 28) = 0%Z.
Proof.
  split; [reflexivity|].
  destruct (find_block_at_balanced "x = 1 SCENARIO { a { b } c } tail" "SCENARIO" 0
              "SCENARIO { a { b } c }" 28 eq_refl)
    as (i & j & _ & _ & _ & _ & Hblk & _ & _ & _ & _ & Hbal & _).
  exists i, j. split; [exact Hblk | exact Hbal].
Defined.


(** ** The text [_normalize_scansat] returns *)

Lemma rev_app_app t u acc :
  String.rev_app (t +:+ u) acc = String.rev_app u (String.rev_app t acc).
Proof.
  revert acc. induction t as [|c t IH]; intros acc; [done|].
  rewrite string_app_cons. simpl. apply IH.
Qed.

Lemma endswith_app p t : Py.endswith (t +:+ p) p = true.
Proof.
  unfold Py.endswith, String.rev. rewrite rev_app_app.
  generalize (String.rev_app t ""). clear t.
  assert (∀ acc acc', Py.startswith acc acc' = true →
            Py.startswith (String.rev_app p acc) (String.rev_app p acc') = true) as Hgen.
  { induction p as [|c p IH]; intros acc acc' Hs; [done|]. simpl.
    apply IH. simpl. by rewrite bool_decide_eq_true_2. }
  intros acc. apply Hgen. by destruct acc.
Qed.

Lemma ensure_newline_endswith t : Py.endswith (ensure_newline t) Py.NL = true.
Proof.
  unfold ensure_newline. destruct (Py.endswith t Py.NL) eqn:He; [done|].
  apply endswith_app.
Qed.

Lemma startswith_app_l t u p :
  Py.startswith t p = true → Py.startswith (t +:+ u) p = true.
Proof.
  revert t. induction p as [|a p IH]; intros [|b t]; try done.
  - by destruct u.
  - rewrite string_app_cons. simpl. case_bool_decide; [|done]. apply IH.
Qed.

Lemma ensure_newline_startswith t p :
  Py.startswith t p = true → Py.startswith (ensure_newline t) p = true.
Proof.
  intros Hs. unfold ensure_newline. destruct (Py.endswith t Py.NL); [done|].
  by apply startswith_app_l.
Qed.

Lemma drop_drop n i s : Py.drop n (Py.drop i s) = Py.drop (i + n) s.
Proof.
  revert s. induction i as [|i IH]; intros s; [done|].
  destruct s as [|c s]; [by destruct n|]. simpl. apply IH.
Qed.

Lemma startswith_take t p n :
  Py.startswith t p = true → String.length p ≤ n → Py.startswith (Py.take n t) p = true.
Proof.
  revert t n. induction p as [|a p IH]; intros t n Hs Hn.
  - by destruct (Py.take n t).
  - destruct t as [|d t]; [by simpl in Hs|]. destruct n as [|n]; [simpl in Hn; lia|].
    simpl in *. case_bool_decide; [|done]. apply IH; [done | lia].
Qed.

Lemma length_take n t : String.length (Py.take n t) = n `min` String.length t.
Proof.
  revert t. induction n as [|n IH]; intros [|c t]; simpl; try done. by rewrite IH.
Qed.

(** Inside an occurrence of a header without an opening brace no
    opening brace starts. *)
Lemma startswith_no_brace t hdr n :
  Py.startswith t hdr = true →
  Py.all_chars (λ c, negb (bool_decide (c = "{"%char))) hdr = true →
  n < String.length hdr → Py.startswith (Py.drop n t) "{" = false.
Proof.
  revert t n. induction hdr as [|a hdr IH]; intros t n Hs Hall Hn; [simpl in Hn; lia|].
  destruct t as [|d t]; [by simpl in Hs|]. simpl in Hs, Hall, Hn.
  destruct (decide (a = d)) as [<-|Hne]; [|by rewrite bool_decide_eq_false_2 in Hs].
  rewrite bool_decide_eq_true_2 in Hs by done.
  apply andb_true_iff in Hall as [Ha Hall]. destruct n as [|n].
  - simpl. apply negb_true_iff, bool_decide_eq_false in Ha.
    rewrite bool_decide_eq_false_2; [done | congruence].
  - simpl. apply IH; [done | done | lia].
Qed.

Lemma splitlines_nil s : Py.splitlines s = [] → s = "".
Proof.
  destruct s as [|c s]; [done|]. cbn [Py.splitlines].
  destruct (Py.is_linebreak c); [done|]. by destruct (Py.splitlines s).
Qed.

Lemma _find_block_at_header s hdr start blk idx :
  Py.all_chars (λ c, negb (bool_decide (c = "{"%char))) hdr = true →
  _find_block_at s hdr start = Some (blk, idx) →
  Py.startswith blk hdr = true ∧ blk ≠ "".
Proof.
  intros Hhdr. unfold _find_block_at.
  destruct (Py.find_from s hdr start) as [i|] eqn:Hi; [|done]. simpl.
  destruct (Py.find_from s "{" i) as [j|] eqn:Hj; [|done]. simpl.
  destruct (match_brace (Py.drop j s) 0 j) as [k|] eqn:Hk; [|done]. simpl.
  intros [= <- <-].
  pose proof (find_from_bounds _ _ _ _ Hi) as Bi.
  pose proof (find_from_bounds _ _ _ _ Hj) as Bj.
  pose proof (match_brace_bounds _ _ _ _ Hk) as Bk. rewrite length_drop in Bk.
  pose proof (find_from_startswith _ _ _ _ Hi) as Si.
  pose proof (find_from_startswith _ _ _ _ Hj) as Sj.
  assert (i + String.length hdr ≤ j) as Hij.
  { destruct (decide (i + String.length hdr ≤ j)) as [|Hlt]; [done|].
    pose proof (startswith_no_brace _ _ (j - i) Si Hhdr ltac:(lia)) as Hno.
    rewrite drop_drop in Hno. replace (i + (j - i)) with j in Hno by lia. congruence. }
  split.
  - unfold Py.slice. apply startswith_take; [done | lia].
  - intros E. apply (f_equal String.length) in E. unfold Py.slice in E.
    rewrite length_take, length_drop in E. simpl in E. lia.
Qed.

Lemma unwrap_scenario_header scen :
  scen ≠ "" → Py.startswith (unwrap_scenario scen) "SCANcontroller" = true.
Proof.
  intros Hne. unfold unwrap_scenario.
  destruct (Py.splitlines scen) as [|l0 rest] eqn:Hl; [by apply splitlines_nil in Hl|].
  apply ensure_newline_startswith.
  rewrite filter_cons_True by done.
  destruct (filter _ rest) as [|x xs]; [done|].
  rewrite join_cons2. apply startswith_app.
Qed.

Lemma scan_scenarios_Some fuel s idx out :
  scan_scenarios fuel s idx = Some out →
  ∃ scen start idx', _find_block_at s "SCENARIO" start = Some (scen, idx')
    ∧ out = unwrap_scenario scen.
Proof.
  revert idx. induction fuel as [|fuel IH]; intros idx; [done|]. simpl.
  destruct (_find_block_at s "SCENARIO" idx) as [[scen idx']|] eqn:Hb; [|done].
  destruct (Py.contains scen "name" && Py.contains scen "SCANcontroller").
  - intros [= <-]. by exists scen, idx, idx'.
  - apply IH.
Qed.

(** X19.  Whatever the text, [_normalize_scansat] returns a text that
    starts with [SCANcontroller] and ends with a line feed. *)
Theorem normalize_scansat_shape (text : string) :
  Py.startswith (_normalize_scansat text) "SCANcontroller" = true
  ∧ Py.endswith (_normalize_scansat text) Py.NL = true.
Proof.
  unfold _normalize_scansat.
  destruct (_find_block_at (Py.replace_crlf text) "SCANcontroller" 0)
    as [[blk idx]|] eqn:Hb.
  { apply _find_block_at_header in Hb as [Hs _]; [|done].
    split; [by apply ensure_newline_startswith | apply ensure_newline_endswith]. }
  destruct (scan_scenarios _ _ 0) as [out|] eqn:Hscan; [|done].
  apply scan_scenarios_Some in Hscan as (scen & start & idx' & Hf & ->).
  apply _find_block_at_header in Hf as [_ Hne]; [|done].
  split; [by apply unwrap_scenario_header | apply ensure_newline_endswith].
Qed.

(** X20.  The loop of [_normalize_scansat] over the [SCENARIO] blocks
    ends on every text: a round that finds a block moves the index
    forward and never past the end, so with the text's length plus one
    rounds nothing is cut short; allowing more rounds gives the same
    result. *)
Theorem scan_scenarios_ends (s : string) (idx fuel : nat) :
  String.length s < fuel + idx →
  scan_scenarios fuel s idx = scan_scenarios (S (String.length s)) s idx
  ∧ ∀ scen idx', _find_block_at s "SCENARIO" idx = Some (scen, idx') →
      idx < idx' ≤ String.length s.
Proof.
  intros Hf. split.
  - apply scan_scenarios_fuel; [done | lia].
  - intros scen idx' Hb. by apply _find_block_at_bounds in Hb.
Qed.

Lemma scan_scenarios_ends_witness :
  scan_scenarios 100 "SCENARIO { a } SCENARIO { name = SCANcontroller }" 0
  = scan_scenarios 50 "SCENARIO { a } SCENARIO { name = SCANcontroller }" 0.
Proof.
  exact (proj1 (scan_scenarios_ends "SCENARIO { a } SCENARIO { name = SCANcontroller }"
                  0 100 ltac:(vm_compute; lia))).
Defined.


(** ** SCANcontroller: one file per user *)



Lemma resolve_user_segment u user :
  _resolve_user_from_request u = Some user →
  Py.all_chars path_char user = true.
Proof.
  unfold _resolve_user_from_request. destruct (Py.truthy u); [|done].
  destruct u as [u0|]; [|done]. intros [= <-]. apply safe_path_seg_path_chars.
Qed.

(** X21.  A SCANcontroller upload with a user is answered [OK] or
    [UNCHANGED].  Answered [OK], it stores the normalised upload in the
    user's file, and both the user's download and the per-user route
    return that text as a text file reads it.  Answered [UNCHANGED], it
    stores nothing, and the user's download already returned a body
    whose normalisation is the normalised upload. *)
Theorem scan_upload_then_download `{PyFloat}
    (fs : store) (save : string) (u : option string) (user data : string) :
  _resolve_user_from_request u = Some user → user ≠ "" →
  let r := upload_scenario fs save "SCANcontroller" u data in
  let sent := _normalize_scansat (Py.strip data) in
  (r = (("OK", 200), <[user_file (safe_path_seg save) user := sent]> fs)
   ∧ download_scenario r.2 save "SCANcontroller" u = (Py.universal_newlines sent, 200)
   ∧ scansat_user_file r.2 save user = (Py.universal_newlines sent, 200))
  ∨ (r = (("UNCHANGED", 200), fs)
     ∧ ∃ body, download_scenario fs save "SCANcontroller" u = (body, 200)
         ∧ _normalize_scansat body = sent).
Proof.
  intros Hu Hne r sent. unfold r.
  rewrite upload_scenario_SCANcontroller.
  rewrite (upload_SCANcontroller_guard fs _ user u _ Hu Hne). fold sent.
  assert (∀ fs', download_scenario fs' save "SCANcontroller" u
                 = match read_text fs' (user_file (safe_path_seg save) user) with
                   | Some body => (body, 200)
                   | None => ("SCANcontroller" +:+ Py.NL +:+ "{" +:+ Py.NL +:+ "}" +:+ Py.NL, 200)
                   end) as Hdl.
  { intros fs'. unfold download_scenario.
    change (safe_path_seg "SCANcontroller") with "SCANcontroller".
    rewrite bool_decide_eq_true_2 by done. rewrite Hu. by destruct user. }
  case_bool_decide as Hsame.
  - right. split; [done|]. rewrite Hdl.
    destruct (read_text fs (user_file (safe_path_seg save) user)) as [body|]; [|done].
    exists body. split; [done|]. by injection Hsame.
  - left. split; [done|]. cbn [snd].
    assert (read_text (<[user_file (safe_path_seg save) user := sent]> fs)
              (user_file (safe_path_seg save) user) = Some (Py.universal_newlines sent)) as Hr
      by (unfold read_text; by rewrite lookup_insert_eq).
    split; [by rewrite Hdl, Hr|].
    unfold scansat_user_file.
    assert (safe_path_seg user = user) as ->.
    { rewrite safe_path_seg_filter. destruct user as [|c user']; [done|].
      apply filter_chars_all_chars. by eapply resolve_user_segment. }
    by rewrite Hr.
Qed.

Lemma scan_upload_then_download_witness :
  _resolve_user_from_request (Some "al ice") = Some "alice"
  ∧ download_scenario (H := Dec.dec_float)
      (upload_scenario (H := Dec.dec_float) ∅ "s" "SCANcontroller" (Some "al ice")
         "SCANcontroller { a = 1 }").2 "s" "SCANcontroller" (Some "al ice")
    = ("SCANcontroller { a = 1 }" +:+ Py.NL, 200).
Proof.
  split; [reflexivity|].
  destruct (scan_upload_then_download (H := Dec.dec_float) ∅ "s" (Some "al ice") "alice"
              "SCANcontroller { a = 1 }" eq_refl ltac:(discriminate))
    as [(_ & Hd & _)|(Hr & _)].
  - exact Hd.
  - exfalso. apply (f_equal fst) in Hr. vm_compute in Hr. discriminate.
Defined.




(** ** SciencePoints: what a download reports *)

(** X23.  The points a SciencePoints download reports are never below
    zero, whatever the two files hold. *)
Theorem download_SciencePoints_not_negative `{PyFloat} `{!PyFloatOrder}
    (fs : store) (save : string) (u : option string) :
  ∃ points,
    download_scenario fs save "SciencePoints" u = ("sci = " +:+ fmt6 points +:+ Py.NL, 200)
    ∧ fle fzero points = true.
Proof.
  rewrite download_scenario_SciencePoints. unfold download_SciencePoints.
  eexists. split; [reflexivity|].
  unfold pymax, fgt. destruct (flt fzero _) eqn:Hlt; [|apply fle_refl].
  rewrite flt_fle in Hlt. apply negb_true_iff in Hlt.
  destruct (fle_total fzero (fsub
    match read_text fs (scenario_file (safe_path_seg save) "ScienceArchives.txt") with
    | Some text => sum_lines "sci =" text
    | None => fzero
    end
    match read_text fs (scenario_file (safe_path_seg save) "TechTree.txt") with
    | Some text => sum_lines "cost =" text
    | None => fzero
    end)) as [Hle|Hle]; [done | congruence].
Qed.

Lemma download_SciencePoints_not_negative_witness :
  ∃ points,
    download_scenario (H := Dec.dec_float) Sample.tech_store "s" "SciencePoints" None
      = ("sci = " +:+ fmt6 (PyFloat := Dec.dec_float) points +:+ Py.NL, 200)
    ∧ fle (PyFloat := Dec.dec_float) fzero points = true.
Proof.
  exact (download_SciencePoints_not_negative (H := Dec.dec_float) Sample.tech_store "s" None).
Defined.

(** ** Merging the coverage of a body *)

#[global] Instance b64_one_line : PyBase64Line (H := B64.py_base64).
Proof.
  split. intros b. cbn [b64encode B64.py_base64]. unfold one_line.
  apply encode_chars; [|done]. intros v. sextet_cases v; reflexivity.
Qed.

Section BodyMergeFacts.
Context `{PyBase64} `{!PyBase64Laws} `{!PyBase64Line}.

Lemma merge_body_decoded (old blk : string) (A B : bytes) :
  (∃ ln, ln ∈ Py.splitlines old
         ∧ (Py.startswith (Py.strip ln) "Map =" = true ∨ Py.strip ln = "}")) →
  _b64decode (_extract_map old) = Some A → _b64decode (_extract_map blk) = Some B →
  _extract_map (merge_body old blk) = _b64encode (union_bytes A B).
Proof.
  intros Hold Ha Hb. unfold merge_body.
  rewrite (_map_union_decoded _ _ A B Ha Hb).
  rewrite _extract_replace_map; [|apply b64_line | done].
  apply b64_stripped.
Qed.

End BodyMergeFacts.

(** X24.  Merging a body block into the one kept for that body: when
    the kept block has a [Map =] line or a closing-brace line and both
    maps decode, the map of the merged block is the encoding of the
    byte-wise or of the two maps; decoded, a bit is set in it exactly
    when it is set in one of them. *)
Theorem merge_body_unions_maps `{PyBase64} `{!PyBase64Laws} `{!PyBase64Line}
    (old blk : string) (A B : bytes) :
  (∃ ln, ln ∈ Py.splitlines old
         ∧ (Py.startswith (Py.strip ln) "Map =" = true ∨ Py.strip ln = "}")) →
  _b64decode (_extract_map old) = Some A → _b64decode (_extract_map blk) = Some B →
  _extract_map (merge_body old blk) = _b64encode (union_bytes A B)
  ∧ ∃ M, _b64decode (_extract_map (merge_body old blk)) = Some M
      ∧ ∀ n i, map_bit M n i = map_bit A n i || map_bit B n i.
Proof.
  intros Hold Ha Hb.
  pose proof (merge_body_decoded old blk A B Hold Ha Hb) as Hm.
  split; [done|]. exists (union_bytes A B). rewrite Hm.
  split; [apply _b64decode_encode | apply map_bit_union_bytes].
Qed.

Lemma merge_body_unions_maps_witness :
  _b64decode (H := B64.py_base64) "AQ==" = Some ["001"%char]
  ∧ _b64decode (H := B64.py_base64) "Ag==" = Some ["002"%char]
  ∧ _extract_map (merge_body (H := B64.py_base64)
       (Py.join Py.NL ["Body"; "{"; "  Name = Kerbin"; "  Map = AQ=="; "}"])
       (Py.join Py.NL ["Body"; "{"; "  Name = Kerbin"; "  Map = Ag=="; "}"])) = "Aw==".
Proof.
  assert ("  Map = AQ=="
          ∈ Py.splitlines (Py.join Py.NL ["Body"; "{"; "  Name = Kerbin"; "  Map = AQ=="; "}"]))
    as Hin by (apply (list_elem_of_lookup_2 _ 3); reflexivity).
  split; [reflexivity|]. split; [reflexivity|].
  exact (proj1 (merge_body_unions_maps (H := B64.py_base64)
           (Py.join Py.NL ["Body"; "{"; "  Name = Kerbin"; "  Map = AQ=="; "}"])
           (Py.join Py.NL ["Body"; "{"; "  Name = Kerbin"; "  Map = Ag=="; "}"])
           ["001"%char] ["002"%char]
           (ex_intro _ "  Map = AQ==" (conj Hin (or_introl eq_refl))) eq_refl eq_refl)).
Defined.


(** ** Where [_blocks_by] closes a block *)

Lemma count_char_plain c ln :
  Py.all_chars (λ a, negb (bool_decide (a = "{"%char)) && negb (bool_decide (a = "}"%char))) ln
    = true →
  c = "{"%char ∨ c = "}"%char → count_char c ln = 0%Z.
Proof.
  intros Hall Hc. induction ln as [|a ln IH]; [done|]. simpl in *.
  apply andb_true_iff in Hall as [Ha Hall]. rewrite (IH Hall).
  apply andb_true_iff in Ha as [Ho Hcl].
  apply negb_true_iff, bool_decide_eq_false in Ho, Hcl.
  rewrite bool_decide_eq_false_2; [done|]. destruct Hc; congruence.
Qed.

Lemma blocks_by_plain prefix body out x cur lvl :
  (0 < lvl)%Z → Forall (λ ln, plain_line prefix ln = true) body →
  foldl (blocks_by_line prefix) (BlocksScan out (x :: cur) lvl) body
  = BlocksScan out (x :: cur ++ (Py.rstrip <$> body)) lvl.
Proof.
  intros Hlvl Hbody. revert cur.
  induction Hbody as [|ln body Hln _ IH]; intros cur; [by rewrite app_nil_r|].
  cbn [foldl]. unfold blocks_by_line at 2. cbn [bs_out bs_cur bs_lvl].
  unfold plain_line in Hln.
  apply andb_true_iff in Hln as [Hln Hp]. apply andb_true_iff in Hln as [_ Hb].
  apply negb_true_iff in Hp. rewrite Hp.
  rewrite !(count_char_plain _ ln Hb) by auto.
  rewrite bool_decide_eq_false_2 by lia.
  replace (lvl + (0 - 0))%Z with lvl by lia.
  change ((x :: cur) ++ [Py.rstrip ln]) with (x :: (cur ++ [Py.rstrip ln])).
  rewrite IH. by rewrite <- app_assoc.
Qed.

Lemma strip_rstrip ln : Py.strip (Py.rstrip ln) = Py.strip ln.
Proof. unfold Py.strip. by rewrite lstrip_rstrip, rstrip_idemp. Qed.

Lemma one_line_all_plain prefix body :
  Forall (λ ln, plain_line prefix ln = true) body →
  Forall (λ ln, one_line ln = true) body.
Proof.
  intros Hall. eapply Forall_impl; [exact Hall|].
  intros ln Hln. unfold plain_line in Hln.
  by apply andb_true_iff in Hln as [[? _]%andb_true_iff _].
Qed.

Lemma splitlines_join_closed l :
  Forall (λ x, one_line x = true) l →
  Py.splitlines (Py.join Py.NL (l ++ ["}"])) = l ++ ["}"].
Proof.
  intros Hl. rewrite splitlines_join.
  - rewrite last_snoc. by rewrite bool_decide_eq_false_2.
  - apply Forall_app. split; [done|]. by constructor.
Qed.

(** X25.  A block written with its opening brace on the line after the
    header is not closed by its own closing brace: [_blocks_by], for
    [Vessel] or [Body], returns no block for a text that is such a
    block, whatever lines without braces it holds. *)
Theorem blocks_by_brace_on_next_line (prefix hdr : string) (body : list string) :
  prefix = "Vessel" ∨ prefix = "Body" →
  one_line hdr = true → Py.startswith (Py.strip hdr) prefix = true →
  Forall (λ ln, plain_line prefix ln = true) body →
  _blocks_by prefix (Py.join Py.NL ((hdr :: "{" :: body) ++ ["}"])) = ∅.
Proof.
  intros Hp Hone Hhdr Hbody. unfold _blocks_by.
  rewrite splitlines_join_closed
    by (constructor; [done|]; constructor; [done|]; by eapply one_line_all_plain).
  cbn [app foldl]. unfold blocks_by_line at 3. rewrite Hhdr. cbn [bs_out].
  unfold blocks_by_line at 2. cbn [bs_out bs_cur bs_lvl].
  assert (Py.startswith (Py.strip "{") prefix = false) as ->
    by (by destruct Hp as [->| ->]).
  change (count_char "{" "{") with 1%Z. change (count_char "}" "{") with 0%Z.
  cbn [bool_decide decide_rel Z.add Z.sub Z.opp Z.le_dec Z.leb Z.compare
       Pos.compare Pos.compare_cont Pos.add Pos.succ app].
  rewrite bool_decide_eq_false_2 by lia.
  rewrite foldl_app. rewrite blocks_by_plain by (done || lia).
  cbn [foldl]. unfold blocks_by_line. cbn [bs_out bs_cur bs_lvl].
  assert (Py.startswith (Py.strip "}") prefix = false) as ->
    by (by destruct Hp as [->| ->]).
  change (count_char "{" "}") with 0%Z. change (count_char "}" "}") with 1%Z.
  by rewrite bool_decide_eq_false_2 by lia.
Qed.

Lemma blocks_by_brace_on_next_line_witness :
  _blocks_by "Body" (Py.join Py.NL ["Body"; "{"; "  Name = Kerbin"; "  Map = AQ=="; "}"]) = ∅.
Proof.
  exact (blocks_by_brace_on_next_line "Body" "Body" ["  Name = Kerbin"; "  Map = AQ=="]
           (or_intror eq_refl) eq_refl eq_refl
           ltac:(repeat constructor)).
Defined.


Lemma block_key_tagged prefix tag cur key0 :
  (prefix = "Vessel" ∧ tag = "guid =") ∨ (prefix = "Body" ∧ tag = "Name =") →
  foldl (λ key ln,
           let t := Py.strip ln in
           let key := if bool_decide (prefix = "Vessel") && Py.startswith t "guid ="
                      then Some (Py.strip (Py.after_eq t)) else key in
           if bool_decide (prefix = "Body") && Py.startswith t "Name ="
           then Some (Py.strip (Py.after_eq t)) else key) key0 cur
  = foldl (λ key ln, if Py.startswith (Py.strip ln) tag
                     then Some (Py.strip (Py.after_eq (Py.strip ln))) else key) key0 cur.
Proof.
  intros Hp. revert key0. induction cur as [|ln cur IH]; intros key0; [done|].
  cbn [foldl]. rewrite IH. f_equal.
  destruct Hp as [[-> ->]|[-> ->]]; cbn [bool_decide decide_rel andb];
    repeat (rewrite bool_decide_eq_true_2 by done);
    repeat (rewrite bool_decide_eq_false_2 by done); cbn [andb]; done.
Qed.

Lemma tagged_key_last tag l1 kl l2 key0 :
  Py.startswith (Py.strip kl) tag = true →
  Forall (λ ln, Py.startswith (Py.strip ln) tag = false) l2 →
  foldl (λ key ln, if Py.startswith (Py.strip ln) tag
                   then Some (Py.strip (Py.after_eq (Py.strip ln))) else key)
        key0 (l1 ++ kl :: l2)
  = Some (Py.strip (Py.after_eq (Py.strip kl))).
Proof.
  intros Hkl Hl2. rewrite foldl_app. cbn [foldl]. rewrite Hkl.
  generalize (Some (Py.strip (Py.after_eq (Py.strip kl)))). 
  induction Hl2 as [|ln l2 Hln _ IH]; intros k; [done|].
  cbn [foldl]. rewrite Hln. apply IH.
Qed.

(** X26.  The braces of the header line are not counted; the block is
    closed by the first later line that brings the count, begun at one,
    to zero.  So for a header line, lines without braces and a closing
    brace, [_blocks_by] returns exactly that block, its lines stripped
    on the right, under the value of its last [guid =] line (for
    [Vessel]) or [Name =] line (for [Body]), when that value is not
    empty. *)
Theorem blocks_by_closed_block (prefix tag hdr : string) (b1 : list string)
    (kl : string) (b2 : list string) :
  (prefix = "Vessel" ∧ tag = "guid =") ∨ (prefix = "Body" ∧ tag = "Name =") →
  one_line hdr = true → Py.startswith (Py.strip hdr) prefix = true →
  Forall (λ ln, plain_line prefix ln = true) (b1 ++ kl :: b2) →
  Py.startswith (Py.strip kl) tag = true →
  Forall (λ ln, Py.startswith (Py.strip ln) tag = false) b2 →
  Py.strip (Py.after_eq (Py.strip kl)) ≠ "" →
  _blocks_by prefix (Py.join Py.NL ((hdr :: b1 ++ kl :: b2) ++ ["}"]))
  = {[ Py.strip (Py.after_eq (Py.strip kl))
       := Py.join Py.NL ((Py.rstrip <$> hdr :: b1 ++ kl :: b2) ++ ["}"]) ]}.
Proof.
  intros Hp Hone Hhdr Hbody Hkl Hb2 Hkey. unfold _blocks_by.
  rewrite splitlines_join_closed by (constructor; [done|]; by eapply one_line_all_plain).
  cbn [app foldl]. unfold blocks_by_line at 2. rewrite Hhdr. cbn [bs_out].
  rewrite foldl_app. rewrite (blocks_by_plain prefix _ ∅ (Py.rstrip hdr) []) by (done || lia).
  cbn [foldl app]. unfold blocks_by_line. cbn [bs_out bs_cur bs_lvl].
  assert (Py.startswith (Py.strip "}") prefix = false) as ->
    by (by destruct Hp as [[-> _]|[-> _]]).
  change (count_char "{" "}") with 0%Z. change (count_char "}" "}") with 1%Z.
  rewrite bool_decide_eq_true_2 by lia. cbn [bs_out].
  change (Py.rstrip "}") with "}".
  assert (block_key prefix ((Py.rstrip hdr :: (Py.rstrip <$> b1 ++ kl :: b2)) ++ ["}"])
          = Some (Py.strip (Py.after_eq (Py.strip kl)))) as ->.
  { unfold block_key. rewrite (block_key_tagged prefix tag) by done.
    rewrite fmap_app, fmap_cons.
    replace ((Py.rstrip hdr :: (Py.rstrip <$> b1) ++ Py.rstrip kl :: (Py.rstrip <$> b2)) ++ ["}"])
      with ((Py.rstrip hdr :: (Py.rstrip <$> b1))
              ++ Py.rstrip kl :: ((Py.rstrip <$> b2) ++ ["}"]))
      by (cbn [app]; by rewrite <- app_assoc).
    rewrite <- (strip_rstrip kl).
    apply tagged_key_last; [by rewrite strip_rstrip|].
    apply Forall_app. split.
    - apply Forall_fmap. eapply Forall_impl; [exact Hb2|].
      intros ln Hln. simpl. by rewrite strip_rstrip.
    - constructor; [|done]. by destruct Hp as [[_ ->]|[_ ->]]. }
  destruct (Py.strip (Py.after_eq (Py.strip kl))) as [|c key] eqn:Hk; [done|].
  cbn [Py.truthy]. by rewrite insert_empty.
Qed.

Lemma blocks_by_closed_block_witness :
  _blocks_by "Body" (Py.join Py.NL ["Body {"; "  Name = Kerbin"; "  Map = AQ=="; "}"])
  = {[ "Kerbin" := Py.join Py.NL ["Body {"; "  Name = Kerbin"; "  Map = AQ=="; "}"] ]}.
Proof.
  exact (blocks_by_closed_block "Body" "Name =" "Body {" [] "  Name = Kerbin" ["  Map = AQ=="]
           (or_intror (conj eq_refl eq_refl)) eq_refl eq_refl
           ltac:(repeat constructor) eq_refl ltac:(repeat constructor)
           ltac:(discriminate)).
Defined.
